(** * Deferred task dependencies of oneTBB: [_task_handle.h]

    A shallow embedding of [include/oneapi/tbb/detail/_task_handle.h]
    (namespace [tbb::detail::d2], preview task-group extensions enabled) and
    the properties of its dependency graph: successor lists, continuation
    vertices, dynamic states, task handles and completion handles.

    Objects live in typed heaps indexed by addresses; every method of the
    header is a computation in a state-and-fault monad over those heaps.
    Atomic operations are executed one at a time: the development covers the
    executions in which whole operations do not overlap. *)

From stdpp Require Import gmap list.
From Stdlib Require Import ZArith Lia.

Local Open Scope Z_scope.

(** ** Pointers and machine integers *)

(** An object address.  A nullable pointer is an [option addr]. *)
Abbreviation addr := positive (only parsing).
Abbreviation ptr := (option positive) (only parsing).

(** [successor_list_node*] as stored in [m_successor_list_head] and
    [m_next_successor]: null, a real node, or the flag
    [COMPLETED_FLAG = ~std::uintptr_t(0)] reinterpreted as a pointer, which is
    the address of no object. *)
Inductive node_ptr : Type :=
| NullPtr
| NodePtr (n : positive)
| CompletedPtr.

#[export] Instance node_ptr_eq_dec : EqDecision node_ptr.
Proof. solve_decision. Defined.

(** [static constexpr successor_list_state_flag COMPLETED_FLAG] *)
Definition COMPLETED_FLAG : node_ptr := CompletedPtr.

(** [std::uint64_t] and (on the 64-bit targets) [std::size_t] arithmetic. *)
Definition wrap64 (z : Z) : Z := z mod 2 ^ 64.

(** ** Objects *)

Module successor_list_node.
Record t : Type := mk {
    m_next_successor : node_ptr;
    m_continuation_vertex : ptr;
  }.
End successor_list_node.

Module continuation_vertex.
  (** [m_ref_count] is the counter inherited from [d1::reference_vertex]. *)
Record t : Type := mk {
    m_ref_count : Z;
    m_task : ptr;
  }.
End continuation_vertex.

Module task_dynamic_state.
Record t : Type := mk {
    m_task : ptr;
    m_successor_list_head : node_ptr;
    m_continuation_vertex : ptr;
    m_new_dynamic_state : ptr;
    m_num_references : Z;
  }.
End task_dynamic_state.

Module task_handle_task.
  (** [m_ctx] is the address of the task's [task_group_context]. *)
Record t : Type := mk {
    m_ctx : positive;
    m_dynamic_state : ptr;
  }.
End task_handle_task.

(** What the code does to the shared objects and to the scheduler, in the
    order it does it. *)
Inductive event : Type :=
| Spawn (task ctx : positive)
| StateReserve (s : positive)
| StateRelease (s : positive)
| StateFree (s : positive)
| StoreNewState (s s' : positive)
| ExchangeHead (s : positive) (desired old : node_ptr)
| CasHead (s : positive) (expected desired : node_ptr) (ok : bool)
| VertexReserve (v : positive)
| VertexRelease (v : positive)
| VertexReleaseBypass (v : positive) (delta : Z) (next_task : ptr)
| VertexFree (v : positive)
| NodeFinalize (n : positive).

#[export] Instance event_eq_dec : EqDecision event.
Proof. solve_decision. Defined.

(** The heaps, the handle objects ([task_handle::m_handle] and
    [task_completion_handle::m_task_state] by the address of the handle), the
    build mode ([__TBB_ASSERT] is active when [use_assert] is set) and the
    trace. *)
Record machine : Type := Machine {
  nodes : gmap positive successor_list_node.t;
  vertices : gmap positive continuation_vertex.t;
  states : gmap positive task_dynamic_state.t;
  tasks : gmap positive task_handle_task.t;
  task_handles : gmap positive ptr;
  completion_handles : gmap positive ptr;
  use_assert : bool;
  trace : list event;
}.

Definition set_nodes (f : gmap positive successor_list_node.t -> gmap positive successor_list_node.t)
    (m : machine) : machine :=
  Machine (f (nodes m)) (vertices m) (states m) (tasks m) (task_handles m)
          (completion_handles m) (use_assert m) (trace m).
Definition set_vertices (f : gmap positive continuation_vertex.t -> gmap positive continuation_vertex.t)
    (m : machine) : machine :=
  Machine (nodes m) (f (vertices m)) (states m) (tasks m) (task_handles m)
          (completion_handles m) (use_assert m) (trace m).
Definition set_states (f : gmap positive task_dynamic_state.t -> gmap positive task_dynamic_state.t)
    (m : machine) : machine :=
  Machine (nodes m) (vertices m) (f (states m)) (tasks m) (task_handles m)
          (completion_handles m) (use_assert m) (trace m).
Definition set_tasks (f : gmap positive task_handle_task.t -> gmap positive task_handle_task.t)
    (m : machine) : machine :=
  Machine (nodes m) (vertices m) (states m) (f (tasks m)) (task_handles m)
          (completion_handles m) (use_assert m) (trace m).
Definition set_task_handles (f : gmap positive ptr -> gmap positive ptr)
    (m : machine) : machine :=
  Machine (nodes m) (vertices m) (states m) (tasks m) (f (task_handles m))
          (completion_handles m) (use_assert m) (trace m).
Definition set_completion_handles (f : gmap positive ptr -> gmap positive ptr)
    (m : machine) : machine :=
  Machine (nodes m) (vertices m) (states m) (tasks m) (task_handles m)
          (f (completion_handles m)) (use_assert m) (trace m).
Definition log (e : event) (m : machine) : machine :=
  Machine (nodes m) (vertices m) (states m) (tasks m) (task_handles m)
          (completion_handles m) (use_assert m) (trace m ++ [e]).

(** ** The monad *)

Inductive fault : Type :=
| NullDereference      (* a member of a null object is accessed *)
| InvalidPointer       (* an address that holds no live object is accessed *)
| AssertionFailure     (* __TBB_ASSERT fails in a build with assertions *)
| OutOfFuel.           (* the iteration budget of the model is spent *)

Inductive outcome (A : Type) : Type :=
| Done (a : A) (m : machine)
| Abort (f : fault) (m : machine).
Arguments Done {A} a m.
Arguments Abort {A} f m.

Definition M (A : Type) : Type := machine -> outcome A.

Definition ret {A} (a : A) : M A := fun m => Done a m.
Definition bind {A B} (c : M A) (k : A -> M B) : M B :=
  fun m => match c m with
           | Done a m' => k a m'
           | Abort f m' => Abort f m'
           end.
Definition abort {A} (f : fault) : M A := fun m => Abort f m.
Definition modify (f : machine -> machine) : M unit := fun m => Done tt (f m).
Definition emit (e : event) : M unit := modify (log e).

Notation "x <- c ;; k" := (bind c (fun x => k))
  (at level 100, c at next level, right associativity).
Notation "c ;;; k" := (bind c (fun _ => k))
  (at level 100, right associativity).

(** [__TBB_ASSERT(cond, msg)] *)
Definition tbb_assert (cond : bool) : M unit :=
  fun m => if use_assert m && negb cond then Abort AssertionFailure m else Done tt m.

(** [p->...] on a nullable pointer *)
Definition nonnull (p : ptr) : M positive :=
  match p with
  | Some a => ret a
  | None => abort NullDereference
  end.

(** ** Memory accesses *)

Definition node_at (n : positive) : M successor_list_node.t :=
  fun m => match nodes m !! n with
           | Some x => Done x m
           | None => Abort InvalidPointer m
           end.
Definition vertex_at (v : positive) : M continuation_vertex.t :=
  fun m => match vertices m !! v with
           | Some x => Done x m
           | None => Abort InvalidPointer m
           end.
Definition state_at (s : positive) : M task_dynamic_state.t :=
  fun m => match states m !! s with
           | Some x => Done x m
           | None => Abort InvalidPointer m
           end.
Definition task_at (t : positive) : M task_handle_task.t :=
  fun m => match tasks m !! t with
           | Some x => Done x m
           | None => Abort InvalidPointer m
           end.

Definition put_node (n : positive) (x : successor_list_node.t) : M unit :=
  modify (set_nodes (insert n x)).
Definition put_vertex (v : positive) (x : continuation_vertex.t) : M unit :=
  modify (set_vertices (insert v x)).
Definition put_state (s : positive) (x : task_dynamic_state.t) : M unit :=
  modify (set_states (insert s x)).
Definition put_task (t : positive) (x : task_handle_task.t) : M unit :=
  modify (set_tasks (insert t x)).

(** [node_ptr] dereferenced: null and the flag are the address of no node. *)
Definition deref_node (p : node_ptr) : M positive :=
  match p with
  | NullPtr => abort NullDereference
  | NodePtr n => ret n
  | CompletedPtr => abort InvalidPointer
  end.

(** [d1::small_object_allocator]: [new_object] returns an address that holds
    no live object of that kind, [delete_object] ends the object's life.
    Allocation failure is not modelled. *)
Definition new_node (x : successor_list_node.t) : M positive :=
  fun m => let n := fresh (dom (nodes m)) in Done n (set_nodes (insert n x) m).
Definition new_vertex (x : continuation_vertex.t) : M positive :=
  fun m => let v := fresh (dom (vertices m)) in Done v (set_vertices (insert v x) m).
Definition new_state (x : task_dynamic_state.t) : M positive :=
  fun m => let s := fresh (dom (states m)) in Done s (set_states (insert s x) m).

Definition delete_node (n : positive) : M unit :=
  _ <- node_at n ;; modify (set_nodes (delete n)).
Definition delete_vertex (v : positive) : M unit :=
  _ <- vertex_at v ;; modify (set_vertices (delete v)) ;;; emit (VertexFree v).
Definition delete_state (s : positive) : M unit :=
  _ <- state_at s ;; modify (set_states (delete s)) ;;; emit (StateFree s).

(** [d1::spawn] of a task with its own context, [task->ctx()] *)
Definition spawn (t : positive) : M unit :=
  x <- task_at t ;; emit (Spawn t (task_handle_task.m_ctx x)).

(** ** [class successor_list_node] *)

(** The constructor, through [alloc.new_object<successor_list_node>]. *)
Definition successor_list_node_new (successor : ptr) : M positive :=
  new_node (successor_list_node.mk NullPtr successor).

Definition successor_list_node_get_continuation_vertex (n : positive) : M ptr :=
  x <- node_at n ;; ret (successor_list_node.m_continuation_vertex x).

Definition get_next_node (n : positive) : M node_ptr :=
  x <- node_at n ;; ret (successor_list_node.m_next_successor x).

Definition set_next_node (n : positive) (next_node : node_ptr) : M unit :=
  x <- node_at n ;;
  put_node n (successor_list_node.mk next_node (successor_list_node.m_continuation_vertex x)).

Definition successor_list_node_finalize (n : positive) : M unit :=
  delete_node n ;;; emit (NodeFinalize n).

(** ** [class task_dynamic_state], first part *)

Definition with_head (h : node_ptr) (x : task_dynamic_state.t) : task_dynamic_state.t :=
  task_dynamic_state.mk (task_dynamic_state.m_task x) h
    (task_dynamic_state.m_continuation_vertex x)
    (task_dynamic_state.m_new_dynamic_state x)
    (task_dynamic_state.m_num_references x).
Definition with_vertex (v : ptr) (x : task_dynamic_state.t) : task_dynamic_state.t :=
  task_dynamic_state.mk (task_dynamic_state.m_task x)
    (task_dynamic_state.m_successor_list_head x) v
    (task_dynamic_state.m_new_dynamic_state x)
    (task_dynamic_state.m_num_references x).
Definition with_new_state (s' : ptr) (x : task_dynamic_state.t) : task_dynamic_state.t :=
  task_dynamic_state.mk (task_dynamic_state.m_task x)
    (task_dynamic_state.m_successor_list_head x)
    (task_dynamic_state.m_continuation_vertex x) s'
    (task_dynamic_state.m_num_references x).
Definition with_references (r : Z) (x : task_dynamic_state.t) : task_dynamic_state.t :=
  task_dynamic_state.mk (task_dynamic_state.m_task x)
    (task_dynamic_state.m_successor_list_head x)
    (task_dynamic_state.m_continuation_vertex x)
    (task_dynamic_state.m_new_dynamic_state x) r.

(** The constructor: empty list, no vertex, no new state, one reference
    (the task's co-ownership). *)
Definition task_dynamic_state_new (task : ptr) : M positive :=
  new_state (task_dynamic_state.mk task NullPtr None None 1).

(** [void reserve() { ++m_num_references; }] *)
Definition task_dynamic_state_reserve (s : positive) : M unit :=
  x <- state_at s ;;
  put_state s (with_references (wrap64 (task_dynamic_state.m_num_references x + 1)) x) ;;;
  emit (StateReserve s).

(** [release]: the last reference unregisters this state from the state its
    successors were transferred to, then deletes this state. *)
Fixpoint task_dynamic_state_release (fuel : nat) (s : positive) : M unit :=
  match fuel with
  | O => abort OutOfFuel
  | S fuel' =>
      x <- state_at s ;;
      let r := wrap64 (task_dynamic_state.m_num_references x - 1) in
      put_state s (with_references r x) ;;;
      emit (StateRelease s) ;;;
      if r =? 0 then
        x' <- state_at s ;;
        match task_dynamic_state.m_new_dynamic_state x' with
        | Some new_state => task_dynamic_state_release fuel' new_state
        | None => ret tt
        end ;;;
        delete_state s
      else ret tt
  end.

Definition task_dynamic_state_has_dependencies (s : positive) : M bool :=
  x <- state_at s ;; ret (bool_decide (task_dynamic_state.m_continuation_vertex x <> None)).

Definition unset_dependency (s : positive) : M unit :=
  x <- state_at s ;; put_state s (with_vertex None x).

Definition is_completed (node : node_ptr) : bool :=
  bool_decide (node = COMPLETED_FLAG).

(** Modelled from the spec: [is_alive], which [check_transfer_or_completion]
    calls and the header does not declare; the specification defines it as
    [is_alive(p) = (p != COMPLETED)]. *)
Definition is_alive (node : node_ptr) : bool :=
  bool_decide (node <> COMPLETED_FLAG).

(** [m_successor_list_head.exchange(flag)] *)
Definition fetch_successor_list (s : positive) (new_list_state_flag : node_ptr) : M node_ptr :=
  x <- state_at s ;;
  put_state s (with_head new_list_state_flag x) ;;;
  emit (ExchangeHead s new_list_state_flag (task_dynamic_state.m_successor_list_head x)) ;;;
  ret (task_dynamic_state.m_successor_list_head x).

(** [m_successor_list_head.compare_exchange_strong(expected, desired)]: the
    result and the value left in [expected]. *)
Definition compare_exchange_head (s : positive) (expected desired : node_ptr)
    : M (bool * node_ptr) :=
  x <- state_at s ;;
  let current := task_dynamic_state.m_successor_list_head x in
  if bool_decide (current = expected) then
    put_state s (with_head desired x) ;;;
    emit (CasHead s expected desired true) ;;;
    ret (true, expected)
  else
    emit (CasHead s expected desired false) ;;;
    ret (false, current).

Definition load_head (s : positive) : M node_ptr :=
  x <- state_at s ;; ret (task_dynamic_state.m_successor_list_head x).

Definition load_new_dynamic_state (s : positive) : M ptr :=
  x <- state_at s ;; ret (task_dynamic_state.m_new_dynamic_state x).

(** ** [class continuation_vertex] *)

(** The constructor: [d1::reference_vertex(nullptr, 1)], one reference for the
    [task_handle] that owns the task. *)
Definition continuation_vertex_new (task : ptr) : M positive :=
  new_vertex (continuation_vertex.mk 1 task).

(** Modelled from the spec: [reserve] of the base class [d1::reference_vertex],
    which is declared in [_task.h]; the specification has it fetch-add one on
    the reference count. *)
Definition continuation_vertex_reserve (v : positive) : M unit :=
  x <- vertex_at v ;;
  put_vertex v (continuation_vertex.mk (wrap64 (continuation_vertex.m_ref_count x + 1))
                                       (continuation_vertex.m_task x)) ;;;
  emit (VertexReserve v).

(** Modelled from the spec: [release] of the base class [d1::reference_vertex],
    which is declared in [_task.h]; the specification has it fetch-sub one and,
    when the result is zero, free the vertex without scheduling the task. *)
Definition continuation_vertex_release (v : positive) : M unit :=
  x <- vertex_at v ;;
  let r := wrap64 (continuation_vertex.m_ref_count x - 1) in
  put_vertex v (continuation_vertex.mk r (continuation_vertex.m_task x)) ;;;
  emit (VertexRelease v) ;;;
  if r =? 0 then delete_vertex v else ret tt.

(** ** [class task_handle_task] and [task_dynamic_state::get_continuation_vertex] *)

Definition ctx (t : positive) : M positive :=
  x <- task_at t ;; ret (task_handle_task.m_ctx x).

(** [get_dynamic_state]: creates the state on first use; the loser of the
    [compare_exchange_strong] deletes its own. *)
Definition get_dynamic_state (t : positive) : M ptr :=
  x <- task_at t ;;
  let current_state := task_handle_task.m_dynamic_state x in
  r <- match current_state with
       | None =>
           new_state <- task_dynamic_state_new (Some t) ;;
           x' <- task_at t ;;
           if bool_decide (task_handle_task.m_dynamic_state x' = current_state) then
             put_task t (task_handle_task.mk (task_handle_task.m_ctx x') (Some new_state)) ;;;
             ret (Some new_state)
           else
             delete_state new_state ;;;
             ret (task_handle_task.m_dynamic_state x')
       | Some _ => ret current_state
       end ;;
  tbb_assert (bool_decide (r <> None)) ;;;
  ret r.

Definition task_dynamic_state_get_continuation_vertex (s : positive) : M ptr :=
  x <- state_at s ;;
  let current := task_dynamic_state.m_continuation_vertex x in
  r <- match current with
       | None =>
           new_cv <- continuation_vertex_new (task_dynamic_state.m_task x) ;;
           x' <- state_at s ;;
           if bool_decide (task_dynamic_state.m_continuation_vertex x' = current) then
             put_state s (with_vertex (Some new_cv) x') ;;;
             ret (Some new_cv)
           else
             delete_vertex new_cv ;;;
             ret (task_dynamic_state.m_continuation_vertex x')
       | Some _ => ret current
       end ;;
  tbb_assert (bool_decide (r <> None)) ;;;
  ret r.

(** [release_bypass]: the last reference clears the dependency mark of the
    task's dynamic state, hands the task out and deletes the vertex. *)
Definition release_bypass (v : positive) (delta : Z) : M ptr :=
  x <- vertex_at v ;;
  let ref := wrap64 (continuation_vertex.m_ref_count x - delta) in
  put_vertex v (continuation_vertex.mk ref (continuation_vertex.m_task x)) ;;;
  next_task <-
    (if ref =? 0 then
       t <- nonnull (continuation_vertex.m_task x) ;;
       d <- get_dynamic_state t ;;
       s <- nonnull d ;;
       unset_dependency s ;;;
       delete_vertex v ;;;
       ret (continuation_vertex.m_task x)
     else ret None) ;;
  emit (VertexReleaseBypass v delta next_task) ;;;
  ret next_task.

(** ** [release_successor_list] *)

(** The [while (node != nullptr)] loop, one iteration per unit of fuel;
    [next_task] is the local variable of that name. *)
Fixpoint release_successor_list_loop (fuel : nat) (node : node_ptr) (next_task : ptr)
    : M ptr :=
  match fuel with
  | O => abort OutOfFuel
  | S fuel' =>
      if bool_decide (node <> NullPtr) then
        n <- deref_node node ;;
        next_node <- get_next_node n ;;
        v <- successor_list_node_get_continuation_vertex n ;;
        v' <- nonnull v ;;
        successor_task <- release_bypass v' 1 ;;
        successor_list_node_finalize n ;;;
        match successor_task with
        | Some t =>
            match next_task with
            | None => release_successor_list_loop fuel' next_node successor_task
            | Some _ => spawn t ;;; release_successor_list_loop fuel' next_node next_task
            end
        | None => release_successor_list_loop fuel' next_node next_task
        end
      else ret next_task
  end.

Definition release_successor_list (fuel : nat) (node : node_ptr) : M ptr :=
  release_successor_list_loop fuel node None.

(** ** [class task_dynamic_state], second part *)

(** [complete_task] *)
Definition task_dynamic_state_complete_task (fuel : nat) (s : positive) : M ptr :=
  list <- fetch_successor_list s COMPLETED_FLAG ;;
  release_successor_list fuel list.

(** [check_transfer_or_completion]; [add_node] is the [add_successor_node] of
    the receiving state. *)
Definition check_transfer_or_completion (add_node : positive -> ptr -> M unit)
    (s : positive) (current_list_head : node_ptr) (new_successor_node : ptr) : M bool :=
  if negb (is_alive current_list_head) then
    new_state <- load_new_dynamic_state s ;;
    match new_state with
    | Some s' => add_node s' new_successor_node
    | None =>
        n <- nonnull new_successor_node ;;
        v <- successor_list_node_get_continuation_vertex n ;;
        v' <- nonnull v ;;
        continuation_vertex_release v' ;;;
        successor_list_node_finalize n
    end ;;;
    ret true
  else ret false.

(** The [while] loop of [add_successor_node]: a failed exchange followed by a
    failed check updates the new node and tries again. *)
Fixpoint add_successor_node_loop (add_node : positive -> ptr -> M unit) (fuel : nat)
    (s : positive) (current_successor_list_head : node_ptr) (new_successor_node : ptr)
    : M unit :=
  match fuel with
  | O => abort OutOfFuel
  | S fuel' =>
      n <- nonnull new_successor_node ;;
      r <- compare_exchange_head s current_successor_list_head (NodePtr n) ;;
      if fst r then ret tt
      else
        b <- check_transfer_or_completion add_node s (snd r) new_successor_node ;;
        if b then ret tt
        else
          set_next_node n (snd r) ;;;
          add_successor_node_loop add_node fuel' s (snd r) new_successor_node
  end.

Fixpoint add_successor_node (fuel : nat) (s : positive) (new_successor_node : ptr) : M unit :=
  match fuel with
  | O => abort OutOfFuel
  | S fuel' =>
      tbb_assert (bool_decide (new_successor_node <> None)) ;;;
      current_successor_list_head <- load_head s ;;
      b <- check_transfer_or_completion (add_successor_node fuel') s
             current_successor_list_head new_successor_node ;;
      if negb b then
        n <- nonnull new_successor_node ;;
        set_next_node n current_successor_list_head ;;;
        add_successor_node_loop (add_successor_node fuel') fuel' s
          current_successor_list_head new_successor_node
      else ret tt
  end.

Fixpoint add_successor (fuel : nat) (s : positive) (successor : ptr) : M unit :=
  match fuel with
  | O => abort OutOfFuel
  | S fuel' =>
      tbb_assert (bool_decide (successor <> None)) ;;;
      current_successor_list_head <- load_head s ;;
      if negb (is_completed current_successor_list_head) then
        v <- nonnull successor ;;
        continuation_vertex_reserve v ;;;
        new_successor_node <- successor_list_node_new successor ;;
        add_successor_node fuel' s (Some new_successor_node)
      else
        new_state <- load_new_dynamic_state s ;;
        match new_state with
        | Some s' => add_successor fuel' s' successor
        | None => ret tt
        end
  end.

(** The first loop of [add_successor_list]: walk to the last node. *)
Fixpoint last_node_loop (fuel : nat) (last_node : positive) : M positive :=
  match fuel with
  | O => abort OutOfFuel
  | S fuel' =>
      next <- get_next_node last_node ;;
      if bool_decide (next <> NullPtr) then
        n <- deref_node next ;;
        (* the next test of the loop reads the node *)
        last_node_loop fuel' n
      else ret last_node
  end.

(** The second loop of [add_successor_list]: publish the list. *)
Fixpoint add_successor_list_loop (fuel : nat) (s : positive)
    (current_successor_list_head successor_list : node_ptr) (last_node : positive) : M unit :=
  match fuel with
  | O => abort OutOfFuel
  | S fuel' =>
      r <- compare_exchange_head s current_successor_list_head successor_list ;;
      if fst r then ret tt
      else
        set_next_node last_node (snd r) ;;;
        add_successor_list_loop fuel' s (snd r) successor_list last_node
  end.

Definition add_successor_list (fuel : nat) (s : positive) (successor_list : node_ptr) : M unit :=
  if bool_decide (successor_list = NullPtr) then ret tt
  else
    first <- deref_node successor_list ;;
    last_node <- last_node_loop fuel first ;;
    current_successor_list_head <- load_head s ;;
    set_next_node last_node current_successor_list_head ;;;
    add_successor_list_loop fuel s current_successor_list_head successor_list last_node.

(** [task_dynamic_state::release_continuation] *)
Definition task_dynamic_state_release_continuation (s : positive) : M unit :=
  x <- state_at s ;;
  let current_vertex := task_dynamic_state.m_continuation_vertex x in
  tbb_assert (bool_decide (current_vertex <> None)) ;;;
  v <- nonnull current_vertex ;;
  task <- release_bypass v 1 ;;
  match task with
  | Some t => spawn t
  | None => ret tt
  end.

(** Modelled from the spec: the flag that [transfer_successors_to] exchanges
    into the list head.  The header calls [fetch_successor_list()] without an
    argument and declares no default for it; the specification has this
    exchange install [COMPLETED]. *)
Definition TRANSFER_FLAG : node_ptr := COMPLETED_FLAG.

(** [task_dynamic_state::transfer_successors_to] *)
Definition task_dynamic_state_transfer_successors_to (fuel : nat) (s : positive)
    (new_dynamic_state : ptr) : M unit :=
  tbb_assert (bool_decide (new_dynamic_state <> None)) ;;;
  s' <- nonnull new_dynamic_state ;;
  task_dynamic_state_reserve s' ;;;
  x <- state_at s ;;
  put_state s (with_new_state new_dynamic_state x) ;;;
  emit (StoreNewState s s') ;;;
  successor_list <- fetch_successor_list s TRANSFER_FLAG ;;
  add_successor_list fuel s' successor_list.

(** [internal_set_task_order] *)
Definition internal_set_task_order (fuel : nat) (pred succ : ptr) : M unit :=
  tbb_assert (bool_decide (pred <> None) && bool_decide (succ <> None)) ;;;
  succ' <- nonnull succ ;;
  v <- task_dynamic_state_get_continuation_vertex succ' ;;
  pred' <- nonnull pred ;;
  add_successor fuel pred' v.

(** ** [class task_handle_task], second part *)

Definition task_handle_task_complete_task (fuel : nat) (t : positive) : M ptr :=
  x <- task_at t ;;
  match task_handle_task.m_dynamic_state x with
  | Some current_state => task_dynamic_state_complete_task fuel current_state
  | None => ret None
  end.

Definition task_handle_task_release_continuation (t : positive) : M unit :=
  x <- task_at t ;;
  match task_handle_task.m_dynamic_state x with
  | Some current_state =>
      b <- task_dynamic_state_has_dependencies current_state ;;
      if b then task_dynamic_state_release_continuation current_state else ret tt
  | None => ret tt
  end.

Definition task_handle_task_has_dependencies (t : positive) : M bool :=
  x <- task_at t ;;
  match task_handle_task.m_dynamic_state x with
  | Some current_state => task_dynamic_state_has_dependencies current_state
  | None => ret false
  end.

Definition task_handle_task_transfer_successors_to (fuel : nat) (t : positive)
    (other_task_state : ptr) : M unit :=
  tbb_assert (bool_decide (other_task_state <> None)) ;;;
  x <- task_at t ;;
  match task_handle_task.m_dynamic_state x with
  | Some current_state =>
      task_dynamic_state_transfer_successors_to fuel current_state other_task_state
  | None => ret tt
  end.

(** ** [class task_handle] and [struct task_handle_accessor] *)

(** [th.m_handle] of the handle object at address [th]. *)
Definition m_handle (th : positive) : M ptr :=
  fun m => match task_handles m !! th with
           | Some p => Done p m
           | None => Abort InvalidPointer m
           end.

(** [explicit operator bool] *)
Definition task_handle_bool (th : positive) : M bool :=
  p <- m_handle th ;; ret (bool_decide (p <> None)).

(** [task_handle::release], the [release] of the [unique_ptr]. *)
Definition task_handle_release (th : positive) : M ptr :=
  p <- m_handle th ;;
  modify (set_task_handles (insert th None)) ;;;
  ret p.

(** [task_handle_accessor::release] *)
Definition task_handle_accessor_release (th : positive) : M ptr :=
  p <- m_handle th ;;
  t <- nonnull p ;;
  task_handle_task_release_continuation t ;;;
  task_handle_release th.

(** [task_handle_accessor::has_dependencies] *)
Definition task_handle_accessor_has_dependencies (th : positive) : M bool :=
  p <- m_handle th ;;
  tbb_assert (bool_decide (p <> None)) ;;;
  t <- nonnull p ;;
  task_handle_task_has_dependencies t.

(** [task_handle_accessor::get_task_dynamic_state] *)
Definition task_handle_accessor_get_task_dynamic_state (th : positive) : M ptr :=
  p <- m_handle th ;;
  t <- nonnull p ;;
  get_dynamic_state t.

(** ** [class task_completion_handle] *)

(** [m_task_state] of the completion handle object at address [h]. *)
Definition m_task_state (h : positive) : M ptr :=
  fun m => match completion_handles m !! h with
           | Some p => Done p m
           | None => Abort InvalidPointer m
           end.

Definition set_m_task_state (h : positive) (p : ptr) : M unit :=
  modify (set_completion_handles (insert h p)).

(** The default constructor, building the object at [this]. *)
Definition task_completion_handle_default (this : positive) : M unit :=
  set_m_task_state this None.

(** The copy constructor. *)
Definition task_completion_handle_copy (this other : positive) : M unit :=
  p <- m_task_state other ;;
  set_m_task_state this p ;;;
  match p with
  | Some s => task_dynamic_state_reserve s
  | None => ret tt
  end.

(** The move constructor. *)
Definition task_completion_handle_move (this other : positive) : M unit :=
  p <- m_task_state other ;;
  set_m_task_state this p ;;;
  set_m_task_state other None.

(** The constructor from a [task_handle]: the member initialiser runs before
    the body. *)
Definition task_completion_handle_from_task_handle (this th : positive) : M unit :=
  p <- m_handle th ;;
  t <- nonnull p ;;
  s <- get_dynamic_state t ;;
  set_m_task_state this s ;;;
  b <- task_handle_bool th ;;
  tbb_assert b ;;;
  s' <- nonnull s ;;
  task_dynamic_state_reserve s'.

(** The destructor. *)
Definition task_completion_handle_destroy (fuel : nat) (this : positive) : M unit :=
  p <- m_task_state this ;;
  match p with
  | Some s => task_dynamic_state_release fuel s
  | None => ret tt
  end ;;;
  modify (set_completion_handles (delete this)).


(** Move assignment. *)
Definition task_completion_handle_assign_move (fuel : nat) (this other : positive) : M unit :=
  if bool_decide (this <> other) then
    p <- m_task_state this ;;
    match p with
    | Some s => task_dynamic_state_release fuel s
    | None => ret tt
    end ;;;
    q <- m_task_state other ;;
    set_m_task_state this q ;;;
    set_m_task_state other None
  else ret tt.

(** Assignment from a [task_handle]. *)
Definition task_completion_handle_assign_task_handle (fuel : nat) (this th : positive)
    : M unit :=
  b <- task_handle_bool th ;;
  tbb_assert b ;;;
  p <- m_task_state this ;;
  match p with
  | Some s => task_dynamic_state_release fuel s
  | None => ret tt
  end ;;;
  q <- m_handle th ;;
  t <- nonnull q ;;
  s <- get_dynamic_state t ;;
  set_m_task_state this s ;;;
  tbb_assert (bool_decide (s <> None)) ;;;
  s' <- nonnull s ;;
  task_dynamic_state_reserve s'.

(** [explicit operator bool] *)
Definition task_completion_handle_bool (h : positive) : M bool :=
  p <- m_task_state h ;; ret (bool_decide (p <> None)).

(** [operator==(const task_completion_handle&, std::nullptr_t)] *)
Definition task_completion_handle_eq_nullptr (h : positive) : M bool :=
  p <- m_task_state h ;; ret (bool_decide (p = None)).

(** [operator==(const task_completion_handle&, const task_completion_handle&)] *)
Definition task_completion_handle_eq (lhs rhs : positive) : M bool :=
  p <- m_task_state lhs ;; q <- m_task_state rhs ;; ret (bool_decide (p = q)).

(** * Reasoning about runs *)

Ltac munfold :=
  cbv beta iota delta [bind ret abort modify emit nonnull deref_node
    node_at vertex_at state_at task_at put_node put_vertex put_state put_task
    new_node new_vertex new_state delete_node delete_vertex delete_state spawn
    tbb_assert m_handle m_task_state set_m_task_state] in *.
Ltac mproj :=
  cbn [nodes vertices states tasks task_handles completion_handles use_assert trace
       set_nodes set_vertices set_states set_tasks set_task_handles set_completion_handles
       log fst snd negb andb orb
       successor_list_node.m_next_successor successor_list_node.m_continuation_vertex
       continuation_vertex.m_ref_count continuation_vertex.m_task
       task_dynamic_state.m_task task_dynamic_state.m_successor_list_head
       task_dynamic_state.m_continuation_vertex task_dynamic_state.m_new_dynamic_state
       task_dynamic_state.m_num_references
       task_handle_task.m_ctx task_handle_task.m_dynamic_state
       with_head with_vertex with_new_state with_references] in *.
Ltac msimp :=
  repeat (first [ progress mproj
                | rewrite lookup_insert_eq
                | rewrite lookup_delete_eq
                | rewrite lookup_insert_ne by congruence
                | rewrite lookup_delete_ne by congruence
                | rewrite bool_decide_eq_true_2 by congruence
                | rewrite bool_decide_eq_false_2 by congruence
                | rewrite Z.eqb_refl
                | rewrite andb_false_r
                | rewrite andb_true_r ]).

(** Machines as explicit records, to compare them field by field. *)
Ltac mrecord :=
  cbv beta iota delta [set_nodes set_vertices set_states set_tasks set_task_handles
                       set_completion_handles log];
  cbn [nodes vertices states tasks task_handles completion_handles use_assert trace].

(** An address the allocator hands out holds no live object. *)
Lemma fresh_unallocated {A} (h : gmap positive A) : h !! fresh (dom h) = None.
Proof. apply not_elem_of_dom, is_fresh. Qed.

Lemma assert_holds (m : machine) : tbb_assert true m = Done tt m.
Proof. unfold tbb_assert. rewrite andb_false_r. reflexivity. Qed.

Lemma wrap64_small (z : Z) : 0 <= z < 2 ^ 64 -> wrap64 z = z.
Proof. intros H. unfold wrap64. apply Z.mod_small. exact H. Qed.

(** The task of a vertex can be handed out: it is live, and its dynamic state,
    if it has one, is live. *)
Definition task_wf (m : machine) (t : positive) : Prop :=
  exists tk, tasks m !! t = Some tk /\
    forall s, task_handle_task.m_dynamic_state tk = Some s -> is_Some (states m !! s).

Section get_dynamic_state.
Variables (m : machine) (t : positive) (tk : task_handle_task.t).
Hypothesis Htask : tasks m !! t = Some tk.

Lemma get_dynamic_state_present (s : positive) :
    task_handle_task.m_dynamic_state tk = Some s ->
    get_dynamic_state t m = Done (Some s) m.
  Proof.
    intros Hs. unfold get_dynamic_state. munfold. rewrite Htask, Hs. msimp. reflexivity.
  Qed.

Lemma get_dynamic_state_absent :
    task_handle_task.m_dynamic_state tk = None ->
    get_dynamic_state t m =
      let s := fresh (dom (states m)) in
      Done (Some s)
        (set_tasks (insert t (task_handle_task.mk (task_handle_task.m_ctx tk) (Some s)))
          (set_states (insert s (task_dynamic_state.mk (Some t) NullPtr None None 1)) m)).
  Proof.
    intros Hs. unfold get_dynamic_state, task_dynamic_state_new. munfold.
    rewrite Htask, Hs. msimp. rewrite Htask, Hs. msimp. reflexivity.
  Qed.
End get_dynamic_state.

Section release_bypass.
Variables (m : machine) (v : positive) (x : continuation_vertex.t) (delta : Z).
Hypothesis Hvertex : vertices m !! v = Some x.

Let ref : Z := wrap64 (continuation_vertex.m_ref_count x - delta).

Lemma release_bypass_pending :
    ref <> 0 ->
    release_bypass v delta m =
      Done None (log (VertexReleaseBypass v delta None)
        (set_vertices (insert v (continuation_vertex.mk ref (continuation_vertex.m_task x))) m)).
  Proof.
    intros Hnz. unfold release_bypass. munfold. rewrite Hvertex.
    apply Z.eqb_neq in Hnz. fold ref. rewrite Hnz. reflexivity.
  Qed.

  (** The count reaches zero: what is left of the machine afterwards. *)
Lemma release_bypass_last (t : positive) :
    ref = 0 ->
    continuation_vertex.m_task x = Some t ->
    task_wf m t ->
    exists m' s st tk,
      release_bypass v delta m = Done (Some t) m' /\
      nodes m' = nodes m /\
      vertices m' = delete v (vertices m) /\
      tasks m !! t = Some tk /\
      tasks m' = <[t := task_handle_task.mk (task_handle_task.m_ctx tk) (Some s)]> (tasks m) /\
      (task_handle_task.m_dynamic_state tk = Some s \/
       task_handle_task.m_dynamic_state tk = None /\ s = fresh (dom (states m))) /\
      states m' = <[s := st]> (states m) /\
      task_dynamic_state.m_continuation_vertex st = None /\
      (forall st0, states m !! s = Some st0 -> st = with_vertex None st0) /\
      task_handles m' = task_handles m /\
      completion_handles m' = completion_handles m /\
      use_assert m' = use_assert m /\
      trace m' = trace m ++ [VertexFree v; VertexReleaseBypass v delta (Some t)].
  Proof.
    intros Hz Ht (tk & Htk & Hdyn).
    destruct (task_handle_task.m_dynamic_state tk) as [s|] eqn:Hs.
    - destruct (Hdyn s eq_refl) as [st Hst].
      eexists _, s, (with_vertex None st), tk.
      split.
      { unfold release_bypass, unset_dependency. munfold. rewrite Hvertex. fold ref.
        rewrite Hz, Ht. msimp.
        rewrite (get_dynamic_state_present _ t tk) with (s := s) by (msimp; done).
        msimp. rewrite Hst. msimp. reflexivity. }
      msimp. rewrite delete_insert_eq.
      repeat split; try done; auto.
      + destruct tk; simpl in *; subst. symmetry. apply insert_id. done.
      + intros st0 H0. congruence.
      + rewrite <- app_assoc. reflexivity.
    - eexists _, (fresh (dom (states m))), _, tk.
      split.
      { unfold release_bypass, unset_dependency. munfold. rewrite Hvertex. fold ref.
        rewrite Hz, Ht. msimp.
        rewrite (get_dynamic_state_absent _ t tk) by (msimp; done).
        msimp. reflexivity. }
      msimp. rewrite delete_insert_eq, insert_insert_eq.
      repeat split; try done; auto.
      + intros st0 H0. rewrite fresh_unallocated in H0. done.
      + rewrite <- app_assoc. reflexivity.
  Qed.
End release_bypass.

(** * The continuation vertex: [release_bypass] *)

(** One task with no dynamic state yet and its vertex, holding [count]
    references. *)
Definition lone_vertex (count : Z) : machine :=
  Machine ∅ {[ 1%positive := continuation_vertex.mk count (Some 1%positive) ]}
          ∅ {[ 1%positive := task_handle_task.mk 9%positive None ]} ∅ ∅ true [].

(** C7: for a continuation vertex with reference count [r] and a delta
    [d <= r], [release_bypass(d)] subtracts [d] from the count; when the result
    is zero it clears the dependency mark ([m_continuation_vertex]) of the
    task's dynamic state, deletes the vertex and returns the task; when the
    result is not zero it returns null, the vertex stays with the new count and
    nothing is spawned. *)
Theorem release_bypass_subtracts (m : machine) (v : positive)
    (x : continuation_vertex.t) (d : Z) :
  vertices m !! v = Some x ->
  0 <= d < 2 ^ 32 ->
  d <= continuation_vertex.m_ref_count x < 2 ^ 64 ->
  (continuation_vertex.m_ref_count x = d ->
   exists t, continuation_vertex.m_task x = Some t /\ task_wf m t) ->
  let r := continuation_vertex.m_ref_count x - d in
  exists m',
    release_bypass v d m =
      Done (if r =? 0 then continuation_vertex.m_task x else None) m' /\
    (r <> 0 ->
       vertices m' = <[v := continuation_vertex.mk r (continuation_vertex.m_task x)]> (vertices m) /\
       states m' = states m /\ tasks m' = tasks m /\
       trace m' = trace m ++ [VertexReleaseBypass v d None]) /\
    (r = 0 ->
       vertices m' = delete v (vertices m) /\
       exists t tk s st,
         continuation_vertex.m_task x = Some t /\
         tasks m' !! t = Some tk /\
         task_handle_task.m_dynamic_state tk = Some s /\
         states m' !! s = Some st /\
         task_dynamic_state.m_continuation_vertex st = None /\
         trace m' = trace m ++ [VertexFree v; VertexReleaseBypass v d (Some t)]).
Proof.
  intros Hv Hd Hr Hlast r.
  assert (Hwrap : wrap64 (continuation_vertex.m_ref_count x - d) = r)
    by (apply wrap64_small; unfold r; lia).
  destruct (Z.eq_dec r 0) as [Hz | Hnz].
  - destruct Hlast as (t & Ht & Hwf); [unfold r in Hz; lia |].
    destruct (release_bypass_last m v x d Hv t) as
      (m' & s & st & tk & Hrun & _ & Hvs & _ & Htasks & _ & Hstates & Hcv & _ & _ & _ & _ & Htrace);
      [congruence | done | done |].
    exists m'. rewrite Hz. simpl. rewrite Ht. split; [done |].
    split; [done |]. intros _. split; [done |].
    exists t, (task_handle_task.mk (task_handle_task.m_ctx tk) (Some s)), s, st.
    rewrite Htasks, Hstates, !lookup_insert_eq. done.
  - eexists. split.
    + rewrite (release_bypass_pending m v x d Hv) by congruence.
      apply Z.eqb_neq in Hnz. rewrite Hnz. reflexivity.
    + rewrite Hwrap. split; [| done]. intros _. done.
Qed.

Lemma release_bypass_subtracts_witness :
  exists m', release_bypass 1 1 (lone_vertex 1) = Done (Some 1%positive) m'.
Proof.
  destruct (release_bypass_subtracts (lone_vertex 1) 1
              (continuation_vertex.mk 1 (Some 1%positive)) 1) as (m' & Hrun & _).
  - reflexivity.
  - lia.
  - simpl. lia.
  - intros _. exists 1%positive. split; [reflexivity |].
    exists (task_handle_task.mk 9%positive None). split; [reflexivity |].
    intros s Hs. discriminate Hs.
  - exists m'. exact Hrun.
Defined.

(** * Submission: [task_handle_accessor::release] *)

Lemma has_dependencies_run (m : machine) (s : positive) (st : task_dynamic_state.t) :
  states m !! s = Some st ->
  task_dynamic_state_has_dependencies s m =
    Done (bool_decide (task_dynamic_state.m_continuation_vertex st <> None)) m.
Proof. intros Hs. unfold task_dynamic_state_has_dependencies. munfold. rewrite Hs. done. Qed.




(** * Completion handles built from task handles *)

(** An empty [task_handle] at address 1, in a build with assertions. *)
Definition empty_task_handle : machine :=
  Machine ∅ ∅ ∅ ∅ {[ 1%positive := None ]} ∅ true [].

(** C9: building a [task_completion_handle] from an empty [task_handle]: the
    member initialiser [th.m_handle->get_dynamic_state()] runs before the body
    of the constructor, so the null task is dereferenced and the assertion of
    the body is never reached, with or without assertions; the assignment from
    a [task_handle] asserts first and, in a build with assertions, stops there
    with the machine untouched. *)
Theorem completion_handle_from_empty_task_handle (m : machine) (this th : positive) :
  task_handles m !! th = Some None ->
  task_completion_handle_from_task_handle this th m = Abort NullDereference m /\
  (use_assert m = true ->
   forall fuel, task_completion_handle_assign_task_handle fuel this th m
                = Abort AssertionFailure m).
Proof.
  intros Hth. split.
  - unfold task_completion_handle_from_task_handle. munfold. rewrite Hth. reflexivity.
  - intros Hdebug fuel.
    unfold task_completion_handle_assign_task_handle, task_handle_bool. munfold.
    rewrite Hth, Hdebug. msimp. reflexivity.
Qed.

Lemma completion_handle_from_empty_task_handle_witness :
  task_completion_handle_from_task_handle 2 1 empty_task_handle
    = Abort NullDereference empty_task_handle.
Proof.
  apply (completion_handle_from_empty_task_handle empty_task_handle 2 1). reflexivity.
Defined.

(** * The reference count of a dynamic state: [release] *)

(** The next [release] of this state is its last one. *)
Definition on_last_reference (x : task_dynamic_state.t) : Prop :=
  wrap64 (task_dynamic_state.m_num_references x - 1) = 0.

#[export] Instance on_last_reference_dec x : Decision (on_last_reference x).
Proof. unfold on_last_reference. apply _. Defined.

(** How many live states are on their last reference. *)
Definition last_references (m : machine) : nat :=
  size (filter (fun kv : positive * task_dynamic_state.t => on_last_reference kv.2) (states m)).

(** Every state that received successors by transfer is live. *)
Definition forward_closed (m : machine) : Prop :=
  forall s x s', states m !! s = Some x ->
                 task_dynamic_state.m_new_dynamic_state x = Some s' ->
                 is_Some (states m !! s').

(** The machine after the decrement of [release]. *)
Definition decremented (s : positive) (x : task_dynamic_state.t) (m : machine) : machine :=
  log (StateRelease s)
    (set_states (insert s (with_references
       (wrap64 (task_dynamic_state.m_num_references x - 1)) x)) m).

Lemma release_shared (fuel : nat) (m : machine) (s : positive) (x : task_dynamic_state.t) :
  states m !! s = Some x ->
  ~ on_last_reference x ->
  task_dynamic_state_release (S fuel) s m = Done tt (decremented s x m).
Proof.
  intros Hs Hn. simpl. munfold. rewrite Hs.
  apply Z.eqb_neq in Hn. rewrite Hn. reflexivity.
Qed.

Lemma release_last_alone (fuel : nat) (m : machine) (s : positive) (x : task_dynamic_state.t) :
  states m !! s = Some x ->
  on_last_reference x ->
  task_dynamic_state.m_new_dynamic_state x = None ->
  task_dynamic_state_release (S fuel) s m =
    Done tt (log (StateFree s) (set_states (delete s) (decremented s x m))).
Proof.
  intros Hs Hl Hf. simpl. munfold. rewrite Hs.
  apply Z.eqb_eq in Hl. rewrite Hl. msimp. rewrite Hf. msimp. reflexivity.
Qed.

Lemma release_last_forward (fuel : nat) (m : machine) (s s' : positive)
    (x : task_dynamic_state.t) :
  states m !! s = Some x ->
  on_last_reference x ->
  task_dynamic_state.m_new_dynamic_state x = Some s' ->
  task_dynamic_state_release (S fuel) s m =
    match task_dynamic_state_release fuel s' (decremented s x m) with
    | Done _ m2 => delete_state s m2
    | Abort f m2 => Abort f m2
    end.
Proof.
  intros Hs Hl Hf. cbn [task_dynamic_state_release].
  cbv beta iota delta [bind state_at put_state modify emit].
  rewrite Hs. apply Z.eqb_eq in Hl. rewrite Hl. msimp. rewrite Hf. msimp.
  unfold decremented. apply Z.eqb_eq in Hl. rewrite Hl.
  destruct (task_dynamic_state_release fuel s' _); reflexivity.
Qed.

Lemma last_references_decremented (m : machine) (s : positive) (x : task_dynamic_state.t) :
  states m !! s = Some x ->
  on_last_reference x ->
  S (last_references (decremented s x m)) = last_references m.
Proof.
  intros Hs Hl. unfold last_references, decremented. msimp.
  rewrite map_filter_insert_False.
  - rewrite map_filter_delete, map_size_delete.
    rewrite (proj2 (map_lookup_filter_Some _ (states m) s x)) by done.
    assert (size (filter (fun kv : positive * task_dynamic_state.t => on_last_reference kv.2)
                         (states m)) <> 0%nat).
    { apply map_size_ne_0_lookup. exists s. exists x. by apply map_lookup_filter_Some. }
    simpl. lia.
  - simpl. unfold on_last_reference in *. msimp. rewrite Hl. done.
Qed.

(** [release] returns: the chain of states on their last reference that it
    walks is no longer than the number of such states.  States that were not
    on their last reference stay live. *)
Lemma release_returns (fuel : nat) :
  forall (m : machine) (s : positive),
    forward_closed m ->
    is_Some (states m !! s) ->
    (last_references m < fuel)%nat ->
    exists m',
      task_dynamic_state_release fuel s m = Done tt m' /\
      forall s'' x'', states m !! s'' = Some x'' -> ~ on_last_reference x'' ->
                      is_Some (states m' !! s'').
Proof.
  induction fuel as [| fuel IH]; intros m s Hclosed [x Hs] Hfuel; [lia |].
  destruct (decide (on_last_reference x)) as [Hl | Hn].
  - destruct (task_dynamic_state.m_new_dynamic_state x) as [s' |] eqn:Hf.
    + rewrite (release_last_forward fuel m s s' x Hs Hl Hf).
      destruct (IH (decremented s x m) s') as (m2 & Hrun & Hsurvive).
      * intros a xa a' Ha Hfa. unfold decremented in *. msimp.
        destruct (decide (a = s)) as [-> | Hne].
        -- rewrite lookup_insert_eq in Ha. injection Ha as <-. msimp.
           apply lookup_insert_is_Some'. right. apply (Hclosed s x a' Hs Hfa).
        -- rewrite lookup_insert_ne in Ha by done.
           apply lookup_insert_is_Some'. right. apply (Hclosed a xa a' Ha Hfa).
      * unfold decremented. msimp. apply lookup_insert_is_Some'. right.
        apply (Hclosed s x s' Hs Hf).
      * pose proof (last_references_decremented m s x Hs Hl). lia.
      * rewrite Hrun.
        destruct (Hsurvive s (with_references
                    (wrap64 (task_dynamic_state.m_num_references x - 1)) x)) as [x2 Hx2].
        { unfold decremented. msimp. done. }
        { unfold on_last_reference in *. msimp. rewrite Hl. done. }
        eexists. split.
        { munfold. rewrite Hx2. reflexivity. }
        msimp. intros s'' x'' Hs'' Hn''.
        assert (s'' <> s) by (intros ->; congruence).
        rewrite lookup_delete_ne by done.
        apply (Hsurvive s'' x''); [| done].
        unfold decremented. msimp. done.
    + rewrite (release_last_alone fuel m s x Hs Hl Hf).
      eexists. split; [reflexivity |].
      unfold decremented. msimp. intros s'' x'' Hs'' Hn''.
      assert (s'' <> s) by (intros ->; congruence).
      rewrite lookup_delete_ne, lookup_insert_ne by done. eauto.
  - rewrite (release_shared fuel m s x Hs Hn).
    eexists. split; [reflexivity |].
    unfold decremented. msimp. intros s'' x'' Hs'' Hn''.
    apply lookup_insert_is_Some'. right. eauto.
Qed.

(** [forward_closed], decided. *)
Definition forward_target_live (m : machine) (x : task_dynamic_state.t) : Prop :=
  match task_dynamic_state.m_new_dynamic_state x with
  | Some s' => is_Some (states m !! s')
  | None => True
  end.

#[export] Instance forward_target_live_dec m x : Decision (forward_target_live m x).
Proof. unfold forward_target_live. destruct (task_dynamic_state.m_new_dynamic_state x); apply _. Defined.

Definition forward_closed_check (m : machine) : bool :=
  bool_decide (map_Forall (fun _ x => forward_target_live m x) (states m)).

Lemma forward_closed_checked (m : machine) :
  forward_closed_check m = true -> forward_closed m.
Proof.
  intros H%bool_decide_eq_true_1 s x s' Hs Hf.
  specialize (H s x Hs). unfold forward_target_live in H. rewrite Hf in H. exact H.
Qed.

Lemma release_trace (fuel : nat) :
  forall (m m' : machine) (s : positive),
    task_dynamic_state_release fuel s m = Done tt m' ->
    exists evs, trace m' = trace m ++ StateRelease s :: evs.
Proof.
  induction fuel as [| fuel IH]; intros m m' s Hrun; [discriminate Hrun |].
  destruct (states m !! s) as [x |] eqn:Hs;
    [| simpl in Hrun; munfold; rewrite Hs in Hrun; discriminate Hrun].
  destruct (decide (on_last_reference x)) as [Hl | Hn].
  - destruct (task_dynamic_state.m_new_dynamic_state x) as [s' |] eqn:Hf.
    + rewrite (release_last_forward fuel m s s' x Hs Hl Hf) in Hrun.
      destruct (task_dynamic_state_release fuel s' (decremented s x m))
        as [[] m2 | f m2] eqn:Hinner; [| discriminate Hrun].
      destruct (IH _ _ _ Hinner) as (evs & Hevs).
      unfold delete_state in Hrun. munfold.
      destruct (states m2 !! s); [| discriminate Hrun].
      injection Hrun as <-. msimp. rewrite Hevs. unfold decremented. msimp.
      eexists. rewrite <- !app_assoc. reflexivity.
    + rewrite (release_last_alone fuel m s x Hs Hl Hf) in Hrun.
      injection Hrun as <-. unfold decremented. msimp.
      eexists. rewrite <- !app_assoc. reflexivity.
  - rewrite (release_shared fuel m s x Hs Hn) in Hrun.
    injection Hrun as <-. unfold decremented. msimp. exists []. reflexivity.
Qed.

(** State 1 handed its successors to state 2 and is on its last reference;
    state 2 is held by its task and by state 1. *)
Definition forwarded_pair : machine :=
  Machine ∅ ∅
    {[ 1%positive := task_dynamic_state.mk (Some 1%positive) CompletedPtr None (Some 2%positive) 1;
       2%positive := task_dynamic_state.mk (Some 2%positive) NullPtr None None 2 ]}
    ∅ ∅ ∅ true [].

(** C8: when the reference count of a dynamic state [S] is decremented to
    zero and its forwarding pointer is [S'], [S] runs one [release] of [S']
    (the reservation taken when the successors were transferred) and then
    frees itself; when the forwarding pointer is null, [S] frees itself and
    no other state is released. *)
Theorem last_release_unregisters (fuel : nat) (m : machine) (s : positive)
    (x : task_dynamic_state.t) :
  forward_closed m ->
  states m !! s = Some x ->
  task_dynamic_state.m_num_references x = 1 ->
  (last_references m <= fuel)%nat ->
  match task_dynamic_state.m_new_dynamic_state x with
  | Some s' =>
      exists m2 evs,
        task_dynamic_state_release fuel s' (decremented s x m) = Done tt m2 /\
        trace m2 = trace m ++ StateRelease s :: StateRelease s' :: evs /\
        is_Some (states m2 !! s) /\
        task_dynamic_state_release (S fuel) s m
          = Done tt (log (StateFree s) (set_states (delete s) m2)) /\
        (forall x', s' <> s -> states m !! s' = Some x' -> ~ on_last_reference x' ->
                    m2 = decremented s' x' (decremented s x m))
  | None =>
      exists m',
        task_dynamic_state_release (S fuel) s m = Done tt m' /\
        states m' = delete s (states m) /\
        trace m' = trace m ++ [StateRelease s; StateFree s]
  end.
Proof.
  intros Hclosed Hs Hone Hfuel.
  assert (Hl : on_last_reference x) by (unfold on_last_reference; rewrite Hone; reflexivity).
  destruct (task_dynamic_state.m_new_dynamic_state x) as [s' |] eqn:Hf.
  - destruct (release_returns fuel (decremented s x m) s') as (m2 & Hrun & Hsurvive).
    + intros a xa a' Ha Hfa. unfold decremented in *. msimp.
      apply lookup_insert_is_Some'. right.
      destruct (decide (a = s)) as [-> | Hne].
      * rewrite lookup_insert_eq in Ha. injection Ha as <-. msimp.
        apply (Hclosed s x a' Hs Hfa).
      * rewrite lookup_insert_ne in Ha by done. apply (Hclosed a xa a' Ha Hfa).
    + unfold decremented. msimp. apply lookup_insert_is_Some'. right.
      apply (Hclosed s x s' Hs Hf).
    + pose proof (last_references_decremented m s x Hs Hl). lia.
    + destruct (release_trace fuel _ _ _ Hrun) as (evs & Hevs).
      destruct (Hsurvive s (with_references
                  (wrap64 (task_dynamic_state.m_num_references x - 1)) x)) as [x2 Hx2].
      { unfold decremented. msimp. done. }
      { unfold on_last_reference in *. msimp. rewrite Hl. done. }
      exists m2, evs. split; [done |]. split.
      { rewrite Hevs. unfold decremented. msimp. rewrite <- app_assoc. reflexivity. }
      split; [eauto |]. split.
      { rewrite (release_last_forward fuel m s s' x Hs Hl Hf), Hrun.
        unfold delete_state. munfold. rewrite Hx2. reflexivity. }
      intros x' Hne Hs' Hn'.
      destruct fuel as [| fuel']; [discriminate Hrun |].
      rewrite (release_shared fuel' (decremented s x m) s' x') in Hrun; [| | done].
      * injection Hrun as <-. reflexivity.
      * unfold decremented. msimp. done.
  - eexists. split; [apply (release_last_alone fuel m s x Hs Hl Hf) |].
    unfold decremented. msimp. rewrite delete_insert_eq, <- app_assoc. done.
Qed.

Lemma last_release_unregisters_witness :
  exists m', task_dynamic_state_release 2 1 forwarded_pair = Done tt m' /\
             states m' !! 1%positive = None /\
             states m' !! 2%positive
               = Some (task_dynamic_state.mk (Some 2%positive) NullPtr None None 1).
Proof.
  pose proof (last_release_unregisters 1 forwarded_pair 1
    (task_dynamic_state.mk (Some 1%positive) CompletedPtr None (Some 2%positive) 1)) as H.
  simpl in H.
  destruct H as (m2 & evs & _ & _ & _ & Hrun & Hm2).
  - apply forward_closed_checked. vm_compute. reflexivity.
  - reflexivity.
  - reflexivity.
  - vm_compute. lia.
  - eexists. split; [exact Hrun |].
    rewrite (Hm2 (task_dynamic_state.mk (Some 2%positive) NullPtr None None 2)).
    + split; reflexivity.
    + discriminate.
    + reflexivity.
    + vm_compute. discriminate.
Defined.

(** * Moving completion handles *)

(** The completion handles of a machine after the pointer of [other] moved to
    [this]. *)
Definition moved (this other : positive) (p : ptr) (m : machine) : machine :=
  set_completion_handles (insert other None) (set_completion_handles (insert this p) m).

Lemma moved_source_empty (this other : positive) (p : ptr) (m : machine) :
  task_completion_handle_bool other (moved this other p m)
    = Done false (moved this other p m) /\
  task_completion_handle_eq_nullptr other (moved this other p m)
    = Done true (moved this other p m).
Proof.
  unfold task_completion_handle_bool, task_completion_handle_eq_nullptr, moved.
  munfold. msimp. done.
Qed.

(** Handles 1 and 2 both track state 1, which its task co-owns. *)
Definition two_handles : machine :=
  Machine ∅ ∅
    {[ 1%positive := task_dynamic_state.mk (Some 1%positive) NullPtr None None 3 ]}
    ∅ ∅ {[ 1%positive := Some 1%positive; 2%positive := Some 1%positive ]} true [].

(** C10, as stated, fails in two places: a handle move-assigned to itself is
    not empty afterwards, and a move-assignment onto a handle that tracks the
    same state releases that state once. *)
Lemma move_assignment_counterexample :
  (task_completion_handle_assign_move 1 1 1 two_handles = Done tt two_handles /\
   task_completion_handle_bool 1 two_handles = Done true two_handles /\
   task_completion_handle_eq_nullptr 1 two_handles = Done false two_handles) /\
  (exists m', task_completion_handle_assign_move 1 1 2 two_handles = Done tt m' /\
              states m' !! 1%positive
                = Some (task_dynamic_state.mk (Some 1%positive) NullPtr None None 2) /\
              trace m' = [StateRelease 1]).
Proof.
  split.
  - repeat split; vm_compute; reflexivity.
  - eexists. split; [vm_compute; reflexivity |]. split; vm_compute; reflexivity.
Qed.

(** C10, amended: after move-construction, and after move-assignment between
    two distinct handle objects, the moved-from handle is empty (its bool
    conversion is false and it compares equal to nullptr) and the target
    tracks what the source tracked.  The move reserves nothing; the only
    release is the one that move-assignment runs on the state its target
    tracked before, so with an empty target no reference count changes, and
    with a target that tracked a state with a further owner only that state's
    count drops, by one.  A handle move-assigned to itself is left as it
    is.  The move constructor builds the object at [this], whatever that
    address held before and in particular at an address that holds no handle
    yet; move-assignment needs a handle at [this], which tracks [q]. *)
Theorem move_empties_source (fuel : nat) (m : machine) (this other : positive) (p : ptr) :
  completion_handles m !! other = Some p ->
  this <> other ->
  (task_completion_handle_move this other m = Done tt (moved this other p m) /\
   states (moved this other p m) = states m /\
   trace (moved this other p m) = trace m /\
   completion_handles (moved this other p m)
     = <[other := None]> (<[this := p]> (completion_handles m))) /\
  (forall q, completion_handles m !! this = Some q ->
     (q = None ->
      task_completion_handle_assign_move fuel this other m
        = Done tt (moved this other p m)) /\
     (forall s0 m1, q = Some s0 ->
        task_dynamic_state_release fuel s0 m = Done tt m1 ->
        task_completion_handle_assign_move fuel this other m
          = Done tt (moved this other p m1) /\
        states (moved this other p m1) = states m1 /\
        trace (moved this other p m1) = trace m1) /\
     (forall s0 x0, q = Some s0 -> states m !! s0 = Some x0 ->
        ~ on_last_reference x0 -> (0 < fuel)%nat ->
        task_completion_handle_assign_move fuel this other m
          = Done tt (moved this other p (decremented s0 x0 m)))) /\
  (forall m', task_completion_handle_bool other (moved this other p m')
                = Done false (moved this other p m') /\
              task_completion_handle_eq_nullptr other (moved this other p m')
                = Done true (moved this other p m') /\
              completion_handles (moved this other p m') !! this = Some p) /\
  task_completion_handle_assign_move fuel this this m = Done tt m.
Proof.
  intros Hother Hne.
  assert (Hgeneral : forall q s0 m1, completion_handles m !! this = Some q -> q = Some s0 ->
     task_dynamic_state_release fuel s0 m = Done tt m1 ->
     completion_handles m1 = completion_handles m ->
     task_completion_handle_assign_move fuel this other m = Done tt (moved this other p m1)).
  { intros q s0 m1 Hthis -> Hrun Hsame. unfold task_completion_handle_assign_move. munfold.
    rewrite bool_decide_eq_true_2 by done. rewrite Hthis, Hrun, Hsame, Hother. reflexivity. }
  assert (Hframe : forall n s0 m0 m1, task_dynamic_state_release n s0 m0 = Done tt m1 ->
     completion_handles m1 = completion_handles m0).
  { induction n as [| n IH]; intros s0 m0 m1 Hrun; [discriminate Hrun |].
    simpl in Hrun. munfold.
    destruct (states m0 !! s0) as [x0 |]; [| discriminate Hrun].
    destruct (wrap64 (task_dynamic_state.m_num_references x0 - 1) =? 0);
      [| injection Hrun as <-; reflexivity].
    revert Hrun. msimp.
    destruct (task_dynamic_state.m_new_dynamic_state _) as [s1 |].
    - destruct (task_dynamic_state_release n s1 _) as [[] m2 | f m2] eqn:Hinner;
        [| discriminate].
      apply IH in Hinner. destruct (states m2 !! s0); [| discriminate].
      intros [= <-]. msimp. rewrite Hinner. reflexivity.
    - msimp. intros [= <-]. reflexivity. }
  split; [| split; [| split]].
  - unfold task_completion_handle_move. munfold. rewrite Hother. done.
  - intros q Hthis. split; [| split].
    + intros ->. unfold task_completion_handle_assign_move. munfold.
      rewrite bool_decide_eq_true_2 by done. rewrite Hthis, Hother. reflexivity.
    + intros s0 m1 Hq Hrun. split; [| done].
      apply (Hgeneral q s0 m1 Hthis Hq Hrun). apply (Hframe fuel s0 m m1 Hrun).
    + intros s0 x0 Hq Hs0 Hn Hfuel. destruct fuel as [| fuel']; [lia |].
      apply (Hgeneral q s0 _ Hthis Hq);
        [apply (release_shared fuel' m s0 x0 Hs0 Hn) | reflexivity].
  - intros m'. destruct (moved_source_empty this other p m') as [Hb He].
    split; [done |]. split; [done |].
    unfold moved. msimp. reflexivity.
  - unfold task_completion_handle_assign_move.
    rewrite bool_decide_eq_false_2 by (intros H; apply H; reflexivity). reflexivity.
Qed.

(** The move constructor builds a handle at the address 3, which holds no
    handle in [two_handles], from the handle 1; move-assignment moves the
    handle 2 into the handle 1. *)
Lemma move_empties_source_witness :
  completion_handles two_handles !! 3%positive = None /\
  (exists m', task_completion_handle_move 3 1 two_handles = Done tt m' /\
              task_completion_handle_bool 1 m' = Done false m' /\
              task_completion_handle_eq_nullptr 1 m' = Done true m' /\
              completion_handles m' !! 3%positive = Some (Some 1%positive) /\
              states m' = states two_handles /\ trace m' = trace two_handles) /\
  (exists m', task_completion_handle_assign_move 1 1 2 two_handles = Done tt m' /\
              task_completion_handle_bool 2 m' = Done false m').
Proof.
  split; [reflexivity |]. split.
  - destruct (move_empties_source 1 two_handles 3 1 (Some 1%positive))
      as ((Hmove & Hstates & Htrace & _) & _ & Hempty & _); [reflexivity | discriminate |].
    destruct (Hempty two_handles) as (Hb & He & Ht).
    eexists. split; [exact Hmove |]. split; [exact Hb |]. split; [exact He |].
    split; [exact Ht |]. split; [exact Hstates | exact Htrace].
  - destruct (move_empties_source 1 two_handles 1 2 (Some 1%positive))
      as (_ & Hassign & Hempty & _); [reflexivity | discriminate |].
    destruct (Hassign (Some 1%positive) eq_refl) as (_ & _ & Hshared).
    eexists. split.
    + apply (Hshared 1%positive (task_dynamic_state.mk (Some 1%positive) NullPtr None None 3));
        [reflexivity | reflexivity | vm_compute; discriminate | lia].
    + apply Hempty.
Defined.

(** * Adding edges: [add_successor] on a live list *)

Lemma is_alive_not_completed (p : node_ptr) : p <> COMPLETED_FLAG -> is_alive p = true.
Proof. intros H. unfold is_alive. rewrite bool_decide_eq_true_2; done. Qed.

Lemma is_completed_not_completed (p : node_ptr) : p <> COMPLETED_FLAG -> is_completed p = false.
Proof. intros H. unfold is_completed. rewrite bool_decide_eq_false_2; done. Qed.

(** The machine after node [n] was pushed on the live list of [s]. *)
Definition pushed (s : positive) (x : task_dynamic_state.t) (n : positive) (v : ptr)
    (m : machine) : machine :=
  log (CasHead s (task_dynamic_state.m_successor_list_head x) (NodePtr n) true)
    (set_states (insert s (with_head (NodePtr n) x))
      (set_nodes (insert n (successor_list_node.mk
                              (task_dynamic_state.m_successor_list_head x) v)) m)).

Lemma add_successor_node_alive (fuel : nat) (m : machine) (s n : positive)
    (x : task_dynamic_state.t) (nx : successor_list_node.t) :
  states m !! s = Some x ->
  task_dynamic_state.m_successor_list_head x <> COMPLETED_FLAG ->
  nodes m !! n = Some nx ->
  add_successor_node (S (S fuel)) s (Some n) m =
    Done tt (pushed s x n (successor_list_node.m_continuation_vertex nx) m).
Proof.
  intros Hs Halive Hn.
  cbn [add_successor_node add_successor_node_loop].
  unfold check_transfer_or_completion, load_head, set_next_node, compare_exchange_head.
  munfold. msimp. rewrite Hs. rewrite (is_alive_not_completed _ Halive). msimp.
  rewrite Hn. msimp. rewrite Hs. msimp.
  destruct (use_assert m); reflexivity.
Qed.

(** The machine after one more reference was taken on vertex [v]. *)
Definition reserved (v : positive) (xv : continuation_vertex.t) (m : machine) : machine :=
  log (VertexReserve v)
    (set_vertices (insert v (continuation_vertex.mk
                               (wrap64 (continuation_vertex.m_ref_count xv + 1))
                               (continuation_vertex.m_task xv))) m).

Lemma add_successor_alive (fuel : nat) (m : machine) (s v : positive)
    (x : task_dynamic_state.t) (xv : continuation_vertex.t) :
  states m !! s = Some x ->
  task_dynamic_state.m_successor_list_head x <> COMPLETED_FLAG ->
  vertices m !! v = Some xv ->
  add_successor (S (S (S fuel))) s (Some v) m =
    Done tt (pushed s x (fresh (dom (nodes m))) (Some v) (reserved v xv m)).
Proof.
  intros Hs Halive Hv.
  cbn [add_successor].
  unfold load_head, continuation_vertex_reserve, successor_list_node_new.
  munfold. msimp. rewrite Hs. rewrite (is_completed_not_completed _ Halive). msimp.
  rewrite Hv. msimp.
  rewrite (add_successor_node_alive fuel _ s (fresh (dom (nodes m))) x
             (successor_list_node.mk NullPtr (Some v))); [| msimp; done | done | msimp; done].
  unfold pushed, reserved. mrecord. rewrite insert_insert_eq. reflexivity.
Qed.

Lemma add_successor_completed_here (fuel : nat) (m : machine) (s : positive)
    (successor : positive) (x : task_dynamic_state.t) :
  states m !! s = Some x ->
  task_dynamic_state.m_successor_list_head x = COMPLETED_FLAG ->
  add_successor (S fuel) s (Some successor) m =
    match task_dynamic_state.m_new_dynamic_state x with
    | Some s' => add_successor fuel s' (Some successor) m
    | None => Done tt m
    end.
Proof.
  intros Hs Hc. cbn [add_successor]. unfold load_head, load_new_dynamic_state.
  munfold. msimp. rewrite Hs, Hc. unfold is_completed. msimp. rewrite Hs.
  destruct (task_dynamic_state.m_new_dynamic_state x); reflexivity.
Qed.

Section get_continuation_vertex.
Variables (m : machine) (s : positive) (x : task_dynamic_state.t).
Hypothesis Hstate : states m !! s = Some x.

Lemma get_continuation_vertex_present (v : positive) :
  task_dynamic_state.m_continuation_vertex x = Some v ->
  task_dynamic_state_get_continuation_vertex s m = Done (Some v) m.
Proof.
  intros Hv. unfold task_dynamic_state_get_continuation_vertex. munfold.
  rewrite Hstate, Hv. msimp. reflexivity.
Qed.

Lemma get_continuation_vertex_absent :
  task_dynamic_state.m_continuation_vertex x = None ->
  task_dynamic_state_get_continuation_vertex s m =
    let v := fresh (dom (vertices m)) in
    Done (Some v)
      (set_states (insert s (with_vertex (Some v) x))
        (set_vertices (insert v (continuation_vertex.mk 1 (task_dynamic_state.m_task x))) m)).
Proof.
  intros Hv. unfold task_dynamic_state_get_continuation_vertex, continuation_vertex_new.
  munfold. rewrite Hstate, Hv. msimp. rewrite Hstate, Hv. msimp. reflexivity.
Qed.
End get_continuation_vertex.

Lemma internal_set_task_order_run (fuel : nat) (m : machine) (pred succ : positive) :
  internal_set_task_order fuel (Some pred) (Some succ) m =
    match task_dynamic_state_get_continuation_vertex succ m with
    | Done v m1 => add_successor fuel pred v m1
    | Abort f m1 => Abort f m1
    end.
Proof.
  unfold internal_set_task_order. munfold. msimp.
  destruct (use_assert m); reflexivity.
Qed.

(** [k] calls of [internal_set_task_order] for the same pair of states. *)
Fixpoint add_edges (fuel k : nat) (pred succ : ptr) : M unit :=
  match k with
  | O => ret tt
  | S k' => internal_set_task_order fuel pred succ ;;; add_edges fuel k' pred succ
  end.

(** The number of [reserve] calls on vertex [v] in a trace. *)
Definition reserves (v : positive) (evs : list event) : nat :=
  length (filter (fun e => e = VertexReserve v) evs).

Lemma wrap64_wrap64_succ (a : Z) : wrap64 (wrap64 a + 1) = wrap64 (a + 1).
Proof. unfold wrap64. apply Zplus_mod_idemp_l. Qed.

Lemma reserved_k_times (k : nat) (c : Z) :
  0 <= c < 2 ^ 64 ->
  Nat.iter k (fun a => wrap64 (a + 1)) c = wrap64 (c + Z.of_nat k).
Proof.
  intros Hc. induction k as [| k IH].
  - simpl. rewrite Z.add_0_r. symmetry. apply wrap64_small. exact Hc.
  - rewrite Nat.iter_succ, IH, wrap64_wrap64_succ. f_equal. lia.
Qed.

Lemma set_task_order_present (fuel : nat) (m : machine) (sa sb v : positive)
    (xa xb : task_dynamic_state.t) (xv : continuation_vertex.t) :
  states m !! sa = Some xa ->
  task_dynamic_state.m_successor_list_head xa <> COMPLETED_FLAG ->
  states m !! sb = Some xb ->
  task_dynamic_state.m_continuation_vertex xb = Some v ->
  vertices m !! v = Some xv ->
  internal_set_task_order (S (S (S fuel))) (Some sa) (Some sb) m =
    Done tt (pushed sa xa (fresh (dom (nodes m))) (Some v) (reserved v xv m)).
Proof.
  intros Ha Halive Hb Hcv Hv.
  rewrite internal_set_task_order_run.
  rewrite (get_continuation_vertex_present m sb xb Hb v Hcv).
  apply add_successor_alive; done.
Qed.

Lemma add_edges_present (fuel k : nat) (sa sb v : positive) :
  forall (m : machine) (xa xb : task_dynamic_state.t) (xv : continuation_vertex.t),
    states m !! sa = Some xa ->
    task_dynamic_state.m_successor_list_head xa <> COMPLETED_FLAG ->
    states m !! sb = Some xb ->
    task_dynamic_state.m_continuation_vertex xb = Some v ->
    vertices m !! v = Some xv ->
    exists m' evs,
      add_edges (S (S (S fuel))) k (Some sa) (Some sb) m = Done tt m' /\
      vertices m' !! v =
        Some (continuation_vertex.mk
                (Nat.iter k (fun a => wrap64 (a + 1)) (continuation_vertex.m_ref_count xv))
                (continuation_vertex.m_task xv)) /\
      trace m' = trace m ++ evs /\
      reserves v evs = k /\
      exists xb', states m' !! sb = Some xb' /\
                  task_dynamic_state.m_continuation_vertex xb' = Some v.
Proof.
  induction k as [| k IH]; intros m xa xb xv Ha Halive Hb Hcv Hv.
  - exists m, []. simpl. rewrite app_nil_r. destruct xv. eauto 10.
  - cbn [add_edges]. unfold bind at 1.
    rewrite (set_task_order_present fuel m sa sb v xa xb xv Ha Halive Hb Hcv Hv).
    set (m1 := pushed sa xa (fresh (dom (nodes m))) (Some v) (reserved v xv m)).
    assert (Hb1 : exists xb1, states m1 !! sb = Some xb1 /\
                              task_dynamic_state.m_continuation_vertex xb1 = Some v).
    { unfold m1, pushed, reserved. msimp.
      destruct (decide (sa = sb)) as [-> | Hne].
      - rewrite lookup_insert_eq. eexists. split; [reflexivity |]. msimp. congruence.
      - rewrite lookup_insert_ne by done. eauto. }
    destruct Hb1 as (xb1 & Hb1 & Hcv1).
    destruct (IH m1 (with_head (NodePtr (fresh (dom (nodes m)))) xa) xb1
                (continuation_vertex.mk (wrap64 (continuation_vertex.m_ref_count xv + 1))
                                        (continuation_vertex.m_task xv)))
      as (m' & evs & Hrun & Hv' & Htr & Hres & Hb');
      [unfold m1, pushed, reserved; msimp; done | msimp; discriminate | done | done
      | unfold m1, pushed, reserved; msimp; done |].
    exists m'. eexists. split; [exact Hrun |]. split.
    { rewrite Hv'. msimp. rewrite Nat.iter_succ_r. reflexivity. }
    split.
    { rewrite Htr. unfold m1, pushed, reserved. msimp. rewrite <- !app_assoc. reflexivity. }
    split; [| exact Hb'].
    unfold reserves in *. simpl. rewrite filter_cons_True by done.
    rewrite filter_cons_False by discriminate. simpl. rewrite Hres. reflexivity.
Qed.

(** Two states without vertices; state 1 can take successors. *)
Definition two_tasks : machine :=
  Machine ∅ ∅
    {[ 1%positive := task_dynamic_state.mk (Some 1%positive) NullPtr None None 1;
       2%positive := task_dynamic_state.mk (Some 2%positive) NullPtr None None 1 ]}
    {[ 1%positive := task_handle_task.mk 9%positive (Some 1%positive);
       2%positive := task_handle_task.mk 9%positive (Some 2%positive) ]}
    ∅ ∅ true [].

(** C5: adding [k] edges [A -> B] while the successor list of [A] is live
    takes one reference on the continuation vertex of [B] per edge: a vertex
    that held [r] references holds [r + k] (in 64-bit arithmetic) after [k]
    [reserve] calls, and a vertex created by the first of the [k] edges holds
    [1 + k], the initial 1 being the reservation of the handle that is not
    submitted yet. *)
Theorem edges_reserve_vertex (fuel k : nat) (m : machine) (sa sb : positive)
    (xa xb : task_dynamic_state.t) :
  states m !! sa = Some xa ->
  task_dynamic_state.m_successor_list_head xa <> COMPLETED_FLAG ->
  states m !! sb = Some xb ->
  (3 <= fuel)%nat ->
  (forall v xv,
     task_dynamic_state.m_continuation_vertex xb = Some v ->
     vertices m !! v = Some xv ->
     0 <= continuation_vertex.m_ref_count xv < 2 ^ 64 ->
     exists m' xv' evs,
       add_edges fuel k (Some sa) (Some sb) m = Done tt m' /\
       vertices m' !! v = Some xv' /\
       continuation_vertex.m_ref_count xv'
         = wrap64 (continuation_vertex.m_ref_count xv + Z.of_nat k) /\
       (continuation_vertex.m_ref_count xv + Z.of_nat k < 2 ^ 64 ->
        continuation_vertex.m_ref_count xv'
          = continuation_vertex.m_ref_count xv + Z.of_nat k) /\
       trace m' = trace m ++ evs /\ reserves v evs = k) /\
  (task_dynamic_state.m_continuation_vertex xb = None ->
   (0 < k)%nat ->
   exists m' v xb' xv' evs,
     add_edges fuel k (Some sa) (Some sb) m = Done tt m' /\
     states m' !! sb = Some xb' /\
     task_dynamic_state.m_continuation_vertex xb' = Some v /\
     vertices m !! v = None /\
     vertices m' !! v = Some xv' /\
     continuation_vertex.m_ref_count xv' = wrap64 (1 + Z.of_nat k) /\
     (1 + Z.of_nat k < 2 ^ 64 ->
      continuation_vertex.m_ref_count xv' = 1 + Z.of_nat k) /\
     trace m' = trace m ++ evs /\ reserves v evs = k).
Proof.
  intros Ha Halive Hb Hfuel.
  destruct fuel as [| [| [| fuel]]]; try lia. clear Hfuel.
  split.
  - intros v xv Hcv Hv Hrange.
    destruct (add_edges_present fuel k sa sb v m xa xb xv Ha Halive Hb Hcv Hv)
      as (m' & evs & Hrun & Hv' & Htr & Hres & _).
    exists m'. eexists. exists evs. split; [exact Hrun |]. split; [exact Hv' |].
    msimp. rewrite (reserved_k_times k _ Hrange).
    split; [reflexivity |]. split; [| done].
    intros Hsmall. apply wrap64_small. lia.
  - intros Hcv Hk. destruct k as [| k]; [lia |]. clear Hk.
    cbn [add_edges]. unfold bind at 1.
    rewrite internal_set_task_order_run.
    rewrite (get_continuation_vertex_absent m sb xb Hb Hcv). cbv zeta.
    set (v := fresh (dom (vertices m))).
    set (m1 := set_states (insert sb (with_vertex (Some v) xb))
                 (set_vertices (insert v (continuation_vertex.mk 1
                                            (task_dynamic_state.m_task xb))) m)).
    assert (Ha1 : exists xa1, states m1 !! sa = Some xa1 /\
              task_dynamic_state.m_successor_list_head xa1 <> COMPLETED_FLAG).
    { unfold m1. msimp. destruct (decide (sb = sa)) as [-> | Hne].
      - rewrite lookup_insert_eq. eexists. split; [reflexivity |]. msimp. congruence.
      - rewrite lookup_insert_ne by done. eauto. }
    destruct Ha1 as (xa1 & Ha1 & Halive1).
    rewrite (add_successor_alive fuel m1 sa v xa1
               (continuation_vertex.mk 1 (task_dynamic_state.m_task xb)) Ha1 Halive1)
      by (unfold m1; msimp; done).
    set (m2 := pushed sa xa1 _ _ _).
    assert (Hb2 : exists xb2, states m2 !! sb = Some xb2 /\
                              task_dynamic_state.m_continuation_vertex xb2 = Some v).
    { unfold m2, pushed, reserved. msimp.
      destruct (decide (sa = sb)) as [-> | Hne].
      - rewrite lookup_insert_eq. eexists. split; [reflexivity |]. msimp.
        unfold m1 in Ha1. revert Ha1. msimp. intros [= <-]. reflexivity.
      - rewrite lookup_insert_ne by done. unfold m1. msimp. eauto. }
    destruct Hb2 as (xb2 & Hb2 & Hcv2).
    destruct (add_edges_present fuel k sa sb v m2
                (with_head (NodePtr (fresh (dom (nodes (reserved v
                   (continuation_vertex.mk 1 (task_dynamic_state.m_task xb)) m1))))) xa1)
                xb2
                (continuation_vertex.mk (wrap64 (1 + 1)) (task_dynamic_state.m_task xb)))
      as (m' & evs & Hrun & Hv' & Htr & Hres & xb' & Hb' & Hcv');
      [unfold m2, pushed; msimp; done | msimp; discriminate | done | done
      | unfold m2, pushed, reserved; msimp; done |].
    exists m', v, xb'. eexists. eexists.
    split; [exact Hrun |]. split; [exact Hb' |]. split; [exact Hcv' |].
    split; [apply fresh_unallocated |]. split; [exact Hv' |].
    msimp.
    replace (Nat.iter k (fun a => wrap64 (a + 1)) (wrap64 (1 + 1)))
      with (Nat.iter (S k) (fun a => wrap64 (a + 1)) 1)
      by (rewrite Nat.iter_succ_r; reflexivity).
    rewrite (reserved_k_times (S k) 1) by lia.
    split; [reflexivity |]. split; [intros Hsmall; apply wrap64_small; lia |].
    split.
    { rewrite Htr. unfold m2, pushed, reserved, m1. msimp.
      rewrite <- !app_assoc. reflexivity. }
    unfold reserves in *. simpl. rewrite filter_cons_True by done.
    rewrite filter_cons_False by discriminate. simpl. rewrite Hres. reflexivity.
Qed.

Lemma edges_reserve_vertex_witness :
  exists m' xv',
    add_edges 3 2 (Some 1%positive) (Some 2%positive) two_tasks = Done tt m' /\
    vertices m' !! 1%positive = Some xv' /\
    continuation_vertex.m_ref_count xv' = 3.
Proof.
  destruct (edges_reserve_vertex 3 2 two_tasks 1 2
              (task_dynamic_state.mk (Some 1%positive) NullPtr None None 1)
              (task_dynamic_state.mk (Some 2%positive) NullPtr None None 1))
    as [_ H]; [reflexivity | discriminate | reflexivity | lia |].
  destruct H as (m' & v & xb' & xv' & evs & Hrun & _ & _ & _ & Hv & _ & Hcount & _);
    [reflexivity | lia |].
  vm_compute in Hrun. injection Hrun as <-.
  eexists. exists xv'. split; [reflexivity |].
  assert (v = 1%positive) as ->.
  { destruct (decide (v = 1%positive)) as [-> | Hne]; [reflexivity |].
    exfalso. revert Hv. vm_compute. destruct v as [v | v |]; try discriminate.
    contradiction. }
  split; [exact Hv | apply Hcount; simpl; lia].
Defined.

(** * Adding an edge to a completed state *)







(** * Successor lists in the heap *)

(** [lseg h p q l]: following [m_next_successor] from [p] visits exactly the
    nodes [l], in this order, and arrives at [q]. *)
Inductive lseg (h : gmap positive successor_list_node.t)
    : node_ptr -> node_ptr -> list positive -> Prop :=
| lseg_nil (p : node_ptr) : lseg h p p []
| lseg_cons (n : positive) (x : successor_list_node.t) (q : node_ptr) (l : list positive) :
    h !! n = Some x ->
    lseg h (successor_list_node.m_next_successor x) q l ->
    lseg h (NodePtr n) q (n :: l).

(** A well-formed successor list: the segment ends in null. *)
Definition is_list (h : gmap positive successor_list_node.t) (p : node_ptr)
    (l : list positive) : Prop :=
  lseg h p NullPtr l.

Lemma is_list_null_inv h l : is_list h NullPtr l -> l = [].
Proof. unfold is_list. inversion 1; reflexivity. Qed.

Lemma is_list_completed_inv h l : ~ is_list h CompletedPtr l.
Proof. unfold is_list. inversion 1. Qed.

Lemma is_list_node_inv h n l :
  is_list h (NodePtr n) l ->
  exists x l', l = n :: l' /\ h !! n = Some x /\
               is_list h (successor_list_node.m_next_successor x) l'.
Proof. unfold is_list. inversion 1; subst. eauto. Qed.

Lemma is_list_functional h l1 :
  forall p, is_list h p l1 -> forall l2, is_list h p l2 -> l1 = l2.
Proof.
  induction l1 as [| a l1 IH]; intros p H1 l2 H2.
  - unfold is_list in H1. inversion H1; subst. symmetry. apply (is_list_null_inv h l2 H2).
  - unfold is_list in H1. inversion H1 as [| n x q l Hn Hl]; subst.
    apply is_list_node_inv in H2 as (x2 & l' & -> & Hn2 & Hl2).
    rewrite Hn in Hn2. injection Hn2 as <-. f_equal. apply (IH _ Hl _ Hl2).
Qed.

Lemma is_list_suffix h l n :
  forall p, is_list h p l -> n ∈ l ->
  exists l1 l2, l = l1 ++ n :: l2 /\ is_list h (NodePtr n) (n :: l2).
Proof.
  induction l as [| a l IH]; intros p H Hin.
  - apply elem_of_nil in Hin. done.
  - unfold is_list in H. inversion H as [| a' x q l' Ha Hl]; subst.
    destruct (decide (n = a)) as [-> | Hne].
    + exists [], l. split; [reflexivity | exact H].
    + apply elem_of_cons in Hin as [-> | Hin]; [done |].
      destruct (IH _ Hl Hin) as (l1 & l2 & -> & Hsuffix).
      exists (a :: l1), l2. done.
Qed.

Lemma is_list_NoDup h l : forall p, is_list h p l -> NoDup l.
Proof.
  induction l as [| a l IH]; intros p H; [constructor |].
  pose proof H as H0.
  unfold is_list in H. inversion H as [| a' x q l' Ha Hl]; subst.
  constructor; [| apply (IH _ Hl)].
  intros Hin.
  destruct (is_list_suffix h l a _ Hl Hin) as (l1 & l2 & Heq & Hsuffix).
  pose proof (is_list_functional h _ _ H0 _ Hsuffix) as Hsame.
  injection Hsame as Hsame. rewrite Hsame in Heq.
  apply (f_equal length) in Heq. rewrite length_app in Heq. simpl in Heq. lia.
Qed.

(** Nodes outside the segment can change or disappear. *)
Lemma lseg_frame h h' p q l :
  lseg h p q l ->
  (forall n, n ∈ l -> h' !! n = h !! n) ->
  lseg h' p q l.
Proof.
  induction 1 as [p | n x q l Hn Hl IH]; intros Hsame; [constructor |].
  econstructor.
  - rewrite Hsame; [exact Hn | apply elem_of_cons; auto].
  - apply IH. intros a Ha. apply Hsame. apply elem_of_cons. auto.
Qed.

Lemma lseg_app h p q r l1 l2 :
  lseg h p q l1 -> lseg h q r l2 -> lseg h p r (l1 ++ l2).
Proof.
  induction 1 as [p | n x q l Hn Hl IH]; intros H2; [exact H2 |].
  simpl. econstructor; [exact Hn | apply IH, H2].
Qed.

(** Redirecting the last node of a list turns it into a segment that ends
    where the last node now points. *)
Lemma is_list_redirect h p l z xz q :
  is_list h p (l ++ [z]) ->
  h !! z = Some xz ->
  lseg (<[z := successor_list_node.mk q (successor_list_node.m_continuation_vertex xz)]> h)
       p q (l ++ [z]).
Proof.
  intros H Hz. pose proof (is_list_NoDup h _ p H) as Hnd.
  revert p H Hnd. induction l as [| a l IH]; intros p H Hnd;
    unfold is_list in H; inversion H as [| n x q' l' Hn Hl]; subst.
  - apply (lseg_cons _ z (successor_list_node.mk q
             (successor_list_node.m_continuation_vertex xz))).
    + apply lookup_insert_eq.
    + simpl. constructor.
  - simpl in Hnd. apply NoDup_cons in Hnd as [Hnotin Hnd].
    simpl. apply (lseg_cons _ a x).
    + rewrite lookup_insert_ne; [exact Hn |].
      intros ->. apply Hnotin. apply elem_of_app. right. apply list_elem_of_singleton. done.
    + apply IH; done.
Qed.

Lemma last_cons_default {A} (l : list A) :
  forall a d, List.last (a :: l) d = List.last l a.
Proof.
  induction l as [| b l IH]; intros a d; [reflexivity |].
  change (List.last (a :: b :: l) d) with (List.last (b :: l) d).
  rewrite !IH. reflexivity.
Qed.

(** The first loop of [add_successor_list] finds the last node. *)
Lemma last_node_loop_finds (m : machine) (l : list positive) :
  forall (n : positive) (fuel : nat),
    is_list (nodes m) (NodePtr n) (n :: l) ->
    (length l < fuel)%nat ->
    last_node_loop fuel n m = Done (List.last l n) m.
Proof.
  induction l as [| a l IH]; intros n fuel H Hfuel;
    (destruct fuel as [| fuel]; [simpl in Hfuel; lia |]);
    apply is_list_node_inv in H as (x & l' & Heq & Hx & Hl'); injection Heq as <-.
  -     cbn [last_node_loop]. unfold get_next_node. munfold. rewrite Hx.
    assert (successor_list_node.m_next_successor x = NullPtr) as ->.
    { unfold is_list in Hl'. inversion Hl'. reflexivity. }
    msimp. reflexivity.
  - cbn [last_node_loop]. unfold get_next_node. munfold. rewrite Hx.
    destruct (successor_list_node.m_next_successor x) as [| b |] eqn:Hnext;
      [apply is_list_null_inv in Hl'; discriminate | |
       apply is_list_completed_inv in Hl'; done].
    pose proof Hl' as Hl''. apply is_list_node_inv in Hl'' as (xb & l'' & Heq & _ & _).
    injection Heq as <- <-. msimp.
    rewrite (IH a fuel Hl') by (simpl in Hfuel; lia).
    rewrite last_cons_default. reflexivity.
Qed.

Lemma lseg_lookup h p q l n : lseg h p q l -> n ∈ l -> is_Some (h !! n).
Proof.
  induction 1 as [p | a x q l Ha Hl IH]; intros Hin.
  - apply elem_of_nil in Hin. done.
  - apply elem_of_cons in Hin as [-> | Hin]; eauto.
Qed.

Lemma last_elem_of {A} (l : list A) : forall a, List.last l a ∈ a :: l.
Proof.
  induction l as [| b l IH]; intros a.
  - apply elem_of_cons. auto.
  - rewrite last_cons_default. apply elem_of_cons. right. apply IH.
Qed.

(** The machine after the list that starts at [p] and ends in node [z] was
    spliced in front of the list of [s]. *)
Definition spliced (s : positive) (x : task_dynamic_state.t) (p : node_ptr)
    (z : positive) (xz : successor_list_node.t) (m : machine) : machine :=
  log (CasHead s (task_dynamic_state.m_successor_list_head x) p true)
    (set_states (insert s (with_head p x))
      (set_nodes (insert z (successor_list_node.mk
                              (task_dynamic_state.m_successor_list_head x)
                              (successor_list_node.m_continuation_vertex xz))) m)).

Lemma add_successor_list_run (fuel : nat) (m : machine) (s n : positive)
    (x : task_dynamic_state.t) (l : list positive) (xz : successor_list_node.t) :
  states m !! s = Some x ->
  is_list (nodes m) (NodePtr n) (n :: l) ->
  nodes m !! List.last l n = Some xz ->
  (length l < fuel)%nat ->
  add_successor_list fuel s (NodePtr n) m
    = Done tt (spliced s x (NodePtr n) (List.last l n) xz m).
Proof.
  intros Hs Hl Hz Hfuel. unfold add_successor_list.
  rewrite bool_decide_eq_false_2 by discriminate.
  munfold. rewrite (last_node_loop_finds m l n fuel Hl Hfuel).
  unfold load_head, set_next_node. munfold. rewrite Hs, Hz. msimp.
  destruct fuel as [| fuel]; [lia |].
  cbn [add_successor_list_loop]. unfold compare_exchange_head. munfold. msimp.
  rewrite Hs. msimp. reflexivity.
Qed.

(** * Transfer of successors *)

(** State 1 holds the list of the single node 1; state 2 was sealed before;
    state 3 is a fresh target. *)
Definition transfer_states : machine :=
  Machine {[ 1%positive := successor_list_node.mk NullPtr (Some 1%positive) ]}
    {[ 1%positive := continuation_vertex.mk 2 (Some 5%positive) ]}
    {[ 1%positive := task_dynamic_state.mk (Some 1%positive) (NodePtr 1) None None 1;
       2%positive := task_dynamic_state.mk (Some 2%positive) CompletedPtr None (Some 3%positive) 1;
       3%positive := task_dynamic_state.mk (Some 3%positive) NullPtr None None 1 ]}
    ∅ ∅ ∅ true [].

(** C1, as stated for every state and every non-null target, fails in two
    places: a state that transfers to itself ends with its own list as head,
    not with COMPLETED, and a state whose head is COMPLETED already hands the
    flag itself to [add_successor_list], which dereferences it. *)
Lemma transfer_counterexample :
  (exists m',
     task_dynamic_state_transfer_successors_to 3 1 (Some 1%positive) transfer_states
       = Done tt m' /\
     states m' !! 1%positive
       = Some (task_dynamic_state.mk (Some 1%positive) (NodePtr 1) None (Some 1%positive) 2)) /\
  (exists m',
     task_dynamic_state_transfer_successors_to 3 2 (Some 3%positive) transfer_states
       = Abort InvalidPointer m').
Proof.
  split; eexists.
  - split; vm_compute; reflexivity.
  - vm_compute. reflexivity.
Qed.

Lemma is_list_nil_inv h p : is_list h p [] -> p = NullPtr.
Proof. unfold is_list. inversion 1. reflexivity. Qed.

Lemma is_list_cons_inv h p n l : is_list h p (n :: l) -> p = NodePtr n.
Proof. unfold is_list. inversion 1. reflexivity. Qed.

(** C1, amended: for a dynamic state [S] with a well-formed (hence live)
    successor list and a target [S'] other than [S],
    [transfer_successors_to(S')] reserves [S'], then stores
    [m_new_dynamic_state = S'], then exchanges the head of [S] with
    COMPLETED, which claims the list and seals [S] in one step, and splices
    the claimed list into [S']; afterwards the head of [S] is COMPLETED and
    every node of the claimed list is reachable from the head of [S'], in
    front of the nodes [S'] had. *)
Theorem transfer_moves_successors (fuel : nat) (m : machine) (s s' : positive)
    (x x' : task_dynamic_state.t) (l : list positive) :
  s <> s' ->
  states m !! s = Some x ->
  states m !! s' = Some x' ->
  is_list (nodes m) (task_dynamic_state.m_successor_list_head x) l ->
  (length l <= fuel)%nat ->
  exists m' head',
    task_dynamic_state_transfer_successors_to fuel s (Some s') m = Done tt m' /\
    states m' !! s = Some (with_head COMPLETED_FLAG (with_new_state (Some s') x)) /\
    states m' !! s' =
      Some (with_head head'
              (with_references (wrap64 (task_dynamic_state.m_num_references x' + 1)) x')) /\
    lseg (nodes m') head' (task_dynamic_state.m_successor_list_head x') l /\
    (forall l', is_list (nodes m) (task_dynamic_state.m_successor_list_head x') l' ->
                (forall n, n ∈ l -> n ∉ l') ->
                is_list (nodes m') head' (l ++ l')) /\
    (forall n xn, nodes m !! n = Some xn ->
       exists xn', nodes m' !! n = Some xn' /\
                   successor_list_node.m_continuation_vertex xn'
                   = successor_list_node.m_continuation_vertex xn) /\
    trace m' = trace m ++
      [StateReserve s'; StoreNewState s s';
       ExchangeHead s COMPLETED_FLAG (task_dynamic_state.m_successor_list_head x)] ++
      match l with
      | [] => []
      | _ :: _ => [CasHead s' (task_dynamic_state.m_successor_list_head x')
                     (task_dynamic_state.m_successor_list_head x) true]
      end /\
    vertices m' = vertices m /\ tasks m' = tasks m.
Proof.
  intros Hne Hs Hs' Hl Hfuel.
  set (m3 := log (ExchangeHead s COMPLETED_FLAG (task_dynamic_state.m_successor_list_head x))
    (set_states (insert s (with_head COMPLETED_FLAG (with_new_state (Some s') x)))
      (log (StoreNewState s s')
        (set_states (insert s (with_new_state (Some s') x))
          (log (StateReserve s')
            (set_states (insert s' (with_references
               (wrap64 (task_dynamic_state.m_num_references x' + 1)) x')) m)))))).
  assert (Hrun : task_dynamic_state_transfer_successors_to fuel s (Some s') m
                 = add_successor_list fuel s'
                     (task_dynamic_state.m_successor_list_head x) m3).
  { unfold task_dynamic_state_transfer_successors_to, task_dynamic_state_reserve,
      fetch_successor_list, TRANSFER_FLAG.
    munfold. msimp. rewrite Hs'. msimp. rewrite Hs. msimp. reflexivity. }
  assert (Hs3 : states m3 !! s'
      = Some (with_references (wrap64 (task_dynamic_state.m_num_references x' + 1)) x')).
  { unfold m3. msimp. reflexivity. }
  destruct l as [| n l].
  - apply is_list_nil_inv in Hl. exists m3, (task_dynamic_state.m_successor_list_head x').
    split; [rewrite Hrun, Hl; reflexivity |].
    split; [unfold m3; msimp; reflexivity |].
    split; [rewrite Hs3; destruct x'; reflexivity |].
    split; [constructor |].
    split; [intros l' Hl' _; exact Hl' |].
    split; [intros a xa Ha; exists xa; split; [exact Ha | reflexivity] |].
    split; [unfold m3; msimp; rewrite <- !app_assoc; reflexivity |].
    split; reflexivity.
  - pose proof (is_list_cons_inv _ _ _ _ Hl) as Hhead. rewrite Hhead in *.
    destruct (lseg_lookup _ _ _ _ (List.last l n) Hl (last_elem_of l n)) as [xz Hz].
    exists (spliced s' (with_references
              (wrap64 (task_dynamic_state.m_num_references x' + 1)) x')
              (NodePtr n) (List.last l n) xz m3), (NodePtr n).
    split.
    { rewrite Hrun. apply add_successor_list_run; [exact Hs3 | exact Hl | exact Hz |].
      simpl in Hfuel. lia. }
    assert (Hseg : lseg (<[List.last l n := successor_list_node.mk
                           (task_dynamic_state.m_successor_list_head x')
                           (successor_list_node.m_continuation_vertex xz)]> (nodes m))
                     (NodePtr n) (task_dynamic_state.m_successor_list_head x') (n :: l)).
    { assert (Hsplit : n :: l = removelast (n :: l) ++ [List.last l n]).
      { rewrite <- (last_cons_default l n n). apply app_removelast_last. discriminate. }
      rewrite Hsplit. apply is_list_redirect; [rewrite <- Hsplit; exact Hl | exact Hz]. }
    unfold spliced, m3. msimp.
    split; [reflexivity |]. split; [reflexivity |]. split; [exact Hseg |].
    split.
    { intros l' Hl' Hdisjoint. unfold is_list. eapply lseg_app; [exact Hseg |].
      apply (lseg_frame (nodes m)); [exact Hl' |].
      intros a Ha. apply lookup_insert_ne. intros <-.
      apply (Hdisjoint _ (last_elem_of l n) Ha). }
    split.
    { intros a xa Ha. destruct (decide (a = List.last l n)) as [-> | Hna].
      - rewrite lookup_insert_eq. eexists. split; [reflexivity |]. simpl. congruence.
      - rewrite lookup_insert_ne by done. eauto. }
    split; [rewrite <- !app_assoc, ?Hhead; reflexivity |].
    split; reflexivity.
Qed.

Lemma transfer_moves_successors_witness :
  exists m',
    task_dynamic_state_transfer_successors_to 1 1 (Some 3%positive) transfer_states
      = Done tt m' /\
    states m' !! 3%positive
      = Some (task_dynamic_state.mk (Some 3%positive) (NodePtr 1) None None 2).
Proof.
  destruct (transfer_moves_successors 1 transfer_states 1 3
    (task_dynamic_state.mk (Some 1%positive) (NodePtr 1) None None 1)
    (task_dynamic_state.mk (Some 3%positive) NullPtr None None 1) [1%positive])
    as (m' & head' & Hrun & _ & Hs' & Hseg & _).
  - discriminate.
  - reflexivity.
  - reflexivity.
  - eapply lseg_cons; [reflexivity | constructor].
  - simpl. lia.
  - exists m'. split; [exact Hrun |]. rewrite Hs'.
    inversion Hseg; subst. reflexivity.
Defined.

(** * Completion: draining the successor list *)

(** Readings of a trace: the tasks that [release_bypass] handed out, the tasks
    that were spawned, and the calls that the drain makes on the list. *)
Definition bypassed (evs : list event) : list positive :=
  omap (fun e => match e with VertexReleaseBypass _ _ (Some t) => Some t | _ => None end) evs.

Definition spawned (evs : list event) : list positive :=
  omap (fun e => match e with Spawn t _ => Some t | _ => None end) evs.

Inductive drain_call : Type :=
| Released (v : positive) (delta : Z)
| Finalized (n : positive).

Definition drain_calls (evs : list event) : list drain_call :=
  omap (fun e => match e with
                 | VertexReleaseBypass v d _ => Some (Released v d)
                 | NodeFinalize n => Some (Finalized n)
                 | _ => None
                 end) evs.

(** Every dynamic state that a task names is live. *)
Definition tasks_wf (m : machine) : Prop :=
  forall t tk s, tasks m !! t = Some tk ->
                 task_handle_task.m_dynamic_state tk = Some s ->
                 is_Some (states m !! s).

(** Vertex [v] holds one reference for each of its occurrences in [vs], and
    its task is live. *)
Definition vertex_ready (m : machine) (vs : list positive) (v : positive) : Prop :=
  exists xv t,
    vertices m !! v = Some xv /\
    Z.of_nat (count_occ Pos.eq_dec vs v) <= continuation_vertex.m_ref_count xv < 2 ^ 64 /\
    continuation_vertex.m_task xv = Some t /\
    is_Some (tasks m !! t).

Definition drain_wf (m : machine) (vs : list positive) : Prop :=
  forall v, v ∈ vs -> vertex_ready m vs v.

(** The nodes [l.*1] carry the vertices [l.*2]. *)
Definition node_vertices (h : gmap positive successor_list_node.t)
    (l : list (positive * positive)) : Prop :=
  forall n v, (n, v) ∈ l ->
    exists x, h !! n = Some x /\ successor_list_node.m_continuation_vertex x = Some v.

(** What a step of the drain leaves alone in the dynamic states. *)
Definition heads_kept (m m' : machine) : Prop :=
  forall s x, states m !! s = Some x ->
    exists x', states m' !! s = Some x' /\
               task_dynamic_state.m_successor_list_head x'
               = task_dynamic_state.m_successor_list_head x.

Lemma heads_kept_refl m : heads_kept m m.
Proof. intros s x Hs. eauto. Qed.

Lemma heads_kept_trans m1 m2 m3 : heads_kept m1 m2 -> heads_kept m2 m3 -> heads_kept m1 m3.
Proof.
  intros H12 H23 s x Hs. destruct (H12 s x Hs) as (x2 & Hs2 & Hh2).
  destruct (H23 s x2 Hs2) as (x3 & Hs3 & Hh3). exists x3. split; [done | congruence].
Qed.

Lemma release_bypass_in_drain (m : machine) (v : positive) (vs : list positive) :
  drain_wf m (v :: vs) ->
  tasks_wf m ->
  exists r m1 evs,
    release_bypass v 1 m = Done r m1 /\
    nodes m1 = nodes m /\
    trace m1 = trace m ++ evs /\
    bypassed evs = match r with Some t => [t] | None => [] end /\
    spawned evs = [] /\
    drain_calls evs = [Released v 1] /\
    drain_wf m1 vs /\
    tasks_wf m1 /\
    (forall t, r = Some t -> is_Some (tasks m1 !! t)) /\
    heads_kept m m1.
Proof.
  intros Hwf Htasks.
  destruct (Hwf v) as (xv & t & Hv & Hcount & Ht & Htlive); [apply elem_of_cons; auto |].
  rewrite count_occ_cons_eq in Hcount by reflexivity.
  destruct (Z.eq_dec (continuation_vertex.m_ref_count xv) 1) as [Hone | Hmore].
  - destruct (release_bypass_last m v xv 1 Hv t) as
      (m1 & s & st & tk & Hrun & Hn & Hvs & Htk & Hts & Hdyn & Hss & Hcv & Hst & _ & _ & _ & Htr).
    { rewrite Hone. reflexivity. }
    { exact Ht. }
    { destruct Htlive as [tk Htk]. exists tk. split; [done |].
      intros s Hs. apply (Htasks t tk s Htk Hs). }
    exists (Some t), m1. eexists.
    split; [exact Hrun |]. split; [exact Hn |]. split; [exact Htr |].
    split; [reflexivity |]. split; [reflexivity |]. split; [reflexivity |].
    split; [| split; [| split]].
    + intros v' Hv'. destruct (Hwf v') as (xv' & t' & Hv'' & Hcount' & Ht' & Htlive');
        [apply elem_of_cons; auto |].
      destruct (decide (v' = v)) as [-> | Hne].
      * exfalso. rewrite count_occ_cons_eq in Hcount' by reflexivity.
        assert (count_occ Pos.eq_dec vs v > 0)%nat
          by (apply count_occ_In, list_elem_of_In; done).
        rewrite Hv in Hv''. injection Hv'' as <-. lia.
      * rewrite count_occ_cons_neq in Hcount' by done.
        exists xv', t'. rewrite Hvs, lookup_delete_ne by done.
        split; [done |]. split; [done |]. split; [done |].
        rewrite Hts. apply lookup_insert_is_Some'. auto.
    + intros t0 tk0 s0 Ht0 Hs0. rewrite Hts in Ht0. rewrite Hss.
      apply lookup_insert_is_Some'.
      destruct (decide (t = t0)) as [-> | Hne].
      * rewrite lookup_insert_eq in Ht0. injection Ht0 as <-. simpl in Hs0.
        left. congruence.
      * rewrite lookup_insert_ne in Ht0 by done. right. apply (Htasks t0 tk0 s0 Ht0 Hs0).
    + intros t0 [= <-]. rewrite Hts, lookup_insert_eq. eauto.
    + intros s0 x0 Hs0. rewrite Hss.
      destruct (decide (s = s0)) as [-> | Hne].
      * rewrite lookup_insert_eq. exists st. split; [done |].
        rewrite (Hst x0 Hs0). reflexivity.
      * rewrite lookup_insert_ne by done. eauto.
  - assert (Hnz : wrap64 (continuation_vertex.m_ref_count xv - 1) <> 0)
      by (rewrite wrap64_small; lia).
    exists None. eexists. eexists.
    split; [apply (release_bypass_pending m v xv 1 Hv Hnz) |].
    split; [mproj; reflexivity |]. split; [mproj; reflexivity |].
    split; [reflexivity |]. split; [reflexivity |]. split; [reflexivity |].
    split; [| split; [| split]].
    + intros v' Hv'. destruct (Hwf v') as (xv' & t' & Hv'' & Hcount' & Ht' & Htlive');
        [apply elem_of_cons; auto |].
      unfold vertex_ready. msimp.
      destruct (decide (v' = v)) as [-> | Hne].
      * rewrite count_occ_cons_eq in Hcount' by reflexivity.
        rewrite Hv in Hv''. injection Hv'' as <-.
        rewrite lookup_insert_eq. eexists _, t'. split; [reflexivity |]. msimp.
        rewrite wrap64_small by lia. split; [lia |]. done.
      * rewrite count_occ_cons_neq in Hcount' by done.
        rewrite lookup_insert_ne by done. exists xv', t'. done.
    + exact Htasks.
    + intros t0 Hr. discriminate Hr.
    + intros s0 x0 Hs0. exists x0. done.
Qed.

Lemma release_successor_list_loop_drains (l : list (positive * positive)) :
  forall (m : machine) (p : node_ptr) (acc : ptr) (fuel : nat),
    is_list (nodes m) p (l.*1) ->
    node_vertices (nodes m) l ->
    drain_wf m (l.*2) ->
    tasks_wf m ->
    (length l < fuel)%nat ->
    exists m' evs,
      release_successor_list_loop fuel p acc m
        = Done (match acc with Some a => Some a | None => head (bypassed evs) end) m' /\
      trace m' = trace m ++ evs /\
      drain_calls evs = flat_map (fun nv => [Released nv.2 1; Finalized nv.1]) l /\
      spawned evs = match acc with Some _ => bypassed evs | None => tail (bypassed evs) end /\
      (forall n, n ∈ l.*1 -> nodes m' !! n = None) /\
      (forall n, n ∉ l.*1 -> nodes m' !! n = nodes m !! n) /\
      heads_kept m m'.
Proof.
  induction l as [| [n v] l IH]; intros m p acc fuel Hl Hnv Hwf Htasks Hfuel;
    (destruct fuel as [| fuel]; [simpl in Hfuel; lia |]).
  - apply is_list_nil_inv in Hl. subst p. exists m, [].
    cbn [release_successor_list_loop]. rewrite bool_decide_eq_false_2 by (intros H; apply H; done).
    split; [destruct acc; reflexivity |]. rewrite app_nil_r.
    split; [done |]. split; [done |]. split; [destruct acc; reflexivity |].
    split; [intros n Hn; apply elem_of_nil in Hn; done |].
    split; [done | apply heads_kept_refl].
  - cbn [fmap list_fmap fst snd] in Hl, Hwf.
    pose proof (is_list_NoDup _ _ _ Hl) as Hnd. apply NoDup_cons in Hnd as [Hnotin Hnd].
    pose proof (is_list_cons_inv _ _ _ _ Hl) as ->.
    apply is_list_node_inv in Hl as (x & l' & Heq & Hx & Hl). injection Heq as <-.
    destruct (Hnv n v) as (x' & Hx' & Hxv); [apply elem_of_cons; auto |].
    rewrite Hx in Hx'. injection Hx' as <-.
    destruct (release_bypass_in_drain m v (l.*2) Hwf Htasks)
      as (r & m1 & evs1 & Hrb & Hn1 & Htr1 & Hby1 & Hsp1 & Hdc1 & Hwf1 & Htasks1 & Hrlive & Hk1).
    set (m2 := log (NodeFinalize n) (set_nodes (delete n) m1)).
    assert (Hstep : forall acc',
      release_successor_list_loop (S fuel) (NodePtr n) acc' m =
        match r with
        | Some t =>
            match acc' with
            | None => release_successor_list_loop fuel
                        (successor_list_node.m_next_successor x) (Some t) m2
            | Some _ =>
                match spawn t m2 with
                | Done _ m3 => release_successor_list_loop fuel
                                 (successor_list_node.m_next_successor x) acc' m3
                | Abort f m3 => Abort f m3
                end
            end
        | None => release_successor_list_loop fuel
                    (successor_list_node.m_next_successor x) acc' m2
        end).
    { intros acc'. cbn [release_successor_list_loop].
      rewrite bool_decide_eq_true_2 by discriminate.
      unfold get_next_node, successor_list_node_get_continuation_vertex,
        successor_list_node_finalize.
      cbv beta iota delta [bind ret deref_node node_at nonnull delete_node modify emit].
      repeat (first [rewrite Hx | rewrite Hxv | rewrite Hrb | rewrite Hn1 | progress msimp]).
      fold m2. destruct r as [t |]; [destruct acc' |]; reflexivity. }
    assert (Hl2 : is_list (nodes m2) (successor_list_node.m_next_successor x) (l.*1)).
    { apply (lseg_frame (nodes m)); [exact Hl |]. intros a Ha. unfold m2. mproj.
      rewrite Hn1. apply lookup_delete_ne. intros <-. done. }
    assert (Hnv2 : node_vertices (nodes m2) l).
    { intros a b Hab. destruct (Hnv a b) as (xa & Hxa & Hxb); [apply elem_of_cons; auto |].
      exists xa. split; [| done]. unfold m2. mproj. rewrite Hn1, lookup_delete_ne; [done |].
      intros <-. apply Hnotin. apply list_elem_of_fmap. exists (n, b). done. }
    assert (Hfuel' : (length l < fuel)%nat) by (simpl in Hfuel; lia).
    assert (Hnodes2 : nodes m2 = delete n (nodes m)) by (unfold m2; mproj; congruence).
    assert (Hfinish : forall m3 (extra : list event),
      trace m3 = trace m2 ++ extra ->
      nodes m3 = nodes m2 ->
      heads_kept m1 m3 ->
      forall m' evs',
        trace m' = trace m3 ++ evs' ->
        (forall a, a ∈ l.*1 -> nodes m' !! a = None) ->
        (forall a, a ∉ l.*1 -> nodes m' !! a = nodes m3 !! a) ->
        heads_kept m3 m' ->
        trace m' = trace m ++ (evs1 ++ [NodeFinalize n] ++ extra ++ evs') /\
        (forall a, a ∈ ((n, v) :: l).*1 -> nodes m' !! a = None) /\
        (forall a, a ∉ ((n, v) :: l).*1 -> nodes m' !! a = nodes m !! a) /\
        heads_kept m m').
    { intros m3 extra Htr3 Hn3 Hk3 m' evs' Htr' Hgone Hsame Hk'.
      split.
      { rewrite Htr', Htr3. unfold m2. msimp. rewrite Htr1, <- !app_assoc. reflexivity. }
      split.
      { intros a Ha. cbn [fmap list_fmap fst] in Ha.
        apply elem_of_cons in Ha as [-> | Ha]; [| auto].
        rewrite Hsame, Hn3, Hnodes2 by done. apply lookup_delete_eq. }
      split.
      { intros a Ha. cbn [fmap list_fmap fst] in Ha. apply not_elem_of_cons in Ha as [Hne Ha].
        rewrite Hsame, Hn3, Hnodes2 by done. apply lookup_delete_ne. done. }
      apply (heads_kept_trans m m1); [done |]. apply (heads_kept_trans m1 m3); done. }
    destruct r as [t |].
    + destruct acc as [a |].
      * destruct (Hrlive t eq_refl) as [tk Htk].
        set (m3 := log (Spawn t (task_handle_task.m_ctx tk)) m2).
        destruct (IH m3 (successor_list_node.m_next_successor x) (Some a) fuel)
          as (m' & evs' & Hrun & Htr' & Hdc' & Hsp' & Hgone & Hsame & Hk'); try done.
        exists m'. exists (evs1 ++ [NodeFinalize n] ++ [Spawn t (task_handle_task.m_ctx tk)] ++ evs').
        split.
        { rewrite Hstep. unfold spawn. munfold.
          assert (tasks m2 !! t = Some tk) as -> by (unfold m2; msimp; done).
          fold m3. exact Hrun. }
        assert (Hk3 : heads_kept m1 m3) by (intros s0 x0 Hs0; exists x0; done).
        destruct (Hfinish m3 [Spawn t (task_handle_task.m_ctx tk)]
                    eq_refl eq_refl Hk3 m' evs' Htr' Hgone Hsame Hk')
          as (H1 & H2 & H3 & H4).
        split; [exact H1 |]. split.
        { unfold drain_calls in *. rewrite !omap_app, Hdc1, Hdc'. reflexivity. }
        split; [| done].
        unfold spawned, bypassed in *. rewrite !omap_app, Hsp1, Hby1, Hsp'. reflexivity.
      * destruct (IH m2 (successor_list_node.m_next_successor x) (Some t) fuel)
          as (m' & evs' & Hrun & Htr' & Hdc' & Hsp' & Hgone & Hsame & Hk'); try done.
        exists m'. exists (evs1 ++ [NodeFinalize n] ++ [] ++ evs').
        assert (Hk2 : heads_kept m1 m2) by (intros s0 x0 Hs0; exists x0; done).
        destruct (Hfinish m2 [] ltac:(rewrite app_nil_r; reflexivity) eq_refl Hk2
                    m' evs' Htr' Hgone Hsame Hk') as (H1 & H2 & H3 & H4).
        assert (Hby : bypassed (evs1 ++ [NodeFinalize n] ++ [] ++ evs') = t :: bypassed evs').
        { unfold bypassed in *. rewrite !omap_app, Hby1. reflexivity. }
        split; [rewrite Hstep, Hrun, Hby; reflexivity |].
        split; [exact H1 |]. split.
        { unfold drain_calls in *. rewrite !omap_app, Hdc1, Hdc'. reflexivity. }
        split; [| done].
        rewrite Hby. unfold spawned in *. rewrite !omap_app, Hsp1, Hsp'. reflexivity.
    + destruct (IH m2 (successor_list_node.m_next_successor x) acc fuel)
        as (m' & evs' & Hrun & Htr' & Hdc' & Hsp' & Hgone & Hsame & Hk'); try done.
      exists m'. exists (evs1 ++ [NodeFinalize n] ++ [] ++ evs').
      assert (Hk2 : heads_kept m1 m2) by (intros s0 x0 Hs0; exists x0; done).
      destruct (Hfinish m2 [] ltac:(rewrite app_nil_r; reflexivity) eq_refl Hk2
                  m' evs' Htr' Hgone Hsame Hk') as (H1 & H2 & H3 & H4).
      assert (Hby : bypassed (evs1 ++ [NodeFinalize n] ++ [] ++ evs') = bypassed evs').
      { unfold bypassed in *. rewrite !omap_app, Hby1. reflexivity. }
      split; [rewrite Hstep, Hrun, Hby; reflexivity |].
      split; [exact H1 |]. split.
      { unfold drain_calls in *. rewrite !omap_app, Hdc1, Hdc'. reflexivity. }
      split; [| done].
      rewrite Hby. unfold spawned in *. rewrite !omap_app, Hsp1, Hsp'. reflexivity.
Qed.

(** [tasks_wf], decided. *)
Definition dynamic_state_live (m : machine) (tk : task_handle_task.t) : Prop :=
  match task_handle_task.m_dynamic_state tk with
  | Some s => is_Some (states m !! s)
  | None => True
  end.

#[export] Instance dynamic_state_live_dec m tk : Decision (dynamic_state_live m tk).
Proof. unfold dynamic_state_live. destruct (task_handle_task.m_dynamic_state tk); apply _. Defined.

Definition tasks_wf_check (m : machine) : bool :=
  bool_decide (map_Forall (fun _ tk => dynamic_state_live m tk) (tasks m)).

Lemma tasks_wf_checked (m : machine) : tasks_wf_check m = true -> tasks_wf m.
Proof.
  intros H%bool_decide_eq_true_1 t tk s Ht Hs.
  specialize (H t tk Ht). unfold dynamic_state_live in H. rewrite Hs in H. exact H.
Qed.

(** State 1 (of task 1) has two successors, tasks 2 and 3, each behind a
    vertex that holds only the reference of its node. *)
Definition two_successors : machine :=
  Machine
    {[ 1%positive := successor_list_node.mk (NodePtr 2) (Some 1%positive);
       2%positive := successor_list_node.mk NullPtr (Some 2%positive) ]}
    {[ 1%positive := continuation_vertex.mk 1 (Some 2%positive);
       2%positive := continuation_vertex.mk 1 (Some 3%positive) ]}
    {[ 1%positive := task_dynamic_state.mk (Some 1%positive) (NodePtr 1) None None 1 ]}
    {[ 1%positive := task_handle_task.mk 9%positive (Some 1%positive);
       2%positive := task_handle_task.mk 9%positive None;
       3%positive := task_handle_task.mk 9%positive None ]}
    ∅ ∅ true [].

(** C2: for a dynamic state whose successor list holds the nodes [l.*1]
    (head first) with the vertices [l.*2], [complete_task] exchanges the head
    with COMPLETED and then, in list order, calls [release_bypass] on the
    vertex of each node and finalizes the node; the first task that a
    [release_bypass] returns is the task that [complete_task] returns, and
    every later one is spawned; with an empty list, and for a task without
    dynamic state, it returns null and spawns nothing. *)
Theorem complete_task_drains (fuel : nat) (m : machine) (s : positive)
    (x : task_dynamic_state.t) (l : list (positive * positive)) :
  states m !! s = Some x ->
  is_list (nodes m) (task_dynamic_state.m_successor_list_head x) (l.*1) ->
  node_vertices (nodes m) l ->
  drain_wf m (l.*2) ->
  tasks_wf m ->
  (length l < fuel)%nat ->
  (exists m' evs,
     task_dynamic_state_complete_task fuel s m = Done (head (bypassed evs)) m' /\
     trace m' = trace m ++
       ExchangeHead s COMPLETED_FLAG (task_dynamic_state.m_successor_list_head x) :: evs /\
     drain_calls evs = flat_map (fun nv => [Released nv.2 1; Finalized nv.1]) l /\
     spawned evs = tail (bypassed evs) /\
     (exists x', states m' !! s = Some x' /\
                 task_dynamic_state.m_successor_list_head x' = COMPLETED_FLAG) /\
     (forall n, n ∈ l.*1 -> nodes m' !! n = None) /\
     (l = [] -> evs = []) /\
     (forall t tk, tasks m !! t = Some tk ->
                   task_handle_task.m_dynamic_state tk = Some s ->
                   task_handle_task_complete_task fuel t m = Done (head (bypassed evs)) m')) /\
  (forall t tk, tasks m !! t = Some tk ->
                task_handle_task.m_dynamic_state tk = None ->
                task_handle_task_complete_task fuel t m = Done None m).
Proof.
  intros Hs Hl Hnv Hwf Htasks Hfuel. split.
  - set (m0 := log (ExchangeHead s COMPLETED_FLAG (task_dynamic_state.m_successor_list_head x))
                 (set_states (insert s (with_head COMPLETED_FLAG x)) m)).
    assert (Hstart : task_dynamic_state_complete_task fuel s m
                     = release_successor_list_loop fuel
                         (task_dynamic_state.m_successor_list_head x) None m0).
    { unfold task_dynamic_state_complete_task, fetch_successor_list, release_successor_list.
      munfold. rewrite Hs. reflexivity. }
    assert (Hdone : exists m' evs,
      release_successor_list_loop fuel (task_dynamic_state.m_successor_list_head x) None m0
        = Done (head (bypassed evs)) m' /\
      trace m' = trace m0 ++ evs /\
      drain_calls evs = flat_map (fun nv => [Released nv.2 1; Finalized nv.1]) l /\
      spawned evs = tail (bypassed evs) /\
      (forall n, n ∈ l.*1 -> nodes m' !! n = None) /\
      heads_kept m0 m' /\
      (l = [] -> evs = [])).
    { destruct l as [| nv l].
      - apply is_list_nil_inv in Hl. rewrite Hl. exists m0, [].
        destruct fuel as [| fuel]; [simpl in Hfuel; lia |].
        cbn [release_successor_list_loop].
        rewrite bool_decide_eq_false_2 by (intros H; apply H; done).
        rewrite app_nil_r. repeat split; try done.
        + intros n Hn. apply elem_of_nil in Hn. done.
        + apply heads_kept_refl.
      - assert (Htasks0 : tasks_wf m0).
        { intros t tk s0 Ht Hs0. unfold m0. mproj.
          apply lookup_insert_is_Some'. right. apply (Htasks t tk s0 Ht Hs0). }
        destruct (release_successor_list_loop_drains (nv :: l) m0
                    (task_dynamic_state.m_successor_list_head x) None fuel
                    Hl Hnv Hwf Htasks0 Hfuel)
          as (m' & evs & Hrun & Htr & Hdc & Hsp & Hgone & _ & Hk).
        exists m', evs. repeat split; try done. }
    destruct Hdone as (m' & evs & Hrun & Htr & Hdc & Hsp & Hgone & Hk & Hempty).
    exists m', evs.
    split; [rewrite Hstart; exact Hrun |].
    split; [rewrite Htr; unfold m0; msimp; rewrite <- app_assoc; reflexivity |].
    split; [exact Hdc |]. split; [exact Hsp |].
    split.
    { destruct (Hk s (with_head COMPLETED_FLAG x)) as (x' & Hs' & Hh').
      - unfold m0. msimp. reflexivity.
      - exists x'. split; [exact Hs' | exact Hh']. }
    split; [exact Hgone |]. split; [exact Hempty |].
    intros t tk Ht Hd. unfold task_handle_task_complete_task. munfold.
    rewrite Ht, Hd, Hstart. exact Hrun.
  - intros t tk Ht Hd. unfold task_handle_task_complete_task. munfold.
    rewrite Ht, Hd. reflexivity.
Qed.

Lemma complete_task_drains_witness :
  exists m',
    task_dynamic_state_complete_task 3 1 two_successors = Done (Some 2%positive) m' /\
    spawned (trace m') = [3%positive].
Proof.
  destruct (complete_task_drains 3 two_successors 1
    (task_dynamic_state.mk (Some 1%positive) (NodePtr 1) None None 1)
    [(1%positive, 1%positive); (2%positive, 2%positive)]) as [H _].
  - reflexivity.
  - eapply lseg_cons; [reflexivity |]. eapply lseg_cons; [reflexivity |]. constructor.
  - intros n v Hnv. apply elem_of_cons in Hnv as [[= -> ->] | Hnv].
    + eexists. split; reflexivity.
    + apply list_elem_of_singleton in Hnv as [= -> ->]. eexists. split; reflexivity.
  - intros v Hv. apply elem_of_cons in Hv as [-> | Hv].
    + eexists _, _. split; [reflexivity |]. split; [simpl; lia |].
      split; [reflexivity |]. eexists. reflexivity.
    + apply list_elem_of_singleton in Hv as ->.
      eexists _, _. split; [reflexivity |]. split; [simpl; lia |].
      split; [reflexivity |]. eexists. reflexivity.
  - apply tasks_wf_checked. vm_compute. reflexivity.
  - simpl. lia.
  - destruct H as (m' & evs & Hrun & _).
    assert (Hc : exists mc,
              task_dynamic_state_complete_task 3 1 two_successors = Done (Some 2%positive) mc /\
              spawned (trace mc) = [3%positive])
      by (eexists; split; vm_compute; reflexivity).
    destruct Hc as (mc & Hc & Hsp). rewrite Hc in Hrun. injection Hrun as _ <-.
    exists mc. split; [exact Hc | exact Hsp].
Defined.


(** * Lazily created objects: the dynamic state and the continuation vertex *)

(** [get_dynamic_state] creates the dynamic state of a task once: on a task
    without one it allocates a state for this task with one reference, an
    empty live successor list, no vertex and no forwarding state, and stores
    it in the task; every other call returns the stored state and changes
    nothing. *)
Theorem get_dynamic_state_once (m : machine) (t : positive) (tk : task_handle_task.t) :
  tasks m !! t = Some tk ->
  exists s m1,
    get_dynamic_state t m = Done (Some s) m1 /\
    get_dynamic_state t m1 = Done (Some s) m1 /\
    tasks m1 !! t = Some (task_handle_task.mk (task_handle_task.m_ctx tk) (Some s)) /\
    trace m1 = trace m /\ nodes m1 = nodes m /\ vertices m1 = vertices m /\
    match task_handle_task.m_dynamic_state tk with
    | Some s0 => s = s0 /\ m1 = m
    | None =>
        states m !! s = None /\
        states m1 = <[s := task_dynamic_state.mk (Some t) NullPtr None None 1]> (states m)
    end.
Proof.
  intros Ht. destruct (task_handle_task.m_dynamic_state tk) as [s0 |] eqn:Hd.
  - exists s0, m. rewrite (get_dynamic_state_present m t tk Ht s0 Hd).
    destruct tk as [c d]. simpl in *. subst d. done.
  - eexists. eexists. rewrite (get_dynamic_state_absent m t tk Ht Hd). cbv zeta.
    split; [reflexivity |]. split.
    { apply (get_dynamic_state_present _ t
               (task_handle_task.mk (task_handle_task.m_ctx tk) (Some (fresh (dom (states m))))));
        [mproj; apply lookup_insert_eq | reflexivity]. }
    mproj. rewrite lookup_insert_eq. repeat split; try done.
    apply fresh_unallocated.
Qed.

Lemma get_dynamic_state_once_witness :
  exists s m1, get_dynamic_state 1 (lone_vertex 1) = Done (Some s) m1 /\
               get_dynamic_state 1 m1 = Done (Some s) m1.
Proof.
  destruct (get_dynamic_state_once (lone_vertex 1) 1 (task_handle_task.mk 9%positive None))
    as (s & m1 & H1 & H2 & _); [reflexivity |].
  exists s, m1. split; [exact H1 | exact H2].
Defined.

(** [get_continuation_vertex] creates the continuation vertex of a state once,
    with one reference (the reservation of the task's handle) and the task of
    the state; every other call returns the stored vertex and changes nothing.
    From then on [has_dependencies] answers true, until [unset_dependency]
    clears the vertex. *)
Theorem get_continuation_vertex_once (m : machine) (s : positive)
    (x : task_dynamic_state.t) :
  states m !! s = Some x ->
  exists v m1 m2,
    task_dynamic_state_get_continuation_vertex s m = Done (Some v) m1 /\
    task_dynamic_state_get_continuation_vertex s m1 = Done (Some v) m1 /\
    task_dynamic_state_has_dependencies s m1 = Done true m1 /\
    unset_dependency s m1 = Done tt m2 /\
    task_dynamic_state_has_dependencies s m2 = Done false m2 /\
    trace m1 = trace m /\ nodes m1 = nodes m /\ tasks m1 = tasks m /\
    match task_dynamic_state.m_continuation_vertex x with
    | Some v0 => v = v0 /\ m1 = m
    | None =>
        vertices m !! v = None /\
        vertices m1 = <[v := continuation_vertex.mk 1 (task_dynamic_state.m_task x)]> (vertices m) /\
        states m1 = <[s := with_vertex (Some v) x]> (states m)
    end.
Proof.
  intros Hs. destruct (task_dynamic_state.m_continuation_vertex x) as [v0 |] eqn:Hv.
  - exists v0, m. eexists. rewrite (get_continuation_vertex_present m s x Hs v0 Hv).
    rewrite (has_dependencies_run m s x Hs), Hv.
    rewrite bool_decide_eq_true_2 by done.
    split; [reflexivity |]. split; [reflexivity |]. split; [reflexivity |].
    split; [unfold unset_dependency; munfold; rewrite Hs; reflexivity |].
    split; [| done].
    rewrite (has_dependencies_run _ s (with_vertex None x)) by (mproj; apply lookup_insert_eq).
    mproj. rewrite bool_decide_eq_false_2; [reflexivity | intros H; apply H; reflexivity].
  - eexists. eexists. eexists.
    rewrite (get_continuation_vertex_absent m s x Hs Hv). cbv zeta.
    split; [reflexivity |]. split.
    { apply (get_continuation_vertex_present _ s
               (with_vertex (Some (fresh (dom (vertices m)))) x));
        [mproj; apply lookup_insert_eq | reflexivity]. }
    split.
    { rewrite (has_dependencies_run _ s (with_vertex (Some (fresh (dom (vertices m)))) x))
        by (mproj; apply lookup_insert_eq).
      mproj. rewrite bool_decide_eq_true_2 by done. reflexivity. }
    split; [unfold unset_dependency; munfold; mproj; rewrite lookup_insert_eq; reflexivity |].
    split.
    { rewrite (has_dependencies_run _ s
                 (with_vertex None (with_vertex (Some (fresh (dom (vertices m)))) x)))
        by (mproj; apply lookup_insert_eq).
      mproj. rewrite bool_decide_eq_false_2; [reflexivity | intros H; apply H; reflexivity]. }
    mproj. repeat split; try done. apply fresh_unallocated.
Qed.

Lemma get_continuation_vertex_once_witness :
  exists v m1, task_dynamic_state_get_continuation_vertex 2 two_tasks = Done (Some v) m1 /\
               task_dynamic_state_has_dependencies 2 m1 = Done true m1.
Proof.
  destruct (get_continuation_vertex_once two_tasks 2
              (task_dynamic_state.mk (Some 2%positive) NullPtr None None 1))
    as (v & m1 & m2 & H1 & _ & H3 & _); [reflexivity |].
  exists v, m1. split; [exact H1 | exact H3].
Defined.

(** * Reference counting of dynamic states *)

Lemma wrap64_succ_pred (r : Z) : 0 <= r < 2 ^ 64 -> wrap64 (wrap64 (r + 1) - 1) = r.
Proof.
  intros Hr. unfold wrap64. rewrite Zminus_mod_idemp_l.
  replace (r + 1 - 1) with r by lia. apply Z.mod_small. exact Hr.
Qed.

(** A [reserve] followed by a [release] leaves a state that has an owner as
    it was: the counter returns to its value and the state is not freed. *)
Theorem reserve_release_round_trip (fuel : nat) (m : machine) (s : positive)
    (x : task_dynamic_state.t) :
  states m !! s = Some x ->
  1 <= task_dynamic_state.m_num_references x < 2 ^ 64 ->
  exists m',
    (task_dynamic_state_reserve s ;;; task_dynamic_state_release (S fuel) s) m = Done tt m' /\
    states m' = states m /\ nodes m' = nodes m /\ vertices m' = vertices m /\
    tasks m' = tasks m /\ completion_handles m' = completion_handles m /\
    trace m' = trace m ++ [StateReserve s; StateRelease s].
Proof.
  intros Hs Hr.
  set (x1 := with_references (wrap64 (task_dynamic_state.m_num_references x + 1)) x).
  set (m1 := log (StateReserve s) (set_states (insert s x1) m)).
  assert (Hn : ~ on_last_reference x1).
  { unfold on_last_reference, x1. mproj. rewrite wrap64_succ_pred by lia. lia. }
  exists (decremented s x1 m1). split.
  - unfold task_dynamic_state_reserve. munfold. rewrite Hs. fold x1. fold m1.
    apply release_shared; [unfold m1; mproj; apply lookup_insert_eq | exact Hn].
  - unfold decremented, m1, x1. mproj. rewrite wrap64_succ_pred by lia.
    rewrite insert_insert_eq, <- app_assoc.
    repeat split; try done.
    apply insert_id. rewrite Hs. destruct x. reflexivity.
Qed.

Lemma reserve_release_round_trip_witness :
  exists m',
    (task_dynamic_state_reserve 1 ;;; task_dynamic_state_release 1 1) two_tasks = Done tt m' /\
    states m' = states two_tasks.
Proof.
  destruct (reserve_release_round_trip 0 two_tasks 1
              (task_dynamic_state.mk (Some 1%positive) NullPtr None None 1))
    as (m' & Hrun & Hstates & _); [reflexivity | simpl; lia |].
  exists m'. split; [exact Hrun | exact Hstates].
Defined.

(** States 1 and 2 forward to each other and each holds its last reference. *)
Definition forwarding_cycle : machine :=
  Machine ∅ ∅
    {[ 1%positive := task_dynamic_state.mk (Some 1%positive) CompletedPtr None (Some 2%positive) 1;
       2%positive := task_dynamic_state.mk (Some 2%positive) CompletedPtr None (Some 1%positive) 1 ]}
    ∅ ∅ ∅ true [].

(** [release] returns, also when the forwarding pointers form a cycle: the
    cascade of last releases goes through each state on its last reference at
    most once, so a budget of one step per such state, plus one, is enough;
    the states that were not on their last reference stay live. *)
Theorem release_terminates (fuel : nat) (m : machine) (s : positive) :
  forward_closed m ->
  is_Some (states m !! s) ->
  (last_references m < fuel)%nat ->
  exists m',
    task_dynamic_state_release fuel s m = Done tt m' /\
    forall s' x', states m !! s' = Some x' -> ~ on_last_reference x' ->
                  is_Some (states m' !! s').
Proof. apply release_returns. Qed.

Lemma release_terminates_witness :
  exists m', task_dynamic_state_release 3 1 forwarding_cycle = Done tt m' /\
             states m' = ∅.
Proof.
  destruct (release_terminates 3 forwarding_cycle 1) as (m' & Hrun & _).
  - apply forward_closed_checked. vm_compute. reflexivity.
  - eexists. reflexivity.
  - vm_compute. lia.
  - assert (Hc : exists mc, task_dynamic_state_release 3 1 forwarding_cycle = Done tt mc /\
                            states mc = ∅)
      by (eexists; split; vm_compute; reflexivity).
    destruct Hc as (mc & Hc & Hempty). rewrite Hc in Hrun. injection Hrun as <-.
    exists mc. split; [exact Hc | exact Hempty].
Defined.

(** * What a returning [release_bypass] has done *)

Lemma release_bypass_done (m m' : machine) (v : positive) (d : Z) (r : ptr) :
  release_bypass v d m = Done r m' ->
  exists xv,
    vertices m !! v = Some xv /\
    ((wrap64 (continuation_vertex.m_ref_count xv - d) <> 0 /\ r = None /\
      m' = log (VertexReleaseBypass v d None)
             (set_vertices (insert v (continuation_vertex.mk
                (wrap64 (continuation_vertex.m_ref_count xv - d))
                (continuation_vertex.m_task xv))) m)) \/
     (wrap64 (continuation_vertex.m_ref_count xv - d) = 0 /\
      exists t, continuation_vertex.m_task xv = Some t /\ r = Some t /\ task_wf m t)).
Proof.
  intros Hrun.
  destruct (vertices m !! v) as [xv |] eqn:Hv;
    [| unfold release_bypass in Hrun; munfold; rewrite Hv in Hrun; discriminate Hrun].
  exists xv. split; [reflexivity |].
  destruct (Z.eq_dec (wrap64 (continuation_vertex.m_ref_count xv - d)) 0) as [Hz | Hnz].
  - right. split; [exact Hz |].
    destruct (continuation_vertex.m_task xv) as [t |] eqn:Ht.
    + assert (Hwf : task_wf m t).
      { destruct (tasks m !! t) as [tk |] eqn:Htk.
        - exists tk. split; [exact Htk |]. intros s Hs.
          destruct (states m !! s) as [st |] eqn:Hst; [eauto |]. exfalso.
          revert Hrun. unfold release_bypass, unset_dependency. munfold.
          rewrite Hv, Hz, Ht. msimp.
          rewrite (get_dynamic_state_present _ t tk) with (s := s) by (msimp; done).
          msimp. rewrite Hst. discriminate.
        - exfalso. revert Hrun. unfold release_bypass, get_dynamic_state. munfold.
          rewrite Hv, Hz, Ht. msimp. rewrite Htk. discriminate. }
      exists t. split; [reflexivity |]. split; [| exact Hwf].
      destruct (release_bypass_last m v xv d Hv t Hz Ht Hwf) as (m'' & s & st & tk & Hrun' & _).
      rewrite Hrun' in Hrun. injection Hrun as <- _. reflexivity.
    + exfalso. revert Hrun. unfold release_bypass. munfold.
      rewrite Hv, Hz, Ht. msimp. discriminate.
  - left. split; [exact Hnz |].
    rewrite (release_bypass_pending m v xv d Hv Hnz) in Hrun.
    injection Hrun as <- <-. done.
Qed.

(** The parts of the dynamic states that only [reserve], [release] and the
    list operations write. *)
Definition states_kept (m m' : machine) : Prop :=
  forall s x, states m !! s = Some x ->
    exists x', states m' !! s = Some x' /\
      task_dynamic_state.m_successor_list_head x' = task_dynamic_state.m_successor_list_head x /\
      task_dynamic_state.m_num_references x' = task_dynamic_state.m_num_references x /\
      task_dynamic_state.m_new_dynamic_state x' = task_dynamic_state.m_new_dynamic_state x /\
      task_dynamic_state.m_task x' = task_dynamic_state.m_task x.

Lemma states_kept_refl m : states_kept m m.
Proof. intros s x Hs. exists x. done. Qed.

Lemma states_kept_same m m' : states m' = states m -> states_kept m m'.
Proof. intros H s x Hs. exists x. rewrite H. done. Qed.

Lemma states_kept_trans m1 m2 m3 :
  states_kept m1 m2 -> states_kept m2 m3 -> states_kept m1 m3.
Proof.
  intros H12 H23 s x Hs. destruct (H12 s x Hs) as (x2 & Hs2 & ? & ? & ? & ?).
  destruct (H23 s x2 Hs2) as (x3 & Hs3 & ? & ? & ? & ?).
  exists x3. repeat split; congruence.
Qed.

Lemma release_bypass_frame (m m' : machine) (v : positive) (d : Z) (r : ptr) :
  release_bypass v d m = Done r m' ->
  nodes m' = nodes m /\ task_handles m' = task_handles m /\
  completion_handles m' = completion_handles m /\ use_assert m' = use_assert m /\
  states_kept m m'.
Proof.
  intros Hrun. destruct (release_bypass_done m m' v d r Hrun) as (xv & Hv & [H | H]).
  - destruct H as (_ & _ & ->). mproj. repeat split; try done.
    apply states_kept_same. reflexivity.
  - destruct H as (Hz & t & Ht & -> & Hwf).
    destruct (release_bypass_last m v xv d Hv t Hz Ht Hwf)
      as (m'' & s & st & tk & Hrun' & Hn & _ & _ & _ & _ & Hss & _ & Hst & Hth & Hch & Hua & _).
    rewrite Hrun' in Hrun. injection Hrun as <-.
    repeat split; try done.
    intros s0 x0 Hs0. rewrite Hss. destruct (decide (s = s0)) as [-> | Hne].
    + rewrite lookup_insert_eq. exists st. rewrite (Hst x0 Hs0). done.
    + rewrite lookup_insert_ne by done. exists x0. done.
Qed.

Lemma release_successor_list_loop_frame (fuel : nat) :
  forall (p : node_ptr) (acc r : ptr) (m m' : machine),
    release_successor_list_loop fuel p acc m = Done r m' ->
    task_handles m' = task_handles m /\
    completion_handles m' = completion_handles m /\
    states_kept m m'.
Proof.
  induction fuel as [| fuel IH]; intros p acc r m m' Hrun; [discriminate Hrun |].
  cbn [release_successor_list_loop] in Hrun.
  destruct p as [| n |].
  - rewrite bool_decide_eq_false_2 in Hrun by (intros H; apply H; done).
    injection Hrun as _ <-. split; [done |]. split; [done | apply states_kept_refl].
  - rewrite bool_decide_eq_true_2 in Hrun by done.
    revert Hrun. unfold get_next_node, successor_list_node_get_continuation_vertex,
      successor_list_node_finalize.
    cbv beta iota delta [bind ret deref_node node_at nonnull delete_node modify emit abort].
    destruct (nodes m !! n) as [x |] eqn:Hx; [| intros H; cbn in H; discriminate H].
    repeat (first [rewrite Hx | progress mproj]).
    destruct (successor_list_node.m_continuation_vertex x) as [v |];
      [| intros H; cbn in H; discriminate H].
    mproj.
    destruct (release_bypass v 1 m) as [t1 m1 | f m1] eqn:Hrb; [| intros H; cbn in H; discriminate H].
    destruct (release_bypass_frame m m1 v 1 t1 Hrb) as (Hn1 & Hth1 & Hch1 & _ & Hk1).
    rewrite Hn1, Hx. mproj.
    set (m2 := log (NodeFinalize n) (set_nodes (delete n) m1)).
    assert (Hk2 : states_kept m m2) by (intros s0 x0 Hs0; apply (Hk1 s0 x0 Hs0)).
    destruct t1 as [t |]; [destruct acc as [a |] |].
    + unfold spawn. cbv beta iota delta [bind task_at emit modify].
      destruct (tasks m2 !! t) as [tk |]; [| intros H; cbn in H; discriminate H].
      intros Hrun. apply IH in Hrun as (Hth & Hch & Hk).
      split; [rewrite Hth; exact Hth1 |]. split; [rewrite Hch; exact Hch1 |].
      eapply states_kept_trans; [exact Hk2 |].
      intros s0 x0 Hs0. apply (Hk s0 x0 Hs0).
    + intros Hrun. apply IH in Hrun as (Hth & Hch & Hk).
      split; [rewrite Hth; exact Hth1 |]. split; [rewrite Hch; exact Hch1 |].
      eapply states_kept_trans; [exact Hk2 | exact Hk].
    + intros Hrun. apply IH in Hrun as (Hth & Hch & Hk).
      split; [rewrite Hth; exact Hth1 |]. split; [rewrite Hch; exact Hch1 |].
      eapply states_kept_trans; [exact Hk2 | exact Hk].
  - rewrite bool_decide_eq_true_2 in Hrun by done. discriminate Hrun.
Qed.

(** [complete_task] and the loop of [release_successor_list], one step at a
    time. *)
Lemma complete_task_run (fuel : nat) (m : machine) (s : positive)
    (x : task_dynamic_state.t) :
  states m !! s = Some x ->
  task_dynamic_state_complete_task fuel s m =
    release_successor_list_loop fuel (task_dynamic_state.m_successor_list_head x) None
      (log (ExchangeHead s COMPLETED_FLAG (task_dynamic_state.m_successor_list_head x))
         (set_states (insert s (with_head COMPLETED_FLAG x)) m)).
Proof.
  intros Hs. unfold task_dynamic_state_complete_task, fetch_successor_list,
    release_successor_list. munfold. rewrite Hs. reflexivity.
Qed.

Lemma release_successor_list_loop_null (fuel : nat) (acc : ptr) (m : machine) :
  release_successor_list_loop (S fuel) NullPtr acc m = Done acc m.
Proof.
  cbn [release_successor_list_loop].
  rewrite bool_decide_eq_false_2 by (intros H; apply H; reflexivity). reflexivity.
Qed.

Lemma release_successor_list_loop_step (fuel : nat) (m m1 : machine) (n v : positive)
    (x : successor_list_node.t) (acc r : ptr) :
  nodes m !! n = Some x ->
  successor_list_node.m_continuation_vertex x = Some v ->
  release_bypass v 1 m = Done r m1 ->
  release_successor_list_loop (S fuel) (NodePtr n) acc m =
    let m2 := log (NodeFinalize n) (set_nodes (delete n) m1) in
    match r with
    | Some t =>
        match acc with
        | None => release_successor_list_loop fuel
                    (successor_list_node.m_next_successor x) (Some t) m2
        | Some _ =>
            match spawn t m2 with
            | Done _ m3 => release_successor_list_loop fuel
                             (successor_list_node.m_next_successor x) acc m3
            | Abort f m3 => Abort f m3
            end
        end
    | None => release_successor_list_loop fuel
                (successor_list_node.m_next_successor x) acc m2
    end.
Proof.
  intros Hx Hxv Hrb.
  destruct (release_bypass_frame m m1 v 1 r Hrb) as (Hn1 & _).
  cbn [release_successor_list_loop].
  rewrite bool_decide_eq_true_2 by discriminate.
  unfold get_next_node, successor_list_node_get_continuation_vertex,
    successor_list_node_finalize.
  cbv beta iota delta [bind ret deref_node node_at nonnull delete_node modify emit].
  repeat (first [rewrite Hx | rewrite Hxv | rewrite Hrb | rewrite Hn1 | progress mproj]).
  destruct r as [t |]; [destruct acc |]; reflexivity.
Qed.

(** * Completion leaves the owners alone *)

(** What the completion handles answer is the same in [m'] as in [m]. *)
Definition handles_answer_alike (m m' : machine) : Prop :=
  (forall h b, task_completion_handle_bool h m = Done b m ->
               task_completion_handle_bool h m' = Done b m') /\
  (forall h1 h2 b, task_completion_handle_eq h1 h2 m = Done b m ->
                   task_completion_handle_eq h1 h2 m' = Done b m').

Lemma handles_answer_alike_same (m m' : machine) :
  completion_handles m' = completion_handles m -> handles_answer_alike m m'.
Proof.
  intros Hsame. split.
  - intros h b. unfold task_completion_handle_bool. munfold. rewrite Hsame.
    destruct (completion_handles m !! h); [| discriminate]. intros [= <-]. reflexivity.
  - intros h1 h2 b. unfold task_completion_handle_eq. munfold. rewrite Hsame.
    destruct (completion_handles m !! h1); [| discriminate]. mproj. rewrite ?Hsame.
    destruct (completion_handles m !! h2); [| discriminate]. intros [= <-]. reflexivity.
Qed.

(** [complete_task] of a task drains the successors and nothing else: the
    task handles and completion handles are untouched, so the bool conversion
    and the equality of every completion handle answer as before, no dynamic
    state is freed and no reference count or forwarding pointer of a dynamic
    state changes. *)
Theorem complete_task_keeps_owners (fuel : nat) (m : machine) (t s : positive)
    (tk : task_handle_task.t) (x : task_dynamic_state.t) (l : list (positive * positive)) :
  tasks m !! t = Some tk ->
  task_handle_task.m_dynamic_state tk = Some s ->
  states m !! s = Some x ->
  is_list (nodes m) (task_dynamic_state.m_successor_list_head x) (l.*1) ->
  node_vertices (nodes m) l ->
  drain_wf m (l.*2) ->
  tasks_wf m ->
  (length l < fuel)%nat ->
  exists r m',
    task_handle_task_complete_task fuel t m = Done r m' /\
    task_handles m' = task_handles m /\
    completion_handles m' = completion_handles m /\
    handles_answer_alike m m' /\
    forall s0 x0, states m !! s0 = Some x0 ->
      exists x0', states m' !! s0 = Some x0' /\
        task_dynamic_state.m_num_references x0' = task_dynamic_state.m_num_references x0 /\
        task_dynamic_state.m_new_dynamic_state x0' = task_dynamic_state.m_new_dynamic_state x0.
Proof.
  intros Ht Hd Hs Hl Hnv Hwf Htasks Hfuel.
  set (m0 := log (ExchangeHead s COMPLETED_FLAG (task_dynamic_state.m_successor_list_head x))
               (set_states (insert s (with_head COMPLETED_FLAG x)) m)).
  assert (Hstart : task_handle_task_complete_task fuel t m
                   = release_successor_list_loop fuel
                       (task_dynamic_state.m_successor_list_head x) None m0).
  { unfold task_handle_task_complete_task, task_dynamic_state_complete_task,
      fetch_successor_list, release_successor_list.
    munfold. rewrite Ht, Hd. mproj. rewrite Hs. reflexivity. }
  assert (Htasks0 : tasks_wf m0).
  { intros t0 tk0 s0 Ht0 Hs0. unfold m0. mproj.
    apply lookup_insert_is_Some'. right. apply (Htasks t0 tk0 s0 Ht0 Hs0). }
  destruct (release_successor_list_loop_drains l m0
              (task_dynamic_state.m_successor_list_head x) None fuel
              Hl Hnv Hwf Htasks0 Hfuel) as (m' & evs & Hrun & _).
  destruct (release_successor_list_loop_frame fuel _ _ _ _ _ Hrun) as (Hth & Hch & Hk).
  eexists. exists m'. split; [rewrite Hstart; exact Hrun |].
  split; [exact Hth |]. split; [exact Hch |].
  split; [apply handles_answer_alike_same; exact Hch |].
  intros s0 x0 Hs0.
  destruct (decide (s0 = s)) as [-> | Hne].
  - destruct (Hk s (with_head COMPLETED_FLAG x)) as (x' & Hs' & _ & Hr & Hf & _).
    { unfold m0. mproj. apply lookup_insert_eq. }
    exists x'. rewrite Hs in Hs0. injection Hs0 as <-. done.
  - destruct (Hk s0 x0) as (x' & Hs' & _ & Hr & Hf & _).
    { unfold m0. mproj. rewrite lookup_insert_ne by done. exact Hs0. }
    exists x'. done.
Qed.

(** The machine [two_successors] with a completion handle on state 1. *)
Definition observed_successors : machine :=
  set_completion_handles (insert 7%positive (Some 1%positive)) two_successors.

Lemma complete_task_keeps_owners_witness :
  exists r m',
    task_handle_task_complete_task 3 1 observed_successors = Done r m' /\
    task_completion_handle_bool 7 m' = Done true m'.
Proof.
  destruct (complete_task_keeps_owners 3 observed_successors 1 1
    (task_handle_task.mk 9%positive (Some 1%positive))
    (task_dynamic_state.mk (Some 1%positive) (NodePtr 1) None None 1)
    [(1%positive, 1%positive); (2%positive, 2%positive)])
    as (r & m' & Hrun & _ & _ & [Hbool _] & _).
  - reflexivity.
  - reflexivity.
  - reflexivity.
  - eapply lseg_cons; [reflexivity |]. eapply lseg_cons; [reflexivity |]. constructor.
  - intros n v Hnv. apply elem_of_cons in Hnv as [[= -> ->] | Hnv].
    + eexists. split; reflexivity.
    + apply list_elem_of_singleton in Hnv as [= -> ->]. eexists. split; reflexivity.
  - intros v Hv. apply elem_of_cons in Hv as [-> | Hv].
    + eexists _, _. split; [reflexivity |]. split; [simpl; lia |].
      split; [reflexivity |]. eexists. reflexivity.
    + apply list_elem_of_singleton in Hv as ->.
      eexists _, _. split; [reflexivity |]. split; [simpl; lia |].
      split; [reflexivity |]. eexists. reflexivity.
  - apply tasks_wf_checked. vm_compute. reflexivity.
  - simpl. lia.
  - exists r, m'. split; [exact Hrun |]. apply Hbool. vm_compute. reflexivity.
Defined.

(** * Completing twice *)

(** After a [complete_task] that returned, the head of the state is the
    COMPLETED flag, and a second [complete_task] hands this flag to
    [release_successor_list], which tests its argument for null only: the
    flag is dereferenced before any vertex is released. *)
Theorem complete_task_twice (fuel fuel' : nat) (m m' : machine) (s : positive) (r : ptr) :
  task_dynamic_state_complete_task fuel s m = Done r m' ->
  (0 < fuel')%nat ->
  exists x',
    states m' !! s = Some x' /\
    task_dynamic_state.m_successor_list_head x' = COMPLETED_FLAG /\
    task_dynamic_state_complete_task fuel' s m'
      = Abort InvalidPointer
          (log (ExchangeHead s COMPLETED_FLAG COMPLETED_FLAG)
             (set_states (insert s (with_head COMPLETED_FLAG x')) m')).
Proof.
  intros Hrun Hfuel.
  destruct (states m !! s) as [x |] eqn:Hs.
  2:{ unfold task_dynamic_state_complete_task, fetch_successor_list in Hrun.
      munfold. rewrite Hs in Hrun. discriminate Hrun. }
  set (m0 := log (ExchangeHead s COMPLETED_FLAG (task_dynamic_state.m_successor_list_head x))
               (set_states (insert s (with_head COMPLETED_FLAG x)) m)).
  assert (Hloop : release_successor_list_loop fuel
                    (task_dynamic_state.m_successor_list_head x) None m0 = Done r m').
  { rewrite <- Hrun. unfold task_dynamic_state_complete_task, fetch_successor_list,
      release_successor_list. munfold. rewrite Hs. reflexivity. }
  destruct (release_successor_list_loop_frame fuel _ _ _ _ _ Hloop) as (_ & _ & Hk).
  destruct (Hk s (with_head COMPLETED_FLAG x)) as (x' & Hs' & Hh & _).
  { unfold m0. mproj. apply lookup_insert_eq. }
  exists x'. split; [exact Hs' |]. split; [exact Hh |].
  destruct fuel' as [| fuel']; [lia |].
  unfold task_dynamic_state_complete_task, fetch_successor_list, release_successor_list.
  munfold. rewrite Hs'. mproj. rewrite Hh.
  cbn [release_successor_list_loop]. rewrite bool_decide_eq_true_2 by discriminate.
  reflexivity.
Qed.

Lemma complete_task_twice_witness :
  exists m' m'',
    task_dynamic_state_complete_task 3 1 two_successors = Done (Some 2%positive) m' /\
    task_dynamic_state_complete_task 3 1 m' = Abort InvalidPointer m''.
Proof.
  assert (Hc : exists mc,
            task_dynamic_state_complete_task 3 1 two_successors = Done (Some 2%positive) mc)
    by (eexists; vm_compute; reflexivity).
  destruct Hc as (mc & Hc).
  destruct (complete_task_twice 3 3 two_successors mc 1 (Some 2%positive) Hc)
    as (x' & _ & _ & Hagain); [lia |].
  exists mc. eexists. split; [exact Hc | exact Hagain].
Defined.

(** * Pushing a successor *)

(** [add_successor] on a state with a well-formed list keeps the list well
    formed and puts the new node first: the node is new, it carries the
    vertex, its successor is the old head, and no other node changes. *)
Theorem add_successor_pushes_front (fuel : nat) (m : machine) (s v : positive)
    (x : task_dynamic_state.t) (xv : continuation_vertex.t) (l : list positive) :
  states m !! s = Some x ->
  is_list (nodes m) (task_dynamic_state.m_successor_list_head x) l ->
  vertices m !! v = Some xv ->
  (3 <= fuel)%nat ->
  exists m' n,
    add_successor fuel s (Some v) m = Done tt m' /\
    nodes m !! n = None /\
    states m' !! s = Some (with_head (NodePtr n) x) /\
    nodes m' !! n = Some (successor_list_node.mk
                            (task_dynamic_state.m_successor_list_head x) (Some v)) /\
    is_list (nodes m') (NodePtr n) (n :: l) /\
    (forall a, a <> n -> nodes m' !! a = nodes m !! a).
Proof.
  intros Hs Hl Hv Hfuel.
  assert (Halive : task_dynamic_state.m_successor_list_head x <> COMPLETED_FLAG).
  { intros Hc. rewrite Hc in Hl. apply (is_list_completed_inv _ _ Hl). }
  destruct fuel as [| [| [| fuel]]]; try lia.
  exists (pushed s x (fresh (dom (nodes m))) (Some v) (reserved v xv m)),
    (fresh (dom (nodes m))).
  split; [apply (add_successor_alive fuel m s v x xv Hs Halive Hv) |].
  split; [apply fresh_unallocated |].
  unfold pushed, reserved. mproj. rewrite !lookup_insert_eq.
  split; [reflexivity |]. split; [reflexivity |]. split.
  - unfold is_list. eapply lseg_cons; [apply lookup_insert_eq |]. mproj.
    apply (lseg_frame (nodes m)); [exact Hl |].
    intros a Ha. apply lookup_insert_ne. intros <-.
    destruct (lseg_lookup _ _ _ _ _ Hl Ha) as [xa Hxa].
    rewrite fresh_unallocated in Hxa. discriminate Hxa.
  - intros a Ha. apply lookup_insert_ne. congruence.
Qed.

Lemma add_successor_pushes_front_witness :
  exists m' n,
    add_successor 3 1 (Some 1%positive) two_successors = Done tt m' /\
    is_list (nodes m') (NodePtr n) [n; 1%positive; 2%positive].
Proof.
  destruct (add_successor_pushes_front 3 two_successors 1 1
    (task_dynamic_state.mk (Some 1%positive) (NodePtr 1) None None 1)
    (continuation_vertex.mk 1 (Some 2%positive)) [1%positive; 2%positive])
    as (m' & n & Hrun & _ & _ & _ & Hl & _).
  - reflexivity.
  - eapply lseg_cons; [reflexivity |]. eapply lseg_cons; [reflexivity |]. constructor.
  - reflexivity.
  - lia.
  - exists m', n. split; [exact Hrun | exact Hl].
Defined.

(** * Completion handles: copies *)

(** Copying a completion handle registers one more owner of the tracked
    state, and the copy compares equal to its source; destroying the copy
    unregisters it again, so that the states and the handles are as before.
    Copying an empty handle gives an empty handle and reserves nothing. *)
Theorem copy_then_destroy (fuel : nat) (m : machine) (this other s : positive)
    (x : task_dynamic_state.t) :
  completion_handles m !! this = None ->
  (completion_handles m !! other = Some None ->
   task_completion_handle_copy this other m
     = Done tt (set_completion_handles (insert this None) m)) /\
  (completion_handles m !! other = Some (Some s) ->
   states m !! s = Some x ->
   1 <= task_dynamic_state.m_num_references x < 2 ^ 64 - 1 ->
   exists m1 m2,
     task_completion_handle_copy this other m = Done tt m1 /\
     states m1 = <[s := with_references (task_dynamic_state.m_num_references x + 1) x]>
                   (states m) /\
     task_completion_handle_eq this other m1 = Done true m1 /\
     task_completion_handle_bool this m1 = Done true m1 /\
     task_completion_handle_destroy (S fuel) this m1 = Done tt m2 /\
     states m2 = states m /\
     completion_handles m2 = completion_handles m /\
     trace m2 = trace m ++ [StateReserve s; StateRelease s]).
Proof.
  intros Hnew. split.
  - intros Hother. unfold task_completion_handle_copy. munfold. rewrite Hother. reflexivity.
  - intros Hother Hs Hr.
    assert (Hne : this <> other) by (intros ->; congruence).
    set (x1 := with_references (task_dynamic_state.m_num_references x + 1) x).
    set (m1 := log (StateReserve s) (set_states (insert s x1)
                 (set_completion_handles (insert this (Some s)) m))).
    assert (Hcopy : task_completion_handle_copy this other m = Done tt m1).
    { unfold task_completion_handle_copy, task_dynamic_state_reserve. munfold.
      rewrite Hother. mproj. rewrite Hs. rewrite wrap64_small by lia. reflexivity. }
    assert (Hn : ~ on_last_reference x1).
    { unfold on_last_reference, x1. mproj. rewrite wrap64_small by lia. lia. }
    exists m1. eexists. split; [exact Hcopy |].
    split; [reflexivity |].
    split.
    { unfold task_completion_handle_eq, m1. munfold. mproj.
      rewrite lookup_insert_eq. mproj. rewrite lookup_insert_ne by done. rewrite Hother.
      rewrite bool_decide_eq_true_2 by done. reflexivity. }
    split.
    { unfold task_completion_handle_bool, m1. munfold. mproj.
      rewrite lookup_insert_eq. rewrite bool_decide_eq_true_2 by done. reflexivity. }
    split.
    { unfold task_completion_handle_destroy. munfold.
      assert (completion_handles m1 !! this = Some (Some s)) as ->
        by (unfold m1; mproj; apply lookup_insert_eq).
      rewrite (release_shared fuel m1 s x1) by (done || (unfold m1; mproj; apply lookup_insert_eq)).
      reflexivity. }
    unfold decremented, m1, x1. mproj.
    replace (wrap64 (task_dynamic_state.m_num_references x + 1 - 1))
      with (task_dynamic_state.m_num_references x) by (rewrite wrap64_small; lia).
    rewrite insert_insert_eq, delete_insert_eq, <- app_assoc.
    split; [apply insert_id; rewrite Hs; destruct x; reflexivity |].
    split; [apply delete_id; exact Hnew | reflexivity].
Qed.

Lemma copy_then_destroy_witness :
  exists m1 m2,
    task_completion_handle_copy 3 1 two_handles = Done tt m1 /\
    task_completion_handle_destroy 1 3 m1 = Done tt m2 /\
    states m2 = states two_handles.
Proof.
  destruct (copy_then_destroy 0 two_handles 3 1 1
              (task_dynamic_state.mk (Some 1%positive) NullPtr None None 3))
    as [_ H]; [reflexivity |].
  destruct H as (m1 & m2 & Hcopy & _ & _ & _ & Hdestroy & Hstates & _);
    [reflexivity | reflexivity | simpl; lia |].
  exists m1, m2. split; [exact Hcopy |]. split; [exact Hdestroy | exact Hstates].
Defined.



(** * Completion handles built from a task handle that owns a task *)

(** Building a completion handle from a non-empty task handle shares the
    dynamic state of the task, creating it if the task has none: the new
    handle tracks the state that the task names afterwards and holds one more
    reference on it (a new state has two: the task's and the handle's); the
    task handle still owns the task; a second handle built from the same task
    handle compares equal to the first. *)
Theorem completion_handle_tracks_task_state (m : machine) (this this2 th t : positive)
    (tk : task_handle_task.t) :
  task_handles m !! th = Some (Some t) ->
  tasks m !! t = Some tk ->
  (forall s, task_handle_task.m_dynamic_state tk = Some s ->
     exists x, states m !! s = Some x /\
               0 <= task_dynamic_state.m_num_references x < 2 ^ 64 - 2) ->
  this <> this2 ->
  exists s x' m' m'',
    task_completion_handle_from_task_handle this th m = Done tt m' /\
    completion_handles m' !! this = Some (Some s) /\
    tasks m' !! t = Some (task_handle_task.mk (task_handle_task.m_ctx tk) (Some s)) /\
    task_handles m' = task_handles m /\
    states m' !! s = Some x' /\
    match task_handle_task.m_dynamic_state tk with
    | Some s0 =>
        s = s0 /\
        exists x, states m !! s0 = Some x /\
          x' = with_references (task_dynamic_state.m_num_references x + 1) x
    | None =>
        states m !! s = None /\
        x' = task_dynamic_state.mk (Some t) NullPtr None None 2
    end /\
    task_completion_handle_from_task_handle this2 th m' = Done tt m'' /\
    task_completion_handle_eq this this2 m'' = Done true m''.
Proof.
  intros Hth Ht Hlive Hne.
  assert (Hbool : forall m0, task_handles m0 = task_handles m ->
            task_handle_bool th m0 = Done true m0).
  { intros m0 H0. unfold task_handle_bool. munfold. rewrite H0, Hth.
    rewrite bool_decide_eq_true_2 by done. reflexivity. }
  (* one construction, on any machine in which the task names a live state *)
  assert (Hbuild : forall this0 m0 tk0 s x,
    task_handles m0 = task_handles m ->
    tasks m0 !! t = Some tk0 ->
    task_handle_task.m_dynamic_state tk0 = Some s ->
    states m0 !! s = Some x ->
    0 <= task_dynamic_state.m_num_references x < 2 ^ 64 - 1 ->
    task_completion_handle_from_task_handle this0 th m0 =
      Done tt (log (StateReserve s)
        (set_states (insert s (with_references
                                 (task_dynamic_state.m_num_references x + 1) x))
           (set_completion_handles (insert this0 (Some s)) m0)))).
  { intros this0 m0 tk0 s x H0 Ht0 Hd0 Hs0 Hr0.
    unfold task_completion_handle_from_task_handle, task_dynamic_state_reserve.
    munfold. rewrite H0, Hth. mproj.
    rewrite (get_dynamic_state_present m0 t tk0 Ht0 s Hd0). mproj.
    rewrite Hbool by (mproj; exact H0). msimp. rewrite Hs0. rewrite wrap64_small by lia.
    reflexivity. }
  destruct (task_handle_task.m_dynamic_state tk) as [s0 |] eqn:Hd.
  - destruct (Hlive s0 eq_refl) as (x & Hs & Hr).
    exists s0, (with_references (task_dynamic_state.m_num_references x + 1) x).
    eexists. eexists.
    split; [apply (Hbuild this m tk s0 x eq_refl Ht Hd Hs); lia |].
    mproj. rewrite !lookup_insert_eq.
    split; [reflexivity |].
    split; [rewrite Ht; destruct tk; simpl in *; congruence |].
    split; [reflexivity |]. split; [reflexivity |].
    split; [split; [reflexivity |]; exists x; done |].
    split.
    { apply (Hbuild this2 _ tk s0
               (with_references (task_dynamic_state.m_num_references x + 1) x));
        [reflexivity | exact Ht | exact Hd | mproj; apply lookup_insert_eq | mproj; lia]. }
    unfold task_completion_handle_eq. munfold. msimp. reflexivity.
  - set (s := fresh (dom (states m))).
    set (m1 := set_tasks (insert t (task_handle_task.mk (task_handle_task.m_ctx tk) (Some s)))
                 (set_states (insert s (task_dynamic_state.mk (Some t) NullPtr None None 1)) m)).
    set (m' := log (StateReserve s)
                 (set_states (insert s (task_dynamic_state.mk (Some t) NullPtr None None 2))
                    (set_completion_handles (insert this (Some s)) m1))).
    assert (Hfirst : task_completion_handle_from_task_handle this th m = Done tt m').
    { unfold task_completion_handle_from_task_handle, task_dynamic_state_reserve.
      munfold. rewrite Hth. mproj.
      rewrite (get_dynamic_state_absent m t tk Ht Hd). cbv zeta. fold s. fold m1. mproj.
      rewrite Hbool by reflexivity. msimp.
      assert (states m1 !! s = Some (task_dynamic_state.mk (Some t) NullPtr None None 1)) as ->
        by (unfold m1; mproj; apply lookup_insert_eq).
      reflexivity. }
    exists s, (task_dynamic_state.mk (Some t) NullPtr None None 2), m'.
    eexists. split; [exact Hfirst |].
    split; [unfold m'; mproj; apply lookup_insert_eq |].
    split; [unfold m', m1; mproj; apply lookup_insert_eq |].
    split; [reflexivity |].
    split; [unfold m'; mproj; apply lookup_insert_eq |].
    split; [split; [apply fresh_unallocated | reflexivity] |].
    split.
    { apply (Hbuild this2 m' (task_handle_task.mk (task_handle_task.m_ctx tk) (Some s)) s
               (task_dynamic_state.mk (Some t) NullPtr None None 2));
        [reflexivity | unfold m', m1; mproj; apply lookup_insert_eq | reflexivity
        | unfold m'; mproj; apply lookup_insert_eq | mproj; lia]. }
    unfold task_completion_handle_eq, m'. munfold. msimp. reflexivity.
Qed.

(** Task 1, without dynamic state, owned by the task handle 1. *)
Definition owned_task : machine :=
  Machine ∅ ∅ ∅ {[ 1%positive := task_handle_task.mk 9%positive None ]}
          {[ 1%positive := Some 1%positive ]} ∅ true [].

Lemma completion_handle_tracks_task_state_witness :
  exists s m',
    task_completion_handle_from_task_handle 2 1 owned_task = Done tt m' /\
    states m' !! s = Some (task_dynamic_state.mk (Some 1%positive) NullPtr None None 2).
Proof.
  destruct (completion_handle_tracks_task_state owned_task 2 3 1 1
              (task_handle_task.mk 9%positive None))
    as (s & x' & m' & m'' & Hrun & _ & _ & _ & Hs & Hcase & _).
  - reflexivity.
  - reflexivity.
  - intros s Hs. discriminate Hs.
  - discriminate.
  - simpl in Hcase. destruct Hcase as [_ ->]. exists s, m'. split; [exact Hrun | exact Hs].
Defined.

(** * Task handles and their accessor *)

(** [operator==(task_handle const&, std::nullptr_t)] *)
Definition task_handle_eq_nullptr (th : positive) : M bool :=
  p <- m_handle th ;; ret (bool_decide (p = None)).

(** [operator!=(task_handle const&, std::nullptr_t)] *)
Definition task_handle_ne_nullptr (th : positive) : M bool :=
  p <- m_handle th ;; ret (bool_decide (p <> None)).

(** [task_handle_accessor::construct], building the handle at [this]. *)
Definition task_handle_accessor_construct (this : positive) (t : ptr) : M unit :=
  modify (set_task_handles (insert this t)).

(** [task_handle_accessor::ctx_of] *)
Definition task_handle_accessor_ctx_of (th : positive) : M positive :=
  p <- m_handle th ;;
  tbb_assert (bool_decide (p <> None)) ;;;
  t <- nonnull p ;;
  ctx t.

(** The accessor functions on an empty [task_handle]: [release] and
    [get_task_dynamic_state] go through the null [m_handle] unchecked;
    [has_dependencies] and [ctx_of] assert first, so they stop at the
    assertion in a build with assertions and go through null otherwise.  None
    of them changes anything.  The handle converts to false and equals
    nullptr. *)
Theorem empty_handle_accessors (m : machine) (th : positive) :
  task_handles m !! th = Some None ->
  task_handle_accessor_release th m = Abort NullDereference m /\
  task_handle_accessor_get_task_dynamic_state th m = Abort NullDereference m /\
  task_handle_accessor_has_dependencies th m
    = Abort (if use_assert m then AssertionFailure else NullDereference) m /\
  task_handle_accessor_ctx_of th m
    = Abort (if use_assert m then AssertionFailure else NullDereference) m /\
  task_handle_bool th m = Done false m /\
  task_handle_eq_nullptr th m = Done true m /\
  task_handle_ne_nullptr th m = Done false m.
Proof.
  intros Hth.
  unfold task_handle_accessor_release, task_handle_accessor_get_task_dynamic_state,
    task_handle_accessor_has_dependencies, task_handle_accessor_ctx_of,
    task_handle_bool, task_handle_eq_nullptr, task_handle_ne_nullptr.
  munfold. rewrite Hth. mproj.
  rewrite bool_decide_eq_false_2 by (intros H; apply H; reflexivity).
  rewrite bool_decide_eq_true_2 by reflexivity.
  destruct (use_assert m); repeat split; reflexivity.
Qed.

Lemma empty_handle_accessors_witness :
  task_handle_accessor_release 1 empty_task_handle = Abort NullDereference empty_task_handle /\
  task_handle_accessor_ctx_of 1 empty_task_handle = Abort AssertionFailure empty_task_handle.
Proof.
  destruct (empty_handle_accessors empty_task_handle 1) as (H1 & _ & _ & H4 & _);
    [reflexivity |].
  split; [exact H1 | exact H4].
Defined.

(** A handle constructed for a task without dependencies is not empty, gives
    the context of the task, and [release] gives the task back and leaves the
    handle empty, with nothing spawned and no object changed. *)
Theorem construct_then_release (m : machine) (this t : positive) (tk : task_handle_task.t) :
  tasks m !! t = Some tk ->
  task_handle_task.m_dynamic_state tk = None ->
  exists m1 m2,
    task_handle_accessor_construct this (Some t) m = Done tt m1 /\
    task_handle_bool this m1 = Done true m1 /\
    task_handle_eq_nullptr this m1 = Done false m1 /\
    task_handle_accessor_ctx_of this m1 = Done (task_handle_task.m_ctx tk) m1 /\
    task_handle_accessor_has_dependencies this m1 = Done false m1 /\
    task_handle_accessor_release this m1 = Done (Some t) m2 /\
    task_handle_bool this m2 = Done false m2 /\
    task_handle_eq_nullptr this m2 = Done true m2 /\
    task_handles m2 = <[this := None]> (task_handles m) /\
    tasks m2 = tasks m /\ states m2 = states m /\ vertices m2 = vertices m /\
    nodes m2 = nodes m /\ trace m2 = trace m.
Proof.
  intros Ht Hd.
  exists (set_task_handles (insert this (Some t)) m),
    (set_task_handles (insert this None) (set_task_handles (insert this (Some t)) m)).
  split; [reflexivity |].
  unfold task_handle_bool, task_handle_eq_nullptr, task_handle_accessor_ctx_of,
    task_handle_accessor_has_dependencies, task_handle_task_has_dependencies,
    task_handle_accessor_release, task_handle_task_release_continuation,
    task_handle_release, ctx.
  munfold. msimp. rewrite Ht, Hd. msimp.
  rewrite ?insert_insert_eq.
  rewrite ?(bool_decide_eq_true_2 (@None positive = None)) by reflexivity.
  rewrite ?(bool_decide_eq_false_2 (@None positive <> None))
    by (intros H; apply H; reflexivity).
  repeat split; reflexivity.
Qed.

Lemma construct_then_release_witness :
  exists m1 m2,
    task_handle_accessor_construct 4 (Some 1%positive) owned_task = Done tt m1 /\
    task_handle_accessor_release 4 m1 = Done (Some 1%positive) m2.
Proof.
  destruct (construct_then_release owned_task 4 1 (task_handle_task.mk 9%positive None))
    as (m1 & m2 & H1 & _ & _ & _ & _ & H2 & _); [reflexivity | reflexivity |].
  exists m1, m2. split; [exact H1 | exact H2].
Defined.

(** * Transfers that move nothing *)

(** A transfer to a null target changes nothing: in a build with assertions
    it stops at the assertion, otherwise the state-level function goes through
    the null target before it touches the source.  A task without dynamic
    state has no successors to move: its transfer returns at once and does not
    reserve the target. *)
Theorem transfer_without_effect (fuel : nat) (m : machine) (s t : positive)
    (target : positive) (tk : task_handle_task.t) :
  tasks m !! t = Some tk ->
  task_handle_task.m_dynamic_state tk = None ->
  task_dynamic_state_transfer_successors_to fuel s None m
    = Abort (if use_assert m then AssertionFailure else NullDereference) m /\
  task_handle_task_transfer_successors_to fuel t None m
    = (if use_assert m then Abort AssertionFailure m else Done tt m) /\
  task_handle_task_transfer_successors_to fuel t (Some target) m = Done tt m.
Proof.
  intros Ht Hd.
  unfold task_dynamic_state_transfer_successors_to, task_handle_task_transfer_successors_to.
  munfold.
  rewrite bool_decide_eq_false_2 by (intros H; apply H; reflexivity).
  rewrite bool_decide_eq_true_2 by done. msimp.
  destruct (use_assert m); msimp; rewrite Ht, ?Hd; repeat split; reflexivity.
Qed.

Lemma transfer_without_effect_witness :
  task_handle_task_transfer_successors_to 1 1 (Some 5%positive) owned_task
    = Done tt owned_task.
Proof.
  apply (transfer_without_effect 1 owned_task 1 1 5 (task_handle_task.mk 9%positive None));
    reflexivity.
Defined.

(** * Late inserters *)

(** [add_successor_node] on a state that is sealed and forwards to a live
    state hands the node over: the node is pushed on the list of the receiving
    state, with the vertex it carried, and its vertex is neither reserved nor
    released again. *)
Theorem add_successor_node_forwarded (fuel : nat) (m : machine) (s s' n : positive)
    (x x' : task_dynamic_state.t) (nx : successor_list_node.t) :
  states m !! s = Some x ->
  task_dynamic_state.m_successor_list_head x = COMPLETED_FLAG ->
  task_dynamic_state.m_new_dynamic_state x = Some s' ->
  states m !! s' = Some x' ->
  task_dynamic_state.m_successor_list_head x' <> COMPLETED_FLAG ->
  nodes m !! n = Some nx ->
  (3 <= fuel)%nat ->
  add_successor_node fuel s (Some n) m
    = Done tt (pushed s' x' n (successor_list_node.m_continuation_vertex nx) m) /\
  vertices (pushed s' x' n (successor_list_node.m_continuation_vertex nx) m) = vertices m /\
  states (pushed s' x' n (successor_list_node.m_continuation_vertex nx) m) !! s'
    = Some (with_head (NodePtr n) x') /\
  nodes (pushed s' x' n (successor_list_node.m_continuation_vertex nx) m) !! n
    = Some (successor_list_node.mk (task_dynamic_state.m_successor_list_head x')
              (successor_list_node.m_continuation_vertex nx)).
Proof.
  intros Hs Hc Hf Hs' Halive Hn Hfuel.
  destruct fuel as [| [| [| fuel]]]; try lia.
  split.
  - change (add_successor_node (S (S (S fuel))) s (Some n) m)
      with ((tbb_assert (bool_decide (Some n <> None)) ;;;
             current_successor_list_head <- load_head s ;;
             b <- check_transfer_or_completion (add_successor_node (S (S fuel))) s
                    current_successor_list_head (Some n) ;;
             if negb b then
               n0 <- nonnull (Some n) ;;
               set_next_node n0 current_successor_list_head ;;;
               add_successor_node_loop (add_successor_node (S (S fuel))) (S (S fuel)) s
                 current_successor_list_head (Some n)
             else ret tt) m).
    unfold check_transfer_or_completion, load_head, load_new_dynamic_state.
    cbv beta iota delta [bind ret tbb_assert state_at].
    rewrite bool_decide_eq_true_2 by done. msimp. rewrite Hs, Hc.
    unfold is_alive. rewrite bool_decide_eq_false_2 by (intros H; apply H; reflexivity).
    msimp. rewrite Hs, Hf.
    rewrite (add_successor_node_alive fuel m s' n x' nx Hs' Halive Hn). reflexivity.
  - unfold pushed. mproj. rewrite !lookup_insert_eq. done.
Qed.

Lemma add_successor_node_forwarded_witness :
  exists m',
    add_successor_node 3 2 (Some 1%positive) transfer_states = Done tt m' /\
    states m' !! 3%positive
      = Some (task_dynamic_state.mk (Some 3%positive) (NodePtr 1) None None 1).
Proof.
  destruct (add_successor_node_forwarded 3 transfer_states 2 3 1
    (task_dynamic_state.mk (Some 2%positive) CompletedPtr None (Some 3%positive) 1)
    (task_dynamic_state.mk (Some 3%positive) NullPtr None None 1)
    (successor_list_node.mk NullPtr (Some 1%positive)))
    as (Hrun & _ & Hs & _);
    [reflexivity | reflexivity | reflexivity | reflexivity | discriminate | reflexivity | lia |].
  eexists. split; [exact Hrun | exact Hs].
Defined.

(** * An edge from a predecessor that has completed *)

(** Task 1 has completed (its state 1 is sealed and does not forward); task 2
    has a dynamic state without vertex and is owned by the task handle 1. *)
Definition completed_predecessor : machine :=
  Machine ∅ ∅
    {[ 1%positive := task_dynamic_state.mk (Some 1%positive) CompletedPtr None None 1;
       2%positive := task_dynamic_state.mk (Some 2%positive) NullPtr None None 1 ]}
    {[ 1%positive := task_handle_task.mk 9%positive (Some 1%positive);
       2%positive := task_handle_task.mk 9%positive (Some 2%positive) ]}
    {[ 1%positive := Some 2%positive ]} ∅ true [].

(** An edge from a predecessor that has completed and did not transfer its
    successors adds no node: the order call only creates the vertex of the
    successor, with the reservation of its handle.  The submission of the
    successor then consumes that reservation, the count reaches zero, and the
    successor is spawned by the submission itself; vertices, states, tasks and
    nodes are as they were before the edge. *)
Theorem edge_from_completed_predecessor (fuel : nat) (m : machine)
    (sa sb tb th : positive) (xa xb : task_dynamic_state.t) (tkb : task_handle_task.t) :
  states m !! sa = Some xa ->
  task_dynamic_state.m_successor_list_head xa = COMPLETED_FLAG ->
  task_dynamic_state.m_new_dynamic_state xa = None ->
  states m !! sb = Some xb ->
  task_dynamic_state.m_continuation_vertex xb = None ->
  task_dynamic_state.m_task xb = Some tb ->
  tasks m !! tb = Some tkb ->
  task_handle_task.m_dynamic_state tkb = Some sb ->
  task_handles m !! th = Some (Some tb) ->
  (0 < fuel)%nat ->
  exists v m1 m2,
    internal_set_task_order fuel (Some sa) (Some sb) m = Done tt m1 /\
    vertices m !! v = None /\
    vertices m1 = <[v := continuation_vertex.mk 1 (Some tb)]> (vertices m) /\
    nodes m1 = nodes m /\
    task_handle_accessor_has_dependencies th m1 = Done true m1 /\
    task_handle_accessor_release th m1 = Done (Some tb) m2 /\
    trace m2 = trace m ++ [VertexFree v; VertexReleaseBypass v 1 (Some tb);
                           Spawn tb (task_handle_task.m_ctx tkb)] /\
    vertices m2 = vertices m /\ states m2 = states m /\ tasks m2 = tasks m /\
    nodes m2 = nodes m /\ task_handles m2 = <[th := None]> (task_handles m).
Proof.
  intros Ha Hc Hf Hb Hcv Htb Htk Hd Hth Hfuel.
  set (v := fresh (dom (vertices m))).
  set (xb1 := with_vertex (Some v) xb).
  set (m1 := set_states (insert sb xb1)
               (set_vertices (insert v (continuation_vertex.mk 1 (Some tb))) m)).
  assert (Hb1 : states m1 !! sb = Some xb1) by (unfold m1; mproj; apply lookup_insert_eq).
  assert (Hv1 : vertices m1 !! v = Some (continuation_vertex.mk 1 (Some tb)))
    by (unfold m1; mproj; apply lookup_insert_eq).
  assert (Horder : internal_set_task_order fuel (Some sa) (Some sb) m = Done tt m1).
  { rewrite internal_set_task_order_run.
    rewrite (get_continuation_vertex_absent m sb xb Hb Hcv). cbv zeta. rewrite Htb.
    fold v. fold xb1. fold m1.
    destruct fuel as [| fuel]; [lia |].
    destruct (decide (sa = sb)) as [-> | Hne].
    - rewrite (add_successor_completed_here fuel m1 sb v xb1 Hb1).
      + unfold xb1. mproj. rewrite Hb in Ha. injection Ha as <-. rewrite Hf. reflexivity.
      + unfold xb1. mproj. rewrite Hb in Ha. injection Ha as <-. exact Hc.
    - rewrite (add_successor_completed_here fuel m1 sa v xa).
      + rewrite Hf. reflexivity.
      + unfold m1. mproj. rewrite lookup_insert_ne by done. exact Ha.
      + exact Hc. }
  assert (Htk1 : tasks m1 !! tb = Some tkb) by exact Htk.
  assert (Hth1 : task_handles m1 !! th = Some (Some tb)) by exact Hth.
  assert (Hm1 : vertices m1 = <[v := continuation_vertex.mk 1 (Some tb)]> (vertices m) /\
                states m1 = <[sb := xb1]> (states m) /\ tasks m1 = tasks m /\
                nodes m1 = nodes m /\ task_handles m1 = task_handles m /\
                trace m1 = trace m) by done.
  destruct Hm1 as (Hm1v & Hm1s & Hm1t & Hm1n & Hm1h & Hm1tr).
  clearbody m1.
  assert (Hwf : task_wf m1 tb).
  { exists tkb. split; [exact Htk1 |]. intros s Hs. rewrite Hd in Hs. injection Hs as <-. eauto. }
  destruct (release_bypass_last m1 v (continuation_vertex.mk 1 (Some tb)) 1 Hv1 tb)
    as (m1' & s & st & tk & Hrb & Hn & Hvs & Htk' & Htasks & Hdyn & Hss & _ & Hst
        & Hths & _ & _ & Htr); [reflexivity | reflexivity | exact Hwf |].
  assert (tk = tkb) as -> by congruence.
  assert (s = sb) as -> by (destruct Hdyn as [H | [H _]]; congruence).
  exists v, m1. eexists.
  split; [exact Horder |].
  split; [apply fresh_unallocated |].
  split; [exact Hm1v |]. split; [exact Hm1n |].
  split.
  { unfold task_handle_accessor_has_dependencies, task_handle_task_has_dependencies.
    munfold. rewrite Hth1. msimp. rewrite Htk1.
    rewrite Hd. rewrite (has_dependencies_run m1 sb xb1 Hb1).
    unfold xb1. mproj. rewrite bool_decide_eq_true_2 by done. reflexivity. }
  split.
  { unfold task_handle_accessor_release, task_handle_task_release_continuation,
      task_dynamic_state_release_continuation, task_handle_release.
    munfold. rewrite Hth1. msimp. rewrite Htk1.
    rewrite Hd. rewrite (has_dependencies_run m1 sb xb1 Hb1).
    unfold xb1 at 1. mproj. rewrite bool_decide_eq_true_2 by done.
    rewrite Hb1. unfold xb1. msimp. rewrite Hrb.
    rewrite Htasks, lookup_insert_eq. msimp. rewrite Hths, Hth1. reflexivity. }
  mproj. rewrite Htr, Hvs, Hss, Htasks, Hn, Hths.
  rewrite Hm1v, Hm1s, Hm1t, Hm1n, Hm1h, Hm1tr. rewrite <- app_assoc.
  split; [reflexivity |].
  split; [rewrite delete_insert_eq; apply delete_id, fresh_unallocated |].
  split.
  { rewrite insert_insert_eq. apply insert_id. rewrite Hb. f_equal.
    rewrite (Hst xb1 Hb1). unfold xb1. destruct xb as [a b c d e]. simpl in *. subst c.
    reflexivity. }
  split; [apply insert_id; rewrite Htk; destruct tkb; simpl in *; congruence |].
  split; reflexivity.
Qed.

Lemma edge_from_completed_predecessor_witness :
  exists m1 m2,
    internal_set_task_order 1 (Some 1%positive) (Some 2%positive) completed_predecessor
      = Done tt m1 /\
    task_handle_accessor_release 1 m1 = Done (Some 2%positive) m2 /\
    spawned (trace m2) = [2%positive].
Proof.
  destruct (edge_from_completed_predecessor 1 completed_predecessor 1 2 2 1
    (task_dynamic_state.mk (Some 1%positive) CompletedPtr None None 1)
    (task_dynamic_state.mk (Some 2%positive) NullPtr None None 1)
    (task_handle_task.mk 9%positive (Some 2%positive)))
    as (v & m1 & m2 & Horder & _ & _ & _ & _ & Hrelease & Htr & _);
    [reflexivity | reflexivity | reflexivity | reflexivity | reflexivity | reflexivity
    | reflexivity | reflexivity | reflexivity | lia |].
  exists m1, m2. split; [exact Horder |]. split; [exact Hrelease |].
  rewrite Htr. reflexivity.
Defined.

(** * An edge from a predecessor that is still to complete *)

(** Task 1 has a dynamic state with an empty live list; task 2 has a dynamic
    state without vertex and is owned by the task handle 1. *)
Definition live_predecessor : machine :=
  Machine ∅ ∅
    {[ 1%positive := task_dynamic_state.mk (Some 1%positive) NullPtr None None 1;
       2%positive := task_dynamic_state.mk (Some 2%positive) NullPtr None None 1 ]}
    {[ 1%positive := task_handle_task.mk 9%positive (Some 1%positive);
       2%positive := task_handle_task.mk 9%positive (Some 2%positive) ]}
    {[ 1%positive := Some 2%positive ]} ∅ true [].

(** An edge from a predecessor without other successors, then the submission
    of the successor, then the completion of the predecessor: the submission
    consumes the reservation of the handle and hands out nothing, the
    successor keeps its pending dependency, and the completion of the
    predecessor releases the last reference and returns the successor for
    bypass, without a spawn; the vertex and the node of the edge are gone
    afterwards. *)
Theorem edge_then_submit_then_complete (fuel : nat) (m : machine)
    (sa sb tb th : positive) (xa xb : task_dynamic_state.t) (tkb : task_handle_task.t) :
  sa <> sb ->
  states m !! sa = Some xa ->
  task_dynamic_state.m_successor_list_head xa = NullPtr ->
  states m !! sb = Some xb ->
  task_dynamic_state.m_continuation_vertex xb = None ->
  task_dynamic_state.m_task xb = Some tb ->
  tasks m !! tb = Some tkb ->
  task_handle_task.m_dynamic_state tkb = Some sb ->
  task_handles m !! th = Some (Some tb) ->
  (3 <= fuel)%nat ->
  exists v n m1 m2 m3,
    internal_set_task_order fuel (Some sa) (Some sb) m = Done tt m1 /\
    task_handle_accessor_release th m1 = Done (Some tb) m2 /\
    bypassed (trace m2) = bypassed (trace m) /\
    spawned (trace m2) = spawned (trace m) /\
    task_dynamic_state_has_dependencies sb m2 = Done true m2 /\
    task_dynamic_state_complete_task fuel sa m2 = Done (Some tb) m3 /\
    trace m3 = trace m ++
      [VertexReserve v; CasHead sa NullPtr (NodePtr n) true;
       VertexReleaseBypass v 1 None;
       ExchangeHead sa COMPLETED_FLAG (NodePtr n);
       VertexFree v; VertexReleaseBypass v 1 (Some tb); NodeFinalize n] /\
    vertices m3 = vertices m /\ nodes m3 = nodes m /\ tasks m3 = tasks m /\
    states m3 = <[sa := with_head COMPLETED_FLAG xa]> (states m) /\
    task_handles m3 = <[th := None]> (task_handles m).
Proof.
  intros Hne Ha Hhead Hb Hcv Htb Htk Hd Hth Hfuel.
  destruct fuel as [| [| [| fuel]]]; try lia. clear Hfuel.
  set (v := fresh (dom (vertices m))).
  set (n := fresh (dom (nodes m))).
  set (xb1 := with_vertex (Some v) xb).
  set (xa1 := with_head (NodePtr n) xa).
  (* after the edge *)
  assert (Hedge : exists m1,
    internal_set_task_order (S (S (S fuel))) (Some sa) (Some sb) m = Done tt m1 /\
    vertices m1 = <[v := continuation_vertex.mk 2 (Some tb)]> (vertices m) /\
    states m1 = <[sa := xa1]> (<[sb := xb1]> (states m)) /\
    nodes m1 = <[n := successor_list_node.mk NullPtr (Some v)]> (nodes m) /\
    tasks m1 = tasks m /\ task_handles m1 = task_handles m /\
    trace m1 = trace m ++ [VertexReserve v; CasHead sa NullPtr (NodePtr n) true]).
  { eexists. split.
    - rewrite internal_set_task_order_run.
      rewrite (get_continuation_vertex_absent m sb xb Hb Hcv). cbv zeta. rewrite Htb.
      fold v. fold xb1.
      apply (add_successor_alive fuel _ sa v xa (continuation_vertex.mk 1 (Some tb))).
      + mproj. rewrite lookup_insert_ne by done. exact Ha.
      + rewrite Hhead. discriminate.
      + mproj. apply lookup_insert_eq.
    - unfold pushed, reserved. mproj. rewrite Hhead, insert_insert_eq, <- app_assoc.
      repeat split; reflexivity. }
  destruct Hedge as (m1 & Hedge & Hv1 & Hs1 & Hn1 & Ht1 & Hh1 & Htr1).
  (* after the submission *)
  assert (Hsa1 : states m1 !! sa = Some xa1) by (rewrite Hs1; apply lookup_insert_eq).
  assert (Hsb1 : states m1 !! sb = Some xb1)
    by (rewrite Hs1, lookup_insert_ne by done; apply lookup_insert_eq).
  assert (Hvv1 : vertices m1 !! v = Some (continuation_vertex.mk 2 (Some tb)))
    by (rewrite Hv1; apply lookup_insert_eq).
  set (m2 := set_task_handles (insert th None)
               (log (VertexReleaseBypass v 1 None)
                  (set_vertices (insert v (continuation_vertex.mk 1 (Some tb))) m1))).
  assert (Hsubmit : task_handle_accessor_release th m1 = Done (Some tb) m2).
  { unfold task_handle_accessor_release, task_handle_task_release_continuation,
      task_dynamic_state_release_continuation, task_handle_release.
    munfold. rewrite Hh1, Hth. msimp. rewrite Ht1, Htk, Hd.
    rewrite (has_dependencies_run m1 sb xb1 Hsb1).
    unfold xb1 at 1. mproj. rewrite bool_decide_eq_true_2 by done.
    rewrite Hsb1. unfold xb1. msimp.
    rewrite (release_bypass_pending m1 v (continuation_vertex.mk 2 (Some tb)) 1 Hvv1)
      by (mproj; rewrite wrap64_small; lia).
    mproj. rewrite wrap64_small by lia. rewrite Hh1, Hth. reflexivity. }
  (* the completion of the predecessor *)
  set (m2a := log (ExchangeHead sa COMPLETED_FLAG (NodePtr n))
                (set_states (insert sa (with_head COMPLETED_FLAG xa1)) m2)).
  assert (Hwf : task_wf m2a tb).
  { exists tkb. split; [unfold m2a, m2; mproj; rewrite Ht1; exact Htk |].
    intros s Hs. rewrite Hd in Hs. injection Hs as <-.
    unfold m2a, m2. mproj. rewrite lookup_insert_ne by done. eauto. }
  destruct (release_bypass_last m2a v (continuation_vertex.mk 1 (Some tb)) 1)
    with (t := tb)
    as (m2b & s & st & tk & Hrb & Hnb & Hvb & Htkb & Htasksb & Hdynb & Hssb & _ & Hstb
        & Hthb & _ & _ & Htrb);
    [unfold m2a, m2; mproj; apply lookup_insert_eq | reflexivity | reflexivity | exact Hwf |].
  assert (tk = tkb) as ->
    by (unfold m2a, m2 in Htkb; mproj; rewrite Ht1 in Htkb; congruence).
  assert (s = sb) as -> by (destruct Hdynb as [H | [H _]]; congruence).
  set (m3 := log (NodeFinalize n) (set_nodes (delete n) m2b)).
  assert (Hcomplete : task_dynamic_state_complete_task (S (S (S fuel))) sa m2
                      = Done (Some tb) m3).
  { rewrite (complete_task_run _ m2 sa xa1) by exact Hsa1.
    change (task_dynamic_state.m_successor_list_head xa1) with (NodePtr n). fold m2a.
    assert (Hnode : nodes m2a !! n = Some (successor_list_node.mk NullPtr (Some v)))
      by (unfold m2a, m2; mproj; rewrite Hn1; apply lookup_insert_eq).
    rewrite (release_successor_list_loop_step _ m2a m2b n v _ None (Some tb) Hnode eq_refl Hrb).
    cbv zeta. fold m3. apply release_successor_list_loop_null. }
  exists v, n, m1, m2, m3.
  split; [exact Hedge |]. split; [exact Hsubmit |].
  split; [unfold m2; mproj; rewrite Htr1; unfold bypassed; rewrite !omap_app, !app_nil_r;
          reflexivity |].
  split; [unfold m2; mproj; rewrite Htr1; unfold spawned; rewrite !omap_app, !app_nil_r;
          reflexivity |].
  split.
  { rewrite (has_dependencies_run m2 sb xb1) by exact Hsb1.
    unfold xb1. mproj. rewrite bool_decide_eq_true_2 by done. reflexivity. }
  split; [exact Hcomplete |].
  unfold m3. mproj. rewrite Htrb, Hvb, Hnb, Htasksb, Hssb, Hthb.
  unfold m2a, m2. mproj. rewrite Htr1, Hv1, Hn1, Ht1, Hs1, Hh1.
  rewrite <- !app_assoc.
  split; [reflexivity |].
  split.
  { rewrite insert_insert_eq, delete_insert_eq. apply delete_id, fresh_unallocated. }
  split; [rewrite delete_insert_eq; apply delete_id, fresh_unallocated |].
  split; [apply insert_id; rewrite Htk; destruct tkb; simpl in *; congruence |].
  split; [| reflexivity].
  assert (Hsb2 : states m2a !! sb = Some xb1).
  { unfold m2a, m2. mproj. rewrite lookup_insert_ne by done. exact Hsb1. }
  rewrite (Hstb xb1 Hsb2). unfold xb1, xa1.
  apply map_eq. intros k.
  destruct (decide (k = sb)) as [-> | Hkb].
  - rewrite lookup_insert_eq, lookup_insert_ne, Hb by done. f_equal.
    destruct xb as [a b c d e]. simpl in *. subst c. reflexivity.
  - destruct (decide (k = sa)) as [-> | Hka].
    + rewrite lookup_insert_ne by done. rewrite !lookup_insert_eq. reflexivity.
    + rewrite !lookup_insert_ne by done. reflexivity.
Qed.

Lemma edge_then_submit_then_complete_witness :
  exists m1 m2 m3,
    internal_set_task_order 3 (Some 1%positive) (Some 2%positive) live_predecessor
      = Done tt m1 /\
    task_handle_accessor_release 1 m1 = Done (Some 2%positive) m2 /\
    task_dynamic_state_complete_task 3 1 m2 = Done (Some 2%positive) m3.
Proof.
  destruct (edge_then_submit_then_complete 3 live_predecessor 1 2 2 1
    (task_dynamic_state.mk (Some 1%positive) NullPtr None None 1)
    (task_dynamic_state.mk (Some 2%positive) NullPtr None None 1)
    (task_handle_task.mk 9%positive (Some 2%positive)))
    as (v & n & m1 & m2 & m3 & H1 & H2 & _ & _ & _ & H3 & _);
    [discriminate | reflexivity | reflexivity | reflexivity | reflexivity | reflexivity
    | reflexivity | reflexivity | reflexivity | lia |].
  exists m1, m2, m3. split; [exact H1 |]. split; [exact H2 | exact H3].
Defined.
(** * Every task is handed out at most once *)

(** ** The ledger of the dependency graph *)

(** The vertex that each live node carries. *)
Definition carried (m : machine) : gmap positive ptr :=
  successor_list_node.m_continuation_vertex <$> nodes m.

(** The task and the vertex that each live dynamic state names. *)
Definition links (m : machine) : gmap positive (ptr * ptr) :=
  (fun x => (task_dynamic_state.m_task x, task_dynamic_state.m_continuation_vertex x))
    <$> states m.

(** The number of entries of [c] that carry [v]. *)
Definition carriers (c : gmap positive ptr) (v : positive) : nat :=
  size (filter (fun kv => kv.2 = Some v) c).

(** The number of live nodes that carry vertex [v]: the edges into the task
    of [v] that no predecessor has released yet. *)
Definition nodes_of (m : machine) (v : positive) : nat := carriers (carried m) v.

(** No task handle owns task [t]. *)
Definition unowned (m : machine) (t : positive) : Prop :=
  forall h, task_handles m !! h <> Some (Some t).

(** The count [c] of vertex [v] of task [t] is the number of its nodes plus
    the reservation of the handle, or, once that reservation is consumed,
    the number of its nodes; the reservation of a task that is owned, or was
    handed out, is never consumed. *)
Definition count_ok (m : machine) (v t : positive) (c : Z) : Prop :=
  c = Z.of_nat (nodes_of m v) + 1 \/
  (c = Z.of_nat (nodes_of m v) /\ unowned m t /\ t ∉ bypassed (trace m)).

Record ledger (m : machine) : Prop := Ledger {
  (* every live state is the dynamic state of the task it names *)
  ledger_state : forall s l, links m !! s = Some l ->
    exists t tk, l.1 = Some t /\ tasks m !! t = Some tk /\
                 task_handle_task.m_dynamic_state tk = Some s;
  (* the dynamic state that a task names is live and names the task *)
  ledger_task : forall t tk s, tasks m !! t = Some tk ->
    task_handle_task.m_dynamic_state tk = Some s ->
    exists l, links m !! s = Some l /\ l.1 = Some t;
  (* every live vertex is the vertex of the state of its task, and its count
     is right *)
  ledger_vertex : forall v xv, vertices m !! v = Some xv ->
    exists t tk s, continuation_vertex.m_task xv = Some t /\
      tasks m !! t = Some tk /\ task_handle_task.m_dynamic_state tk = Some s /\
      links m !! s = Some (Some t, Some v) /\
      count_ok m v t (continuation_vertex.m_ref_count xv);
  (* the vertex that a state names is live and has the task of the state *)
  ledger_link : forall s l v, links m !! s = Some l -> l.2 = Some v ->
    exists xv, vertices m !! v = Some xv /\ continuation_vertex.m_task xv = l.1;
  (* the vertex that a node carries is live *)
  ledger_node : forall n v, carried m !! n = Some (Some v) -> is_Some (vertices m !! v);
  (* a task has one owner at most *)
  ledger_handle : forall h1 h2 t, task_handles m !! h1 = Some (Some t) ->
    task_handles m !! h2 = Some (Some t) -> h1 = h2;
  (* no task was handed out twice, and no task that was handed out is owned *)
  ledger_once : NoDup (bypassed (trace m));
  ledger_out : forall t, t ∈ bypassed (trace m) -> unowned m t;
}.

(** What the operations on list heads, [next] pointers, reference counts of
    states and forwarding pointers leave as it is. *)
Record graph_kept (m m' : machine) : Prop := GraphKept {
  kept_carried : carried m' = carried m;
  kept_links : links m' = links m;
  kept_vertices : vertices m' = vertices m;
  kept_tasks : tasks m' = tasks m;
  kept_task_handles : task_handles m' = task_handles m;
  kept_bypassed : bypassed (trace m') = bypassed (trace m);
  kept_spawned : spawned (trace m') = spawned (trace m);
}.

Definition machine_of {A} (o : outcome A) : machine :=
  match o with
  | Done _ m => m
  | Abort _ m => m
  end.

(** ** Counting nodes *)

Lemma carriers_insert (c : gmap positive ptr) (n : positive) (p : ptr) (v : positive) :
  c !! n = None ->
  carriers (<[n := p]> c) v = if decide (p = Some v) then S (carriers c v) else carriers c v.
Proof.
  intros Hn. unfold carriers. destruct (decide (p = Some v)) as [Hp | Hp].
  - rewrite map_filter_insert_True by exact Hp.
    apply map_size_insert_None. apply map_lookup_filter_None. left. exact Hn.
  - rewrite map_filter_insert_False by exact Hp. rewrite delete_id by exact Hn. reflexivity.
Qed.

Lemma carriers_delete (c : gmap positive ptr) (n : positive) (p : ptr) (v : positive) :
  c !! n = Some p ->
  carriers c v = if decide (p = Some v) then S (carriers (delete n c) v)
                 else carriers (delete n c) v.
Proof.
  intros Hn. rewrite <- (insert_delete_id c n p Hn) at 1.
  apply carriers_insert. apply lookup_delete_eq.
Qed.

Lemma carriers_none (c : gmap positive ptr) (v : positive) :
  carriers c v = 0%nat -> forall n, c !! n <> Some (Some v).
Proof.
  intros Hz n Hn. unfold carriers in Hz. apply map_size_empty_inv in Hz.
  assert (H : filter (fun kv : positive * ptr => kv.2 = Some v) c !! n = Some (Some v))
    by (apply map_lookup_filter_Some; done).
  rewrite Hz in H. discriminate H.
Qed.

Lemma carriers_unused (c : gmap positive ptr) (v : positive) :
  (forall n, c !! n <> Some (Some v)) -> carriers c v = 0%nat.
Proof.
  intros Hnone. unfold carriers. apply map_size_empty_iff. apply map_eq. intros n.
  rewrite lookup_empty. apply map_lookup_filter_None. right. intros p Hp Hv.
  simpl in Hv. subst p. exact (Hnone n Hp).
Qed.

Lemma carriers_le_size (c : gmap positive ptr) (v : positive) :
  (carriers c v <= size c)%nat.
Proof. apply map_subseteq_size, map_filter_subseteq. Qed.

Lemma nodes_of_le_size (m : machine) (v : positive) :
  (nodes_of m v <= size (nodes m))%nat.
Proof.
  unfold nodes_of. etransitivity; [apply carriers_le_size |].
  unfold carried. rewrite map_size_fmap. reflexivity.
Qed.

Lemma links_lookup (m : machine) (s : positive) (x : task_dynamic_state.t) :
  states m !! s = Some x ->
  links m !! s = Some (task_dynamic_state.m_task x, task_dynamic_state.m_continuation_vertex x).
Proof. intros Hs. unfold links. rewrite lookup_fmap, Hs. reflexivity. Qed.

Lemma links_lookup_inv (m : machine) (s : positive) (l : ptr * ptr) :
  links m !! s = Some l ->
  exists x, states m !! s = Some x /\
    l = (task_dynamic_state.m_task x, task_dynamic_state.m_continuation_vertex x).
Proof.
  unfold links. rewrite lookup_fmap. destruct (states m !! s) as [x |]; [| discriminate].
  intros [= <-]. eauto.
Qed.

Lemma carried_lookup (m : machine) (n : positive) (x : successor_list_node.t) :
  nodes m !! n = Some x ->
  carried m !! n = Some (successor_list_node.m_continuation_vertex x).
Proof. intros Hn. unfold carried. rewrite lookup_fmap, Hn. reflexivity. Qed.

(** ** What keeps the graph keeps the ledger *)

Lemma graph_kept_refl (m : machine) : graph_kept m m.
Proof. done. Qed.

Lemma graph_kept_trans (m1 m2 m3 : machine) :
  graph_kept m1 m2 -> graph_kept m2 m3 -> graph_kept m1 m3.
Proof. intros [] []. split; congruence. Qed.

Lemma graph_kept_ledger (m m' : machine) : graph_kept m m' -> ledger m -> ledger m'.
Proof.
  intros [Hc Hl Hv Ht Hh Hb Hs] [L1 L2 L3 L4 L5 L6 L7 L8].
  assert (Hown : forall t, unowned m t -> unowned m' t)
    by (intros t Hu h; rewrite Hh; apply Hu).
  split; rewrite ?Hc, ?Hl, ?Hv, ?Ht, ?Hh, ?Hb; try assumption.
  - intros v xv Hxv. destruct (L3 v xv Hxv) as (t & tk & s & H1 & H2 & H3 & H4 & H5).
    exists t, tk, s. repeat split; try assumption.
    unfold count_ok, nodes_of, unowned in *. rewrite Hc, Hb, Hh. exact H5.
  - intros t Hin h. rewrite Hh. exact (L8 t Hin h).
Qed.

Lemma graph_kept_size (m m' : machine) :
  graph_kept m m' -> size (nodes m') = size (nodes m).
Proof.
  intros [Hc _ _ _ _ _ _].
  rewrite <- (map_size_fmap successor_list_node.m_continuation_vertex (nodes m')).
  rewrite <- (map_size_fmap successor_list_node.m_continuation_vertex (nodes m)).
  unfold carried in Hc. rewrite Hc. reflexivity.
Qed.

(** ** Operations that keep the graph *)

(** The events that hand out no task and spawn none. *)
Definition quiet (e : event) : Prop :=
  match e with
  | VertexReleaseBypass _ _ (Some _) | Spawn _ _ => False
  | _ => True
  end.

Lemma bypassed_log (m : machine) (e : event) :
  bypassed (trace (log e m)) =
    bypassed (trace m) ++
      match e with VertexReleaseBypass _ _ (Some t) => [t] | _ => [] end.
Proof.
  unfold bypassed. mproj. rewrite omap_app. f_equal.
  destruct e as [| | | | | | | | | v d [t |] | |]; reflexivity.
Qed.

Lemma spawned_log (m : machine) (e : event) :
  spawned (trace (log e m)) =
    spawned (trace m) ++ match e with Spawn t _ => [t] | _ => [] end.
Proof.
  unfold spawned. mproj. rewrite omap_app. f_equal.
  destruct e; reflexivity.
Qed.

Lemma bypassed_app (l1 l2 : list event) : bypassed (l1 ++ l2) = bypassed l1 ++ bypassed l2.
Proof. apply omap_app. Qed.

Lemma spawned_app (l1 l2 : list event) : spawned (l1 ++ l2) = spawned l1 ++ spawned l2.
Proof. apply omap_app. Qed.

(** The machine after vertex [v] of task [t], whose state is [s], reached
    zero. *)
Definition handed (v t s : positive) (x : task_dynamic_state.t) (m : machine) : machine :=
  log (VertexReleaseBypass v 1 (Some t))
    (log (VertexFree v)
       (set_vertices (delete v) (set_states (insert s (with_vertex None x)) m))).

(** The readings of a trace that was extended by known events. *)
Ltac readings :=
  unfold handed; mproj; rewrite ?bypassed_app, ?spawned_app;
  repeat (first [ progress simpl (bypassed (_ :: _)) | progress simpl (spawned (_ :: _)) ]);
  rewrite ?app_nil_r, <- ?app_assoc.

Lemma kept_log (m0 m : machine) (e : event) :
  quiet e -> graph_kept m0 m -> graph_kept m0 (log e m).
Proof.
  intros He [Hc Hl Hv Ht Hh Hb Hs]. split; try assumption.
  - rewrite bypassed_log, Hb.
    destruct e as [| | | | | | | | | v d [t |] | |]; try apply app_nil_r. destruct He.
  - rewrite spawned_log, Hs. destruct e; try apply app_nil_r. destruct He.
Qed.

Lemma links_put_state (m : machine) (s : positive) (x y : task_dynamic_state.t) :
  states m !! s = Some x ->
  task_dynamic_state.m_task y = task_dynamic_state.m_task x ->
  task_dynamic_state.m_continuation_vertex y = task_dynamic_state.m_continuation_vertex x ->
  links (set_states (insert s y) m) = links m.
Proof.
  intros Hs Ht Hv. unfold links. mproj. rewrite fmap_insert, Ht, Hv.
  apply insert_id. rewrite lookup_fmap, Hs. reflexivity.
Qed.

Lemma carried_put_node (m : machine) (n : positive) (x y : successor_list_node.t) :
  nodes m !! n = Some x ->
  successor_list_node.m_continuation_vertex y = successor_list_node.m_continuation_vertex x ->
  carried (set_nodes (insert n y) m) = carried m.
Proof.
  intros Hn Hv. unfold carried. mproj. rewrite fmap_insert, Hv.
  apply insert_id. rewrite lookup_fmap, Hn. reflexivity.
Qed.

Lemma kept_put_state (m0 m : machine) (s : positive) (x y : task_dynamic_state.t) :
  states m !! s = Some x ->
  task_dynamic_state.m_task y = task_dynamic_state.m_task x ->
  task_dynamic_state.m_continuation_vertex y = task_dynamic_state.m_continuation_vertex x ->
  graph_kept m0 m -> graph_kept m0 (set_states (insert s y) m).
Proof.
  intros Hs Ht Hv [Hc Hl Hvs Htk Hh Hb Hsp]. split; try assumption.
  rewrite (links_put_state m s x y Hs Ht Hv). exact Hl.
Qed.

Lemma kept_put_node (m0 m : machine) (n : positive) (x y : successor_list_node.t) :
  nodes m !! n = Some x ->
  successor_list_node.m_continuation_vertex y = successor_list_node.m_continuation_vertex x ->
  graph_kept m0 m -> graph_kept m0 (set_nodes (insert n y) m).
Proof.
  intros Hn Hv [Hc Hl Hvs Htk Hh Hb Hsp]. split; try assumption.
  rewrite (carried_put_node m n x y Hn Hv). exact Hc.
Qed.

Lemma bind_kept {A B} (c : M A) (k : A -> M B) (m0 m : machine) :
  graph_kept m0 (machine_of (c m)) ->
  (forall a m1, c m = Done a m1 -> graph_kept m0 m1 -> graph_kept m0 (machine_of (k a m1))) ->
  graph_kept m0 (machine_of (bind c k m)).
Proof.
  intros Hc Hk. unfold bind. destruct (c m) as [a m1 | f m1]; [| exact Hc].
  apply Hk; [reflexivity | exact Hc].
Qed.

Lemma fetch_successor_list_kept (m0 m : machine) (s : positive) (flag : node_ptr) :
  graph_kept m0 m -> graph_kept m0 (machine_of (fetch_successor_list s flag m)).
Proof.
  intros Hk. unfold fetch_successor_list. munfold.
  destruct (states m !! s) as [x |] eqn:Hs; [| exact Hk]. cbn [machine_of].
  apply kept_log; [exact I |]. apply (kept_put_state m0 m s x); done.
Qed.

Lemma task_dynamic_state_reserve_kept (m0 m : machine) (s : positive) :
  graph_kept m0 m -> graph_kept m0 (machine_of (task_dynamic_state_reserve s m)).
Proof.
  intros Hk. unfold task_dynamic_state_reserve. munfold.
  destruct (states m !! s) as [x |] eqn:Hs; [| exact Hk]. cbn [machine_of].
  apply kept_log; [exact I |]. apply (kept_put_state m0 m s x); done.
Qed.

Lemma set_next_node_kept (m0 m : machine) (n : positive) (next : node_ptr) :
  graph_kept m0 m -> graph_kept m0 (machine_of (set_next_node n next m)).
Proof.
  intros Hk. unfold set_next_node. munfold.
  destruct (nodes m !! n) as [x |] eqn:Hn; [| exact Hk]. cbn [machine_of].
  apply (kept_put_node m0 m n x); done.
Qed.

Lemma compare_exchange_head_kept (m0 m : machine) (s : positive) (expected desired : node_ptr) :
  graph_kept m0 m ->
  graph_kept m0 (machine_of (compare_exchange_head s expected desired m)).
Proof.
  intros Hk. unfold compare_exchange_head. munfold.
  destruct (states m !! s) as [x |] eqn:Hs; [| exact Hk].
  destruct (bool_decide _); cbn [machine_of].
  - apply kept_log; [exact I |]. apply (kept_put_state m0 m s x); done.
  - apply kept_log; [exact I | exact Hk].
Qed.

Lemma last_node_loop_kept (fuel : nat) :
  forall (m0 m : machine) (n : positive),
    graph_kept m0 m -> graph_kept m0 (machine_of (last_node_loop fuel n m)).
Proof.
  induction fuel as [| fuel IH]; intros m0 m n Hk; [exact Hk |].
  cbn [last_node_loop]. unfold get_next_node. munfold.
  destruct (nodes m !! n) as [x |]; [| exact Hk].
  destruct (bool_decide _); [| exact Hk].
  destruct (successor_list_node.m_next_successor x); try exact Hk.
  apply IH. exact Hk.
Qed.

Lemma add_successor_list_loop_kept (fuel : nat) :
  forall (m0 m : machine) (s : positive) (current list : node_ptr) (last : positive),
    graph_kept m0 m ->
    graph_kept m0 (machine_of (add_successor_list_loop fuel s current list last m)).
Proof.
  induction fuel as [| fuel IH]; intros m0 m s current list last Hk; [exact Hk |].
  cbn [add_successor_list_loop].
  apply bind_kept; [apply compare_exchange_head_kept; exact Hk |].
  intros [ok head] m1 _ Hk1. cbn [fst snd]. destruct ok; [exact Hk1 |].
  apply bind_kept; [apply set_next_node_kept; exact Hk1 |].
  intros _ m2 _ Hk2. apply IH. exact Hk2.
Qed.

Lemma add_successor_list_kept (fuel : nat) (m0 m : machine) (s : positive)
    (list : node_ptr) :
  graph_kept m0 m -> graph_kept m0 (machine_of (add_successor_list fuel s list m)).
Proof.
  intros Hk. unfold add_successor_list. destruct (bool_decide _); [exact Hk |].
  apply bind_kept; [destruct list; exact Hk |].
  intros first m1 H1 Hk1.
  apply bind_kept; [apply last_node_loop_kept; exact Hk1 |].
  intros last m2 _ Hk2.
  apply bind_kept.
  { unfold load_head. munfold. destruct (states m2 !! s); exact Hk2. }
  intros head m3 _ Hk3.
  apply bind_kept; [apply set_next_node_kept; exact Hk3 |].
  intros _ m4 _ Hk4. apply add_successor_list_loop_kept. exact Hk4.
Qed.

Lemma transfer_successors_to_kept (fuel : nat) (m0 m : machine) (s : positive)
    (target : ptr) :
  graph_kept m0 m ->
  graph_kept m0
    (machine_of (task_dynamic_state_transfer_successors_to fuel s target m)).
Proof.
  intros Hk. unfold task_dynamic_state_transfer_successors_to.
  apply bind_kept.
  { unfold tbb_assert. destruct (_ && _); exact Hk. }
  intros _ m1 _ Hk1.
  apply bind_kept; [destruct target; exact Hk1 |].
  intros s' m2 _ Hk2.
  apply bind_kept; [apply task_dynamic_state_reserve_kept; exact Hk2 |].
  intros _ m3 _ Hk3.
  unfold state_at at 1. unfold bind at 1.
  destruct (states m3 !! s) as [x |] eqn:Hs; [| exact Hk3].
  apply bind_kept.
  { unfold put_state, modify. cbn [machine_of]. apply (kept_put_state m0 m3 s x); done. }
  intros _ m4 _ Hk4.
  apply bind_kept.
  { unfold emit, modify. cbn [machine_of]. apply kept_log; [exact I | exact Hk4]. }
  intros _ m5 _ Hk5.
  apply bind_kept; [apply fetch_successor_list_kept; exact Hk5 |].
  intros list m6 _ Hk6. apply add_successor_list_kept. exact Hk6.
Qed.

Lemma task_transfer_successors_to_kept (fuel : nat) (m : machine) (t : positive)
    (target : ptr) :
  graph_kept m (machine_of (task_handle_task_transfer_successors_to fuel t target m)).
Proof.
  unfold task_handle_task_transfer_successors_to.
  apply bind_kept.
  { unfold tbb_assert. destruct (_ && _); apply graph_kept_refl. }
  intros _ m1 _ Hk1.
  unfold task_at at 1. unfold bind at 1.
  destruct (tasks m1 !! t) as [x |]; [| exact Hk1].
  destruct (task_handle_task.m_dynamic_state x); [| exact Hk1].
  apply transfer_successors_to_kept. exact Hk1.
Qed.

(** ** Steps that keep the ledger *)

(** Task handles are only emptied. *)
Definition handles_shrink (m m' : machine) : Prop :=
  forall h t, task_handles m' !! h = Some (Some t) -> task_handles m !! h = Some (Some t).

Lemma handles_shrink_unowned (m m' : machine) (t : positive) :
  handles_shrink m m' -> unowned m t -> unowned m' t.
Proof. intros Hsh Hu h Hh. exact (Hu h (Hsh h t Hh)). Qed.

Lemma handles_shrink_same (m m' : machine) :
  task_handles m' = task_handles m -> handles_shrink m m'.
Proof. intros H h t. rewrite H. done. Qed.

Lemma count_ok_transport (m m' : machine) (v t : positive) (c : Z) :
  nodes_of m' v = nodes_of m v ->
  handles_shrink m m' ->
  bypassed (trace m') = bypassed (trace m) ->
  count_ok m v t c -> count_ok m' v t c.
Proof.
  intros Hn Hsh Hb [Hc | (Hc & Hu & Ho)]; [left | right]; rewrite Hn; [exact Hc |].
  rewrite Hb. split; [exact Hc |]. split; [| exact Ho].
  exact (handles_shrink_unowned m m' t Hsh Hu).
Qed.

(** The count of a live vertex changes, nodes that carry it come or go. *)
Lemma ledger_recount (m m' : machine) (v : positive) (xv : continuation_vertex.t) (c' : Z) :
  ledger m ->
  vertices m !! v = Some xv ->
  vertices m' = <[v := continuation_vertex.mk c' (continuation_vertex.m_task xv)]> (vertices m) ->
  links m' = links m ->
  tasks m' = tasks m ->
  (forall n u, carried m' !! n = Some (Some u) -> u = v \/ carried m !! n = Some (Some u)) ->
  (forall u, u <> v -> nodes_of m' u = nodes_of m u) ->
  handles_shrink m m' ->
  bypassed (trace m') = bypassed (trace m) ->
  (forall t, continuation_vertex.m_task xv = Some t ->
             count_ok m v t (continuation_vertex.m_ref_count xv) -> count_ok m' v t c') ->
  ledger m'.
Proof.
  intros [L1 L2 L3 L4 L5 L6 L7 L8] Hv Hvs Hl Ht Hc Hn Hsh Hb Hcount.
  split; rewrite ?Hl, ?Ht, ?Hb; try assumption.
  - intros u xu Hu. rewrite Hvs in Hu. destruct (decide (u = v)) as [-> | Hne].
    + rewrite lookup_insert_eq in Hu. injection Hu as <-.
      destruct (L3 v xv Hv) as (t & tk & s & H1 & H2 & H3 & H4 & H5).
      exists t, tk, s. mproj. repeat split; try assumption. apply Hcount; assumption.
    + rewrite lookup_insert_ne in Hu by done.
      destruct (L3 u xu Hu) as (t & tk & s & H1 & H2 & H3 & H4 & H5).
      exists t, tk, s. repeat split; try assumption.
      apply (count_ok_transport m m'); auto.
  - intros s l u Hs Hu. destruct (L4 s l u Hs Hu) as (xu & Hxu & Htu).
    rewrite Hvs. destruct (decide (u = v)) as [-> | Hne].
    + rewrite lookup_insert_eq. eexists. split; [reflexivity |]. mproj. congruence.
    + rewrite lookup_insert_ne by done. eauto.
  - intros n u Hn'. rewrite Hvs. apply lookup_insert_is_Some'.
    destruct (Hc n u Hn') as [-> | Hold]; [left; reflexivity | right; eauto].
  - intros h1 h2 t H1 H2. eauto.
  - intros t Hin. apply (handles_shrink_unowned m m' t Hsh). auto.
Qed.

(** A vertex reaches zero: its task is handed out and the vertex is gone. *)
Lemma ledger_handed_out (m m' : machine) (v t s : positive) (xv : continuation_vertex.t) :
  ledger m ->
  vertices m !! v = Some xv ->
  continuation_vertex.m_task xv = Some t ->
  links m !! s = Some (Some t, Some v) ->
  vertices m' = delete v (vertices m) ->
  links m' = <[s := (Some t, None)]> (links m) ->
  tasks m' = tasks m ->
  (forall n u, carried m' !! n = Some (Some u) -> u <> v /\ carried m !! n = Some (Some u)) ->
  (forall u, u <> v -> nodes_of m' u = nodes_of m u) ->
  handles_shrink m m' ->
  bypassed (trace m') = bypassed (trace m) ++ [t] ->
  unowned m' t ->
  t ∉ bypassed (trace m) ->
  ledger m'.
Proof.
  intros [L1 L2 L3 L4 L5 L6 L7 L8] Hv Hxt Hs Hvs Hl Ht Hc Hn Hsh Hb Hu Hnew.
  assert (Hstate : forall s' l, links m !! s' = Some l -> l.1 = Some t -> s' = s).
  { intros s' l Hs' Hl'. destruct (L1 s' l Hs') as (t' & tk' & H1 & H2 & H3).
    destruct (L1 s _ Hs) as (t0 & tk0 & H4 & H5 & H6). simpl in H4.
    congruence. }
  split; rewrite ?Ht; try assumption.
  - intros s' l Hs'. rewrite Hl in Hs'. destruct (decide (s' = s)) as [-> | Hne].
    + rewrite lookup_insert_eq in Hs'. injection Hs' as <-.
      destruct (L1 s _ Hs) as (t0 & tk0 & H4 & H5 & H6). eauto.
    + rewrite lookup_insert_ne in Hs' by done. eauto.
  - intros t' tk' s' Ht' Hd'. destruct (L2 t' tk' s' Ht' Hd') as (l & Hl' & Hl1).
    rewrite Hl. destruct (decide (s' = s)) as [-> | Hne].
    + rewrite lookup_insert_eq. eexists. split; [reflexivity |].
      rewrite Hs in Hl'. injection Hl' as <-. exact Hl1.
    + rewrite lookup_insert_ne by done. eauto.
  - intros u xu Hu'. rewrite Hvs in Hu'. apply lookup_delete_Some in Hu' as [Hne Hu'].
    destruct (L3 u xu Hu') as (t' & tk' & s' & H1 & H2 & H3 & H4 & H5).
    assert (Hss : s' <> s) by (intros ->; rewrite Hs in H4; congruence).
    assert (Htt : t' <> t) by (intros ->; apply Hss; eapply Hstate; [exact H4 | reflexivity]).
    exists t', tk', s'. rewrite Hl, lookup_insert_ne by done.
    repeat split; try assumption.
    destruct H5 as [Hc' | (Hc' & Hu'' & Ho)]; [left | right]; rewrite Hn by done;
      [exact Hc' |].
    split; [exact Hc' |]. split; [exact (handles_shrink_unowned m m' t' Hsh Hu'') |].
    rewrite Hb. intros Hin. apply elem_of_app in Hin as [Hin | Hin]; [exact (Ho Hin) |].
    apply list_elem_of_singleton in Hin. exact (Htt Hin).
  - intros s' l u Hs' Hu'. rewrite Hl in Hs'. destruct (decide (s' = s)) as [-> | Hne].
    + rewrite lookup_insert_eq in Hs'. injection Hs' as <-. discriminate Hu'.
    + rewrite lookup_insert_ne in Hs' by done.
      destruct (L4 s' l u Hs' Hu') as (xu & Hxu & Htu).
      exists xu. split; [| exact Htu]. rewrite Hvs. apply lookup_delete_Some.
      split; [| exact Hxu]. intros <-. apply Hne. apply (Hstate s' l Hs'). congruence.
  - intros n u Hn'. destruct (Hc n u Hn') as [Hne Hold]. rewrite Hvs.
    destruct (L5 n u Hold) as [xu Hxu]. exists xu. apply lookup_delete_Some. done.
  - intros h1 h2 t' H1 H2. eauto.
  - rewrite Hb. apply NoDup_app. split; [exact L7 |]. split; [| apply NoDup_singleton].
    intros t' Hin Hin'. apply list_elem_of_singleton in Hin'. subst t'. exact (Hnew Hin).
  - intros t' Hin. rewrite Hb in Hin. apply elem_of_app in Hin as [Hin | Hin].
    + apply (handles_shrink_unowned m m' t' Hsh). auto.
    + apply list_elem_of_singleton in Hin. subst t'. exact Hu.
Qed.

(** A task handle is emptied. *)
Lemma ledger_handles (m m' : machine) :
  ledger m ->
  carried m' = carried m -> links m' = links m -> vertices m' = vertices m ->
  tasks m' = tasks m -> bypassed (trace m') = bypassed (trace m) ->
  handles_shrink m m' ->
  ledger m'.
Proof.
  intros [L1 L2 L3 L4 L5 L6 L7 L8] Hc Hl Hv Ht Hb Hsh.
  split; rewrite ?Hc, ?Hl, ?Hv, ?Ht, ?Hb; try assumption.
  - intros v xv Hxv. destruct (L3 v xv Hxv) as (t & tk & s & H1 & H2 & H3 & H4 & H5).
    exists t, tk, s. repeat split; try assumption.
    apply (count_ok_transport m m'); auto. unfold nodes_of. rewrite Hc. reflexivity.
  - intros h1 h2 t H1 H2. eauto.
  - intros t Hin. apply (handles_shrink_unowned m m' t Hsh). auto.
Qed.

(** A task without dynamic state gets one. *)
Lemma ledger_new_state (m m' : machine) (t s : positive) (tk : task_handle_task.t) :
  ledger m ->
  tasks m !! t = Some tk ->
  task_handle_task.m_dynamic_state tk = None ->
  links m !! s = None ->
  links m' = <[s := (Some t, None)]> (links m) ->
  tasks m' = <[t := task_handle_task.mk (task_handle_task.m_ctx tk) (Some s)]> (tasks m) ->
  carried m' = carried m -> vertices m' = vertices m ->
  task_handles m' = task_handles m -> bypassed (trace m') = bypassed (trace m) ->
  ledger m'.
Proof.
  intros [L1 L2 L3 L4 L5 L6 L7 L8] Htk Hd Hs Hl Ht Hc Hv Hh Hb.
  assert (Hother : forall t' tk' s', tasks m !! t' = Some tk' ->
            task_handle_task.m_dynamic_state tk' = Some s' -> t' <> t /\ s' <> s).
  { intros t' tk' s' Ht' Hd'. split; [intros ->; congruence |].
    intros ->. destruct (L2 t' tk' s Ht' Hd') as (l & Hl' & _). congruence. }
  split; rewrite ?Hc, ?Hv, ?Hh, ?Hb; try assumption.
  - intros s' l Hs'. rewrite Hl in Hs'. rewrite Ht.
    destruct (decide (s' = s)) as [-> | Hne].
    + rewrite lookup_insert_eq in Hs'. injection Hs' as <-.
      exists t. eexists. rewrite lookup_insert_eq. done.
    + rewrite lookup_insert_ne in Hs' by done.
      destruct (L1 s' l Hs') as (t' & tk' & H1 & H2 & H3).
      destruct (Hother t' tk' s' H2 H3) as [Htt _].
      exists t', tk'. rewrite lookup_insert_ne by done. done.
  - intros t' tk' s' Ht' Hd'. rewrite Ht in Ht'. rewrite Hl.
    destruct (decide (t' = t)) as [-> | Hne].
    + rewrite lookup_insert_eq in Ht'. injection Ht' as <-. simpl in Hd'.
      injection Hd' as <-. rewrite lookup_insert_eq. eauto.
    + rewrite lookup_insert_ne in Ht' by done.
      destruct (Hother t' tk' s' Ht' Hd') as [_ Hss].
      rewrite lookup_insert_ne by done. eauto.
  - intros v xv Hxv. destruct (L3 v xv Hxv) as (t' & tk' & s' & H1 & H2 & H3 & H4 & H5).
    destruct (Hother t' tk' s' H2 H3) as [Htt Hss].
    exists t', tk', s'. rewrite Ht, Hl, !lookup_insert_ne by done.
    repeat split; try assumption.
    apply (count_ok_transport m m'); auto.
    + unfold nodes_of. rewrite Hc. reflexivity.
    + apply handles_shrink_same. exact Hh.
  - intros s' l v Hs' Hlv. rewrite Hl in Hs'. destruct (decide (s' = s)) as [-> | Hne].
    + rewrite lookup_insert_eq in Hs'. injection Hs' as <-. discriminate Hlv.
    + rewrite lookup_insert_ne in Hs' by done. eauto.
  - intros t' Hin h. rewrite Hh. exact (L8 t' Hin h).
Qed.

(** A state without vertex gets one, with the reservation of the handle. *)
Lemma ledger_new_vertex (m m' : machine) (s v : positive) (t : ptr) :
  ledger m ->
  links m !! s = Some (t, None) ->
  vertices m !! v = None ->
  vertices m' = <[v := continuation_vertex.mk 1 t]> (vertices m) ->
  links m' = <[s := (t, Some v)]> (links m) ->
  tasks m' = tasks m -> carried m' = carried m ->
  task_handles m' = task_handles m -> bypassed (trace m') = bypassed (trace m) ->
  ledger m'.
Proof.
  intros [L1 L2 L3 L4 L5 L6 L7 L8] Hs Hv Hvs Hl Ht Hc Hh Hb.
  assert (Hnodes : forall u, nodes_of m' u = nodes_of m u)
    by (intros u; unfold nodes_of; rewrite Hc; reflexivity).
  assert (Hsh : handles_shrink m m') by (apply handles_shrink_same; exact Hh).
  split; rewrite ?Ht, ?Hc, ?Hh, ?Hb; try assumption.
  - intros s' l Hs'. rewrite Hl in Hs'. destruct (decide (s' = s)) as [-> | Hne].
    + rewrite lookup_insert_eq in Hs'. injection Hs' as <-. exact (L1 s _ Hs).
    + rewrite lookup_insert_ne in Hs' by done. eauto.
  - intros t' tk' s' Ht' Hd'. destruct (L2 t' tk' s' Ht' Hd') as (l & Hl' & Hl1).
    rewrite Hl. destruct (decide (s' = s)) as [-> | Hne].
    + rewrite lookup_insert_eq. eexists. split; [reflexivity |].
      rewrite Hs in Hl'. injection Hl' as <-. exact Hl1.
    + rewrite lookup_insert_ne by done. eauto.
  - intros u xu Hu. rewrite Hvs in Hu. destruct (decide (u = v)) as [-> | Hne].
    + rewrite lookup_insert_eq in Hu. injection Hu as <-.
      destruct (L1 s _ Hs) as (t' & tk' & H1 & H2 & H3). simpl in H1. subst t.
      exists t', tk', s. rewrite Hl, lookup_insert_eq. repeat split; try done.
      left. mproj. rewrite Hnodes. unfold nodes_of.
      rewrite (carriers_unused (carried m) v); [reflexivity |].
      intros n Hn. destruct (L5 n v Hn) as [xv Hxv]. congruence.
    + rewrite lookup_insert_ne in Hu by done.
      destruct (L3 u xu Hu) as (t' & tk' & s' & H1 & H2 & H3 & H4 & H5).
      assert (Hss : s' <> s) by (intros ->; rewrite Hs in H4; congruence).
      exists t', tk', s'. rewrite Hl, lookup_insert_ne by done.
      repeat split; try assumption. apply (count_ok_transport m m'); auto.
  - intros s' l u Hs' Hu. rewrite Hl in Hs'. rewrite Hvs.
    destruct (decide (s' = s)) as [-> | Hne].
    + rewrite lookup_insert_eq in Hs'. injection Hs' as <-. simpl in Hu.
      injection Hu as <-. rewrite lookup_insert_eq. eauto.
    + rewrite lookup_insert_ne in Hs' by done.
      destruct (L4 s' l u Hs' Hu) as (xu & Hxu & Htu).
      rewrite lookup_insert_ne by (intros <-; congruence). eauto.
  - intros n u Hn. rewrite Hvs. apply lookup_insert_is_Some'. right. eauto.
  - intros t' Hin h. rewrite Hh. exact (L8 t' Hin h).
Qed.

(** ** The runs of [release_bypass] on a vertex of the ledger *)

Lemma release_bypass_zero (m : machine) (v t s : positive) (xv : continuation_vertex.t)
    (tk : task_handle_task.t) (x : task_dynamic_state.t) :
  vertices m !! v = Some xv ->
  continuation_vertex.m_ref_count xv = 1 ->
  continuation_vertex.m_task xv = Some t ->
  tasks m !! t = Some tk ->
  task_handle_task.m_dynamic_state tk = Some s ->
  states m !! s = Some x ->
  release_bypass v 1 m = Done (Some t) (handed v t s x m).
Proof.
  intros Hv Hc Ht Htk Hd Hs.
  unfold release_bypass, unset_dependency. munfold. rewrite Hv, Hc, Ht.
  change (wrap64 (1 - 1) =? 0) with true. msimp.
  rewrite (get_dynamic_state_present _ t tk) with (s := s) by (msimp; done).
  msimp. rewrite Hs. msimp. unfold handed. mrecord. rewrite delete_insert_eq. reflexivity.
Qed.

(** The node heap is far from holding 2^64 nodes. *)
Definition small (m : machine) : Prop := Z.of_nat (size (nodes m)) < 2 ^ 64 - 2.

Lemma count_ok_bounds (m : machine) (v t : positive) (c : Z) :
  count_ok m v t c -> small m -> 0 <= c < 2 ^ 64 - 1.
Proof.
  intros Hc Hsmall. unfold small in Hsmall. pose proof (nodes_of_le_size m v).
  destruct Hc as [-> | [-> _]]; lia.
Qed.

(** What a ledger knows about the vertex that a live node carries. *)
Lemma ledger_carried (m : machine) (n v : positive) (xn : successor_list_node.t) :
  ledger m -> small m ->
  nodes m !! n = Some xn ->
  successor_list_node.m_continuation_vertex xn = Some v ->
  exists xv t tk s x,
    vertices m !! v = Some xv /\
    continuation_vertex.m_task xv = Some t /\
    tasks m !! t = Some tk /\
    task_handle_task.m_dynamic_state tk = Some s /\
    states m !! s = Some x /\
    links m !! s = Some (Some t, Some v) /\
    count_ok m v t (continuation_vertex.m_ref_count xv) /\
    nodes_of m v = S (carriers (delete n (carried m)) v) /\
    1 <= continuation_vertex.m_ref_count xv < 2 ^ 64 - 1.
Proof.
  intros L Hsmall Hn Hxn.
  assert (Hcar : carried m !! n = Some (Some v))
    by (rewrite (carried_lookup m n xn Hn), Hxn; reflexivity).
  destruct (ledger_node m L n v Hcar) as [xv Hv].
  destruct (ledger_vertex m L v xv Hv) as (t & tk & s & H1 & H2 & H3 & H4 & H5).
  destruct (links_lookup_inv m s _ H4) as (x & Hs & _).
  assert (Hnodes : nodes_of m v = S (carriers (delete n (carried m)) v)).
  { unfold nodes_of. rewrite (carriers_delete (carried m) n (Some v) v Hcar).
    rewrite decide_True by reflexivity. reflexivity. }
  exists xv, t, tk, s, x. repeat split; try assumption.
  - destruct H5 as [-> | [-> _]]; lia.
  - apply (count_ok_bounds m v t _ H5 Hsmall).
Qed.

(** ** The accounts of an operation *)

Definition option_list {A} (o : option A) : list A :=
  match o with
  | Some a => [a]
  | None => []
  end.

(** The outcome [o] of an operation that started in [m] with the task [acc]
    in hand: if it returned, the ledger holds again and the tasks in hand and
    handed out since are the task returned and the tasks spawned since; if it
    stopped, no task was handed out twice and every task spawned since was
    handed out since.  The node heap grew by [k] nodes at most. *)
Definition settled (k : nat) (acc : ptr) (m : machine) (o : outcome ptr) : Prop :=
  match o with
  | Done r m' =>
      ledger m' /\ (size (nodes m') <= size (nodes m) + k)%nat /\
      exists new sp,
        bypassed (trace m') = bypassed (trace m) ++ new /\
        spawned (trace m') = spawned (trace m) ++ sp /\
        option_list acc ++ new ≡ₚ option_list r ++ sp
  | Abort _ m' =>
      NoDup (bypassed (trace m')) /\
      exists new sp,
        bypassed (trace m') = bypassed (trace m) ++ new /\
        spawned (trace m') = spawned (trace m) ++ sp /\
        sp ⊆+ new
  end.

Lemma settled_stop (k : nat) (acc : ptr) (m : machine) (f : fault) :
  ledger m -> settled k acc m (Abort f m).
Proof.
  intros L. split; [apply (ledger_once m L) |].
  exists [], []. rewrite !app_nil_r. done.
Qed.

Lemma settled_return (k : nat) (acc : ptr) (m : machine) :
  ledger m -> settled k acc m (Done acc m).
Proof.
  intros L. split; [exact L |]. split; [lia |].
  exists [], []. rewrite !app_nil_r. done.
Qed.

Lemma settled_after (k : nat) (acc acc' : ptr) (m m2 : machine) (new sp : list positive)
    (o : outcome ptr) :
  bypassed (trace m2) = bypassed (trace m) ++ new ->
  spawned (trace m2) = spawned (trace m) ++ sp ->
  (size (nodes m2) <= size (nodes m))%nat ->
  option_list acc ++ new ≡ₚ option_list acc' ++ sp ->
  sp ⊆+ new ->
  settled k acc' m2 o -> settled k acc m o.
Proof.
  intros Hb Hs Hsize Hperm Hsub. destruct o as [r m' | f m']; cbn [settled].
  - intros (L & Hsz & new2 & sp2 & Hb2 & Hs2 & Hp2).
    split; [exact L |]. split; [lia |].
    exists (new ++ new2), (sp ++ sp2). rewrite Hb2, Hb, Hs2, Hs, <- !app_assoc.
    split; [reflexivity |]. split; [reflexivity |].
    rewrite (app_assoc (option_list acc)), Hperm, <- app_assoc.
    rewrite (Permutation_app_swap_app (option_list acc') sp new2), Hp2.
    apply Permutation_app_swap_app.
  - intros (Hnd & new2 & sp2 & Hb2 & Hs2 & Hsub2).
    split; [exact Hnd |].
    exists (new ++ new2), (sp ++ sp2). rewrite Hb2, Hb, Hs2, Hs, <- !app_assoc.
    split; [reflexivity |]. split; [reflexivity |].
    apply submseteq_app; assumption.
Qed.

(** ** The drain *)

Lemma ledger_log_spawn (m : machine) (t c : positive) : ledger m -> ledger (log (Spawn t c) m).
Proof.
  intros L. apply (ledger_handles m); try done.
  - readings. reflexivity.
  - apply handles_shrink_same. reflexivity.
Qed.

(** One node whose vertex stays pending is released and finalized. *)
Lemma ledger_node_released (m : machine) (n v : positive) (xn : successor_list_node.t)
    (xv : continuation_vertex.t) (t : positive) :
  ledger m ->
  nodes m !! n = Some xn ->
  successor_list_node.m_continuation_vertex xn = Some v ->
  vertices m !! v = Some xv ->
  nodes_of m v = S (carriers (delete n (carried m)) v) ->
  ledger (log (NodeFinalize n)
            (set_nodes (delete n)
               (log (VertexReleaseBypass v 1 None)
                  (set_vertices
                     (insert v (continuation_vertex.mk
                                  (continuation_vertex.m_ref_count xv - 1)
                                  (continuation_vertex.m_task xv))) m)))).
Proof.
  intros L Hn Hxn Hv Hnodes.
  assert (Hcar : carried m !! n = Some (Some v))
    by (rewrite (carried_lookup m n xn Hn), Hxn; reflexivity).
  apply (ledger_recount m _ v xv (continuation_vertex.m_ref_count xv - 1) L Hv);
    try reflexivity.
  - intros n' u. unfold carried. mproj. rewrite fmap_delete. fold (carried m).
    intros Hn'. apply lookup_delete_Some in Hn' as [_ Hn']. right. exact Hn'.
  - intros u Hu. unfold nodes_of, carried. mproj. rewrite fmap_delete. fold (carried m).
    rewrite (carriers_delete (carried m) n (Some v) u Hcar).
    rewrite decide_False by congruence. reflexivity.
  - apply handles_shrink_same. reflexivity.
  - readings. reflexivity.
  - intros t' _ [Hc | (Hc & Hu & Ho)]; [left | right].
    + unfold nodes_of at 1. unfold carried. mproj. rewrite fmap_delete. fold (carried m).
      rewrite Hc, Hnodes. lia.
    + split; [| split; [exact Hu | readings; exact Ho]].
      unfold nodes_of at 1. unfold carried. mproj. rewrite fmap_delete. fold (carried m).
      rewrite Hc, Hnodes. lia.
Qed.

(** The last node of a vertex is released and finalized: the task of the
    vertex is handed out. *)
Lemma ledger_node_handed (m : machine) (n v t s : positive) (xn : successor_list_node.t)
    (xv : continuation_vertex.t) (x : task_dynamic_state.t) :
  ledger m ->
  nodes m !! n = Some xn ->
  successor_list_node.m_continuation_vertex xn = Some v ->
  vertices m !! v = Some xv ->
  continuation_vertex.m_task xv = Some t ->
  states m !! s = Some x ->
  links m !! s = Some (Some t, Some v) ->
  count_ok m v t 1 ->
  nodes_of m v = S (carriers (delete n (carried m)) v) ->
  ledger (log (NodeFinalize n) (set_nodes (delete n) (handed v t s x m))) /\
  t ∉ bypassed (trace m).
Proof.
  intros L Hn Hxn Hv Hxt Hs Hl Hcount Hnodes.
  assert (Hcar : carried m !! n = Some (Some v))
    by (rewrite (carried_lookup m n xn Hn), Hxn; reflexivity).
  destruct Hcount as [Hc | (Hc & Hu & Ho)]; [lia |].
  assert (Hzero : carriers (delete n (carried m)) v = 0%nat) by lia.
  assert (Hx : task_dynamic_state.m_task x = Some t).
  { rewrite (links_lookup m s x Hs) in Hl. congruence. }
  split; [| exact Ho].
  apply (ledger_handed_out m _ v t s xv L Hv Hxt Hl); try reflexivity; try assumption.
  - unfold links, handed. mproj. rewrite fmap_insert. mproj. rewrite Hx. reflexivity.
  - intros n' u. unfold carried, handed. mproj. rewrite fmap_delete. fold (carried m).
    intros Hn'. split; [| apply lookup_delete_Some in Hn' as [_ Hn']; exact Hn'].
    intros ->. exact (carriers_none _ v Hzero n' Hn').
  - intros u Hu'. unfold nodes_of, carried, handed. mproj. rewrite fmap_delete.
    fold (carried m). rewrite (carriers_delete (carried m) n (Some v) u Hcar).
    rewrite decide_False by congruence. reflexivity.
  - apply handles_shrink_same. reflexivity.
  - readings. reflexivity.
Qed.

Lemma size_delete_le {A} (h : gmap positive A) (n : positive) :
  (size (delete n h) <= size h)%nat.
Proof. apply map_subseteq_size, delete_subseteq. Qed.

Lemma release_successor_list_loop_settled (fuel : nat) :
  forall (node : node_ptr) (acc : ptr) (m : machine),
    ledger m -> small m ->
    settled 0 acc m (release_successor_list_loop fuel node acc m).
Proof.
  induction fuel as [| fuel IH]; intros node acc m L Hsmall;
    [apply settled_stop; exact L |].
  cbn [release_successor_list_loop].
  destruct (bool_decide (node <> NullPtr)); [| apply settled_return; exact L].
  destruct node as [| n |]; try (apply settled_stop; exact L).
  unfold get_next_node, successor_list_node_get_continuation_vertex,
    successor_list_node_finalize, delete_node.
  cbv beta iota delta [bind ret abort modify emit nonnull deref_node node_at].
  destruct (nodes m !! n) as [xn |] eqn:Hn; cbv beta iota;
    [| apply settled_stop; exact L].
  rewrite ?Hn. cbv beta iota.
  destruct (successor_list_node.m_continuation_vertex xn) as [v |] eqn:Hxn; cbv beta iota;
    [| apply settled_stop; exact L].
  destruct (ledger_carried m n v xn L Hsmall Hn Hxn)
    as (xv & t & tk & s & x & Hv & Hxt & Htk & Hd & Hs & Hl & Hcount & Hnodes & Hc).
  destruct (decide (continuation_vertex.m_ref_count xv = 1)) as [Hone | Hmore].
  - (* the count reaches zero *)
    rewrite (release_bypass_zero m v t s xv tk x Hv Hone Hxt Htk Hd Hs).
    assert (nodes (handed v t s x m) !! n = Some xn) as -> by exact Hn.
    rewrite Hone in Hcount.
    destruct (ledger_node_handed m n v t s xn xv x L Hn Hxn Hv Hxt Hs Hl Hcount Hnodes)
      as [L2 Hnew].
    set (m2 := log (NodeFinalize n) (set_nodes (delete n) (handed v t s x m))) in *.
    assert (Hb2 : bypassed (trace m2) = bypassed (trace m) ++ [t]).
    { unfold m2. readings. reflexivity. }
    assert (Hs2 : spawned (trace m2) = spawned (trace m) ++ []).
    { unfold m2. readings. reflexivity. }
    assert (Hsize : (size (nodes m2) <= size (nodes m))%nat).
    { unfold m2, handed. mproj. apply size_delete_le. }
    assert (Hsmall2 : small m2) by (unfold small in *; lia).
    destruct acc as [a |].
    + unfold spawn. cbv beta iota delta [bind task_at emit modify].
      assert (tasks m2 !! t = Some tk) as -> by exact Htk.
      apply (settled_after 0 (Some a) (Some a) m (log (Spawn t (task_handle_task.m_ctx tk)) m2)
               [t] [t]).
      * readings. exact Hb2.
      * readings. rewrite Hs2, app_nil_r. reflexivity.
      * exact Hsize.
      * reflexivity.
      * reflexivity.
      * apply IH; [apply ledger_log_spawn; exact L2 | exact Hsmall2].
    + apply (settled_after 0 None (Some t) m m2 [t] []); try assumption.
      * reflexivity.
      * apply submseteq_nil_l.
      * apply IH; assumption.
  - (* the vertex stays pending *)
    rewrite (release_bypass_pending m v xv 1 Hv)
      by (rewrite wrap64_small by lia; lia).
    rewrite wrap64_small by lia. mproj. rewrite Hn.
    set (m2 := log (NodeFinalize n) (set_nodes (delete n) _)).
    assert (L2 : ledger m2) by (apply (ledger_node_released m n v xn xv t); assumption).
    assert (Hsize : (size (nodes m2) <= size (nodes m))%nat).
    { unfold m2. mproj. apply size_delete_le. }
    apply (settled_after 0 acc acc m m2 [] []).
    + unfold m2. readings. reflexivity.
    + unfold m2. readings. reflexivity.
    + exact Hsize.
    + reflexivity.
    + reflexivity.
    + apply IH; [exact L2 | unfold small in *; lia].
Qed.

(** ** The operations on the graph *)

Lemma settled_quiet (k : nat) (acc : ptr) (m m' : machine) (f : fault) :
  ledger m ->
  bypassed (trace m') = bypassed (trace m) ->
  spawned (trace m') = spawned (trace m) ->
  settled k acc m (Abort f m').
Proof.
  intros L Hb Hs. split; [rewrite Hb; apply (ledger_once m L) |].
  exists [], []. rewrite !app_nil_r. done.
Qed.

Lemma settled_done (k : nat) (m m' : machine) :
  ledger m' ->
  (size (nodes m') <= size (nodes m) + k)%nat ->
  bypassed (trace m') = bypassed (trace m) ->
  spawned (trace m') = spawned (trace m) ->
  settled k None m (Done None m').
Proof.
  intros L Hsize Hb Hs. split; [exact L |]. split; [exact Hsize |].
  exists [], []. rewrite !app_nil_r. done.
Qed.

Lemma settled_more (k : nat) (acc : ptr) (m : machine) (o : outcome ptr) :
  settled 0 acc m o -> settled k acc m o.
Proof.
  destruct o as [r m' | f m']; [| done].
  intros (L & Hsize & H). split; [exact L |]. split; [lia | exact H].
Qed.

(** An operation that keeps the graph and returns nothing. *)
Lemma settled_kept {A} (k : nat) (m : machine) (c : M A) :
  ledger m -> graph_kept m (machine_of (c m)) ->
  settled k None m ((c ;;; ret None) m).
Proof.
  intros L Hk. unfold bind, ret. destruct (c m) as [a m' | f m']; cbn [machine_of] in Hk.
  - apply settled_done.
    + exact (graph_kept_ledger m m' Hk L).
    + rewrite (graph_kept_size m m' Hk). lia.
    + apply (kept_bypassed m m' Hk).
    + apply (kept_spawned m m' Hk).
  - apply (settled_quiet k None m m' f L).
    + apply (kept_bypassed m m' Hk).
    + apply (kept_spawned m m' Hk).
Qed.

Lemma carried_fresh (m : machine) : carried m !! fresh (dom (nodes m)) = None.
Proof. unfold carried. rewrite lookup_fmap, fresh_unallocated. reflexivity. Qed.

(** One more node for a live vertex, pushed on a live list. *)
Lemma ledger_pushed (m : machine) (s v : positive) (x : task_dynamic_state.t)
    (xv : continuation_vertex.t) :
  ledger m -> small m ->
  states m !! s = Some x ->
  vertices m !! v = Some xv ->
  ledger (pushed s x (fresh (dom (nodes m))) (Some v) (reserved v xv m)).
Proof.
  intros L Hsmall Hs Hv.
  set (n := fresh (dom (nodes m))).
  assert (Hn : carried m !! n = None) by apply carried_fresh.
  assert (Hcar : carried (pushed s x n (Some v) (reserved v xv m))
                 = <[n := Some v]> (carried m)).
  { unfold carried, pushed, reserved. mproj. rewrite fmap_insert. reflexivity. }
  destruct (ledger_vertex m L v xv Hv) as (t & tk & s' & H1 & H2 & H3 & H4 & H5).
  pose proof (count_ok_bounds m v t _ H5 Hsmall) as Hbound.
  apply (ledger_recount m _ v xv
           (wrap64 (continuation_vertex.m_ref_count xv + 1)) L Hv); try reflexivity.
  - unfold links, pushed, reserved. mproj. rewrite fmap_insert. apply insert_id.
    rewrite lookup_fmap, Hs. reflexivity.
  - intros n' u. rewrite Hcar. intros Hn'.
    apply lookup_insert_Some in Hn' as [[_ Hu] | [_ Hold]]; [left | right; exact Hold].
    congruence.
  - intros u Hu. unfold nodes_of. rewrite Hcar, (carriers_insert _ _ _ _ Hn).
    rewrite decide_False by congruence. reflexivity.
  - apply handles_shrink_same. reflexivity.
  - unfold pushed, reserved. readings. reflexivity.
  - assert (Hnodes : nodes_of (pushed s x n (Some v) (reserved v xv m)) v
                     = S (nodes_of m v)).
    { unfold nodes_of. rewrite Hcar, (carriers_insert _ _ _ _ Hn).
      rewrite decide_True by reflexivity. reflexivity. }
    rewrite wrap64_small by lia.
    intros t' _ [Hc | (Hc & Hu & Ho)]; [left | right]; rewrite Hnodes, Hc.
    + lia.
    + split; [lia |]. split; [exact Hu |]. unfold pushed, reserved. readings. exact Ho.
Qed.

Lemma add_successor_settled (fuel : nat) :
  forall (s v : positive) (m : machine),
    ledger m -> small m ->
    settled 1 None m ((add_successor fuel s (Some v) ;;; ret None) m).
Proof.
  induction fuel as [| fuel IH]; intros s v m L Hsmall;
    [apply settled_stop; exact L |].
  destruct (states m !! s) as [x |] eqn:Hs.
  2:{ unfold bind at 1. cbn [add_successor]. unfold load_head. munfold. msimp.
      rewrite Hs. destruct (use_assert m); apply settled_stop; exact L. }
  destruct (decide (task_dynamic_state.m_successor_list_head x = COMPLETED_FLAG))
    as [Hc | Halive].
  - unfold bind at 1. rewrite (add_successor_completed_here fuel m s v x Hs Hc).
    destruct (task_dynamic_state.m_new_dynamic_state x) as [s' |].
    + apply (IH s' v m L Hsmall).
    + apply settled_return. exact L.
  - destruct (vertices m !! v) as [xv |] eqn:Hv.
    2:{ unfold bind at 1. cbn [add_successor].
        unfold load_head, continuation_vertex_reserve. munfold. msimp. rewrite Hs.
        rewrite (is_completed_not_completed _ Halive). msimp. rewrite Hv.
        destruct (use_assert m); apply settled_stop; exact L. }
    destruct fuel as [| [| fuel]].
    + unfold bind at 1. cbn [add_successor add_successor_node].
      unfold load_head, continuation_vertex_reserve, successor_list_node_new.
      munfold. msimp. rewrite Hs. rewrite (is_completed_not_completed _ Halive). msimp.
      rewrite Hv. msimp.
      destruct (use_assert m); apply settled_quiet; try exact L; readings; reflexivity.
    + unfold bind at 1. cbn [add_successor add_successor_node add_successor_node_loop].
      unfold load_head, continuation_vertex_reserve, successor_list_node_new,
        check_transfer_or_completion, set_next_node.
      munfold. msimp. rewrite Hs. rewrite (is_completed_not_completed _ Halive). msimp.
      rewrite Hv. msimp. rewrite Hs. rewrite (is_alive_not_completed _ Halive). msimp.
      destruct (use_assert m); apply settled_quiet; try exact L; readings; reflexivity.
    + unfold bind at 1. rewrite (add_successor_alive fuel m s v x xv Hs Halive Hv).
      apply settled_done.
      * apply ledger_pushed; assumption.
      * unfold pushed, reserved. mproj.
        rewrite map_size_insert_None by apply fresh_unallocated. lia.
      * unfold pushed, reserved. readings. reflexivity.
      * unfold pushed, reserved. readings. reflexivity.
Qed.

(** The calls that build and run the graph: the dynamic state of the task of
    a handle is asked for, an order between two states is set, a handle is
    submitted, a task has completed, a task transfers its successors. *)
Inductive operation : Type :=
| GetState (th : positive)
| SetOrder (pred succ : positive)
| Submit (th : positive)
| Complete (t : positive)
| Transfer (t target : positive).

(** One call; the result is the task that the call returns for bypass.  The
    task pointer that [task_handle_accessor::release] returns goes to the
    caller, who owns the task from then on. *)
Definition perform (fuel : nat) (o : operation) : M ptr :=
  match o with
  | GetState th => task_handle_accessor_get_task_dynamic_state th ;;; ret None
  | SetOrder pred succ => internal_set_task_order fuel (Some pred) (Some succ) ;;; ret None
  | Submit th => task_handle_accessor_release th ;;; ret None
  | Complete t => task_handle_task_complete_task fuel t
  | Transfer t target =>
      task_handle_task_transfer_successors_to fuel t (Some target) ;;; ret None
  end.

(** The calls of [ops] one after the other; [returned] collects the tasks
    returned for bypass. *)
Fixpoint perform_all (fuel : nat) (ops : list operation) (returned : list positive)
    : M (list positive) :=
  match ops with
  | [] => ret returned
  | o :: ops' =>
      r <- perform fuel o ;;
      perform_all fuel ops' (returned ++ option_list r)
  end.

Lemma set_order_settled (fuel : nat) (m : machine) (pred succ : positive) :
  ledger m -> small m -> settled 1 None m (perform fuel (SetOrder pred succ) m).
Proof.
  intros L Hsmall. cbn [perform]. unfold bind at 1.
  rewrite internal_set_task_order_run.
  destruct (states m !! succ) as [x |] eqn:Hs.
  2:{ unfold task_dynamic_state_get_continuation_vertex. munfold. rewrite Hs.
      apply settled_stop. exact L. }
  destruct (task_dynamic_state.m_continuation_vertex x) as [v |] eqn:Hx.
  - rewrite (get_continuation_vertex_present m succ x Hs v Hx).
    apply (add_successor_settled fuel pred v m L Hsmall).
  - rewrite (get_continuation_vertex_absent m succ x Hs Hx). cbv zeta.
    set (v := fresh (dom (vertices m))).
    set (m1 := set_states _ _).
    assert (L1 : ledger m1).
    { apply (ledger_new_vertex m m1 succ v (task_dynamic_state.m_task x) L);
        try reflexivity.
      - rewrite (links_lookup m succ x Hs), Hx. reflexivity.
      - apply fresh_unallocated.
      - unfold links, m1. mproj. rewrite fmap_insert. reflexivity. }
    apply (settled_after 1 None None m m1 [] []).
    + rewrite app_nil_r. reflexivity.
    + rewrite app_nil_r. reflexivity.
    + reflexivity.
    + reflexivity.
    + reflexivity.
    + apply (add_successor_settled fuel pred v m1 L1). exact Hsmall.
Qed.

Lemma get_state_settled (fuel : nat) (m : machine) (th : positive) :
  ledger m -> settled 1 None m (perform fuel (GetState th) m).
Proof.
  intros L. cbn [perform]. unfold task_handle_accessor_get_task_dynamic_state.
  cbv beta iota delta [bind ret abort nonnull m_handle].
  destruct (task_handles m !! th) as [[t |] |]; try (apply settled_stop; exact L).
  destruct (tasks m !! t) as [tk |] eqn:Ht.
  2:{ unfold get_dynamic_state. munfold. rewrite Ht. apply settled_stop. exact L. }
  destruct (task_handle_task.m_dynamic_state tk) as [s |] eqn:Hd.
  - rewrite (get_dynamic_state_present m t tk Ht s Hd). apply settled_return. exact L.
  - rewrite (get_dynamic_state_absent m t tk Ht Hd). cbv zeta.
    apply settled_done; try reflexivity; [| mproj; lia].
    apply (ledger_new_state m _ t (fresh (dom (states m))) tk L Ht Hd); try reflexivity.
    + unfold links. rewrite lookup_fmap, fresh_unallocated. reflexivity.
    + unfold links. mproj. rewrite fmap_insert. reflexivity.
Qed.

Lemma transfer_settled (fuel : nat) (m : machine) (t target : positive) :
  ledger m -> settled 1 None m (perform fuel (Transfer t target) m).
Proof.
  intros L. cbn [perform]. apply (settled_kept 1 m _ L).
  apply task_transfer_successors_to_kept.
Qed.

Lemma complete_settled (fuel : nat) (m : machine) (t : positive) :
  ledger m -> small m -> settled 1 None m (perform fuel (Complete t) m).
Proof.
  intros L Hsmall. cbn [perform]. unfold task_handle_task_complete_task.
  cbv beta iota delta [bind task_at].
  destruct (tasks m !! t) as [tk |]; [| apply settled_stop; exact L].
  destruct (task_handle_task.m_dynamic_state tk) as [s |];
    [| apply settled_return; exact L].
  unfold task_dynamic_state_complete_task, release_successor_list. unfold bind at 1.
  pose proof (fetch_successor_list_kept m m s COMPLETED_FLAG (graph_kept_refl m)) as Hk.
  destruct (fetch_successor_list s COMPLETED_FLAG m) as [list m1 | f m1];
    cbn [machine_of] in Hk.
  - apply (settled_after 1 None None m m1 [] []).
    + rewrite app_nil_r. apply (kept_bypassed m m1 Hk).
    + rewrite app_nil_r. apply (kept_spawned m m1 Hk).
    + rewrite (graph_kept_size m m1 Hk). lia.
    + reflexivity.
    + reflexivity.
    + apply settled_more. apply release_successor_list_loop_settled.
      * exact (graph_kept_ledger m m1 Hk L).
      * unfold small. rewrite (graph_kept_size m m1 Hk). exact Hsmall.
  - apply (settled_quiet 1 None m m1 f L).
    + apply (kept_bypassed m m1 Hk).
    + apply (kept_spawned m m1 Hk).
Qed.

Lemma handles_shrink_emptied (m m' : machine) (th : positive) :
  task_handles m' = <[th := None]> (task_handles m) -> handles_shrink m m'.
Proof.
  intros H h t. rewrite H. intros Hh.
  apply lookup_insert_Some in Hh as [[_ Hh] | [_ Hh]]; [discriminate Hh | exact Hh].
Qed.

Lemma unowned_emptied (m m' : machine) (th t : positive) :
  ledger m ->
  task_handles m !! th = Some (Some t) ->
  task_handles m' = <[th := None]> (task_handles m) ->
  unowned m' t.
Proof.
  intros L Hth H h. rewrite H. intros Hh.
  apply lookup_insert_Some in Hh as [[_ Hh] | [Hne Hh]]; [discriminate Hh |].
  apply Hne. exact (ledger_handle m L th h t Hth Hh).
Qed.

Lemma submit_settled (fuel : nat) (m : machine) (th : positive) :
  ledger m -> small m -> settled 1 None m (perform fuel (Submit th) m).
Proof.
  intros L Hsmall. cbn [perform].
  unfold task_handle_accessor_release, task_handle_task_release_continuation,
    task_handle_release.
  cbv beta iota delta [bind ret abort nonnull m_handle task_at modify].
  destruct (task_handles m !! th) as [[t |] |] eqn:Hth; cbv beta iota;
    try (apply settled_stop; exact L).
  destruct (tasks m !! t) as [tk |] eqn:Ht; cbv beta iota;
    [| apply settled_stop; exact L].
  assert (Hempty : ledger (set_task_handles (insert th None) m)).
  { apply (ledger_handles m); try done.
    apply (handles_shrink_emptied m _ th). reflexivity. }
  destruct (task_handle_task.m_dynamic_state tk) as [s |] eqn:Hd; cbv beta iota.
  2:{ rewrite Hth. apply settled_done; try done. mproj. lia. }
  destruct (ledger_task m L t tk s Ht Hd) as (l & Hl & Hl1).
  destruct (links_lookup_inv m s l Hl) as (x & Hs & ->). simpl in Hl1.
  rewrite (has_dependencies_run m s x Hs). cbv beta iota.
  destruct (task_dynamic_state.m_continuation_vertex x) as [v |] eqn:Hx.
  2:{ rewrite bool_decide_eq_false_2 by (intros H; apply H; reflexivity).
      rewrite Hth. apply settled_done; try done. mproj. lia. }
  rewrite bool_decide_eq_true_2 by done.
  destruct (ledger_link m L s _ v Hl eq_refl) as (xv & Hv & Hxt). simpl in Hxt.
  rewrite Hl1 in Hxt.
  destruct (ledger_vertex m L v xv Hv) as (t' & tk' & s' & H1 & H2 & H3 & H4 & H5).
  assert (t' = t) as -> by congruence.
  assert (Hown : ~ unowned m t) by (intros Hu; exact (Hu th Hth)).
  pose proof (count_ok_bounds m v t _ H5 Hsmall) as Hbound.
  destruct H5 as [Hc | (_ & Hu & _)]; [| destruct (Hown Hu)].
  assert (Hnew : t ∉ bypassed (trace m)).
  { intros Hin. apply Hown. exact (ledger_out m L t Hin). }
  unfold task_dynamic_state_release_continuation.
  cbv beta iota delta [bind ret abort nonnull state_at tbb_assert].
  rewrite Hs, Hx. rewrite bool_decide_eq_true_2 by done.
  rewrite andb_false_r. cbv beta iota.
  destruct (decide (continuation_vertex.m_ref_count xv = 1)) as [Hone | Hmore].
  - (* the submission releases the last reference *)
    rewrite (release_bypass_zero m v t s xv tk x Hv Hone Hxt Ht Hd Hs).
    unfold spawn. cbv beta iota delta [bind task_at emit modify].
    assert (tasks (handed v t s x m) !! t = Some tk) as -> by exact Ht.
    cbv beta iota. mproj.
    assert (task_handles (handed v t s x m) = task_handles m) as -> by reflexivity.
    rewrite Hth. cbv beta iota.
    set (m' := set_task_handles _ _).
    assert (Hzero : carriers (carried m) v = 0%nat).
    { unfold nodes_of in Hc. lia. }
    assert (Hxtask : task_dynamic_state.m_task x = Some t) by exact Hl1.
    split; [| split; [unfold m', handed; mproj; lia |]].
    + apply (ledger_handed_out m m' v t s xv L Hv Hxt); try reflexivity; try assumption.
      * rewrite Hl, Hxtask. reflexivity.
      * unfold links, m', handed. mproj. rewrite fmap_insert. mproj.
        rewrite Hxtask. reflexivity.
      * intros n u Hn. split; [| exact Hn]. intros ->.
        exact (carriers_none _ v Hzero n Hn).
      * apply (handles_shrink_emptied m m' th). reflexivity.
      * unfold m'. readings. reflexivity.
      * apply (unowned_emptied m m' th t L Hth). reflexivity.
    + exists [t], [t]. unfold m'. readings. done.
  - (* references of predecessors are left *)
    rewrite (release_bypass_pending m v xv 1 Hv)
      by (rewrite wrap64_small by lia; lia).
    rewrite wrap64_small by lia. mproj. rewrite Hth. cbv beta iota.
    set (m' := set_task_handles _ _).
    apply settled_done;
      [| unfold m'; mproj; lia | unfold m'; readings; reflexivity
       | unfold m'; readings; reflexivity].
    apply (ledger_recount m m' v xv (continuation_vertex.m_ref_count xv - 1) L Hv);
      try reflexivity.
    + intros n u Hn. right. exact Hn.
    + apply (handles_shrink_emptied m m' th). reflexivity.
    + unfold m'. readings. reflexivity.
    + intros t0 Ht0 _. right.
      assert (Hnodes : nodes_of m' v = nodes_of m v) by reflexivity.
      split; [rewrite Hnodes; lia |].
      assert (t0 = t) as -> by congruence.
      split; [apply (unowned_emptied m m' th t L Hth); reflexivity |].
      unfold m'. readings. exact Hnew.
Qed.

Lemma perform_settled (fuel : nat) (o : operation) (m : machine) :
  ledger m -> small m -> settled 1 None m (perform fuel o m).
Proof.
  intros L Hsmall. destruct o as [th | pred succ | th | t | t target].
  - apply get_state_settled. exact L.
  - apply set_order_settled; assumption.
  - apply submit_settled; assumption.
  - apply complete_settled; assumption.
  - apply transfer_settled. exact L.
Qed.

Lemma perform_all_settled (fuel : nat) (ops : list operation) :
  forall (returned : list positive) (m : machine),
    ledger m ->
    Z.of_nat (size (nodes m) + length ops) < 2 ^ 64 - 1 ->
    spawned (trace m) ++ returned ≡ₚ bypassed (trace m) ->
    match perform_all fuel ops returned m with
    | Done rets m' => ledger m' /\ spawned (trace m') ++ rets ≡ₚ bypassed (trace m')
    | Abort _ m' =>
        NoDup (bypassed (trace m')) /\ spawned (trace m') ⊆+ bypassed (trace m')
    end.
Proof.
  induction ops as [| o ops IH]; intros returned m L Hsize Hacc; [done |].
  cbn [perform_all]. unfold bind.
  assert (Hsmall : small m) by (unfold small; cbn [length] in Hsize; lia).
  pose proof (perform_settled fuel o m L Hsmall) as Hstep.
  destruct (perform fuel o m) as [r m1 | f m1]; cbn [settled] in Hstep.
  - destruct Hstep as (L1 & Hsz & new & sp & Hb & Hs & Hperm).
    apply IH; [exact L1 | cbn [length] in Hsize; lia |].
    rewrite Hb, Hs, <- Hacc. cbn [option_list app] in Hperm. rewrite Hperm.
    rewrite <- !app_assoc. apply Permutation_app_head.
    rewrite (app_assoc returned). apply Permutation_app_comm.
  - destruct Hstep as (Hnd & new & sp & Hb & Hs & Hsub).
    split; [exact Hnd |]. rewrite Hb, Hs. apply submseteq_app; [| exact Hsub].
    rewrite <- Hacc. apply submseteq_inserts_r. reflexivity.
Qed.

(** ** A graph before its first edge *)

(** No two task handles own the same task. *)
Definition unshared (h : gmap positive ptr) : Prop :=
  map_Forall (fun h1 p1 =>
    map_Forall (fun h2 p2 => p1 = p2 -> p1 <> None -> h1 = h2) h) h.

#[export] Instance unshared_dec h : Decision (unshared h).
Proof. unfold unshared. apply _. Defined.

(** No task has a dynamic state yet. *)
Definition stateless (ts : gmap positive task_handle_task.t) : Prop :=
  map_Forall (fun _ tk => task_handle_task.m_dynamic_state tk = None) ts.

#[export] Instance stateless_dec ts : Decision (stateless ts).
Proof. unfold stateless. apply _. Defined.

Lemma ledger_initial (m : machine) :
  nodes m = ∅ -> vertices m = ∅ -> states m = ∅ -> trace m = [] ->
  stateless (tasks m) -> unshared (task_handles m) ->
  ledger m.
Proof.
  intros Hn Hv Hs Htr Ht Hh. split.
  - intros s l. unfold links. rewrite Hs, fmap_empty, lookup_empty. discriminate.
  - intros t tk s Htk Hd. rewrite (Ht t tk Htk) in Hd. discriminate Hd.
  - intros v xv. rewrite Hv, lookup_empty. discriminate.
  - intros s l v. unfold links. rewrite Hs, fmap_empty, lookup_empty. discriminate.
  - intros n v. unfold carried. rewrite Hn, fmap_empty, lookup_empty. discriminate.
  - intros h1 h2 t H1 H2. apply (Hh h1 _ H1 h2 _ H2); [reflexivity | discriminate].
  - rewrite Htr. apply NoDup_nil_2.
  - intros t. rewrite Htr. intros Hin. apply elem_of_nil in Hin. destruct Hin.
Qed.

(** Tasks 1 and 2 without dynamic state, owned by the handles 1 and 2. *)
Definition unlinked_tasks : machine :=
  Machine ∅ ∅ ∅
    {[ 1%positive := task_handle_task.mk 9%positive None;
       2%positive := task_handle_task.mk 9%positive None ]}
    {[ 1%positive := Some 1%positive; 2%positive := Some 2%positive ]} ∅ true [].

Lemma ledger_unlinked_tasks : ledger unlinked_tasks.
Proof.
  apply ledger_initial; try reflexivity.
  - apply (bool_decide_unpack _). vm_compute. exact I.
  - apply (bool_decide_unpack _). vm_compute. exact I.
Qed.

(** Across every sequence of calls that ask for a dynamic state, set an
    order, submit a handle, complete a task or transfer successors, started
    on a graph that satisfies the ledger and has handed out nothing, every
    task is handed out at most once: if all calls return, the tasks spawned
    and the tasks returned for bypass are pairwise distinct, and they are the
    tasks that [release_bypass] handed out; if a call stops, no task was
    handed out twice up to there and every task spawned was handed out.  The
    node heap stays below 2^64 nodes. *)
Theorem each_task_handed_out_once (fuel : nat) (ops : list operation) (m : machine) :
  ledger m ->
  trace m = [] ->
  Z.of_nat (size (nodes m) + length ops) < 2 ^ 64 - 1 ->
  match perform_all fuel ops [] m with
  | Done returned m' =>
      NoDup (spawned (trace m') ++ returned) /\
      spawned (trace m') ++ returned ≡ₚ bypassed (trace m')
  | Abort _ m' =>
      NoDup (spawned (trace m')) /\ NoDup (bypassed (trace m')) /\
      spawned (trace m') ⊆+ bypassed (trace m')
  end.
Proof.
  intros L Htr Hsize.
  pose proof (perform_all_settled fuel ops [] m L Hsize) as Hrun.
  rewrite Htr in Hrun. specialize (Hrun (reflexivity _)).
  destruct (perform_all fuel ops [] m) as [returned m' | f m'].
  - destruct Hrun as [L' Hperm]. split; [| exact Hperm].
    rewrite Hperm. apply (ledger_once m' L').
  - destruct Hrun as [Hnd Hsub]. split; [| split; assumption].
    destruct (submseteq_Permutation _ _ Hsub) as [k Hk]. rewrite Hk in Hnd.
    apply NoDup_app in Hnd as [Hnd _]. exact Hnd.
Qed.

Lemma each_task_handed_out_once_witness :
  exists m',
    perform_all 3 [GetState 1; GetState 2; SetOrder 1 2; Submit 2; Complete 1] []
      unlinked_tasks = Done [2%positive] m' /\
    NoDup (spawned (trace m') ++ [2%positive]).
Proof.
  assert (Hc : exists mc,
    perform_all 3 [GetState 1; GetState 2; SetOrder 1 2; Submit 2; Complete 1] []
      unlinked_tasks = Done [2%positive] mc)
    by (eexists; vm_compute; reflexivity).
  destruct Hc as (mc & Hc).
  pose proof (each_task_handed_out_once 3
    [GetState 1; GetState 2; SetOrder 1 2; Submit 2; Complete 1] unlinked_tasks
    ledger_unlinked_tasks eq_refl) as H.
  rewrite Hc in H. destruct H as [Hnd _]; [vm_compute; reflexivity |].
  exists mc. split; [exact Hc | exact Hnd].
Defined.

(** ** The ledger as an invariant of the calls *)



(** ** What a transfer leaves alone *)


(** * Completion handles: assignment from a task handle *)

(** [operator=(const task_handle&)] on a handle that owns a task with a
    dynamic state: an empty completion handle comes to track that state and
    takes one reference on it; a completion handle that tracked that state
    already releases it first and reserves it again, so that the count, the
    states and the handles are as before. *)
Theorem assign_from_task_handle (fuel : nat) (m : machine) (this th t s : positive)
    (tk : task_handle_task.t) (x : task_dynamic_state.t) :
  task_handles m !! th = Some (Some t) ->
  tasks m !! t = Some tk ->
  task_handle_task.m_dynamic_state tk = Some s ->
  states m !! s = Some x ->
  (completion_handles m !! this = Some None ->
   0 <= task_dynamic_state.m_num_references x < 2 ^ 64 - 1 ->
   task_completion_handle_assign_task_handle fuel this th m
     = Done tt (log (StateReserve s)
         (set_states (insert s (with_references
                                  (task_dynamic_state.m_num_references x + 1) x))
            (set_completion_handles (insert this (Some s)) m)))) /\
  (completion_handles m !! this = Some (Some s) ->
   2 <= task_dynamic_state.m_num_references x < 2 ^ 64 ->
   exists m',
     task_completion_handle_assign_task_handle (S fuel) this th m = Done tt m' /\
     states m' = states m /\ completion_handles m' = completion_handles m /\
     tasks m' = tasks m /\
     trace m' = trace m ++ [StateRelease s; StateReserve s]).
Proof.
  intros Hth Ht Hd Hs.
  assert (Hbool : task_handle_bool th m = Done true m).
  { unfold task_handle_bool. munfold. rewrite Hth.
    rewrite bool_decide_eq_true_2 by done. reflexivity. }
  split.
  - intros Hthis Hr.
    unfold task_completion_handle_assign_task_handle, task_dynamic_state_reserve.
    unfold bind at 1. rewrite Hbool. munfold. msimp. rewrite Hthis. mproj.
    rewrite Hth. mproj.
    rewrite (get_dynamic_state_present m t tk Ht s Hd). msimp.
    rewrite Hs. rewrite wrap64_small by lia. reflexivity.
  - intros Hthis Hr.
    assert (Hn : ~ on_last_reference x).
    { unfold on_last_reference. rewrite wrap64_small by lia. lia. }
    eexists. split.
    { unfold task_completion_handle_assign_task_handle, task_dynamic_state_reserve.
      unfold bind at 1. rewrite Hbool. munfold. msimp. rewrite Hthis.
      rewrite (release_shared fuel m s x Hs Hn).
      assert (task_handles (decremented s x m) !! th = Some (Some t)) as -> by exact Hth.
      mproj.
      rewrite (get_dynamic_state_present (decremented s x m) t tk Ht s Hd). msimp.
      unfold decremented. msimp. reflexivity. }
    unfold decremented. mproj.
    rewrite (wrap64_small (task_dynamic_state.m_num_references x - 1)) by lia.
    rewrite wrap64_small by lia.
    rewrite insert_insert_eq, <- app_assoc.
    split; [| split; [| done]].
    + apply insert_id. rewrite Hs. f_equal. destruct x as [a b c d e].
      unfold with_references. mproj. f_equal. lia.
    + apply insert_id. exact Hthis.
Qed.

(** The machine [live_predecessor] with the empty completion handle 5. *)
Definition empty_completion_handle : machine :=
  set_completion_handles (insert 5%positive None) live_predecessor.

Lemma assign_from_task_handle_witness :
  exists m',
    task_completion_handle_assign_task_handle 1 5 1 empty_completion_handle = Done tt m' /\
    completion_handles m' !! 5%positive = Some (Some 2%positive).
Proof.
  destruct (assign_from_task_handle 1 empty_completion_handle 5 1 2 2
              (task_handle_task.mk 9%positive (Some 2%positive))
              (task_dynamic_state.mk (Some 2%positive) NullPtr None None 1))
    as [H _]; [reflexivity | reflexivity | reflexivity | reflexivity |].
  eexists. split; [apply H; [reflexivity | simpl; lia] | reflexivity].
Defined.

(** * A transfer into a sealed state *)

Lemma lseg_completed_not_list h l :
  forall p, lseg h p COMPLETED_FLAG l -> forall l', ~ is_list h p l'.
Proof.
  induction l as [| a l IH]; intros p Hseg l' Hl.
  - inversion Hseg; subst. exact (is_list_completed_inv h l' Hl).
  - inversion Hseg as [| n x q l0 Hn Hrest]; subst.
    apply is_list_node_inv in Hl as (x2 & l2 & -> & Hn2 & Hl2).
    rewrite Hn in Hn2. injection Hn2 as <-. exact (IH _ Hrest _ Hl2).
Qed.

(** [add_successor_list] does not look at the state of the list it extends:
    a transfer of a non-empty list into a state that is sealed (completed, or
    itself transferred) makes the list the head of that state, which is live
    again, and stores the COMPLETED flag as the successor of the last node.
    The list of the target ends in the flag and not in null, so it is not a
    well-formed list any more. *)
Theorem transfer_into_sealed_state (fuel : nat) (m : machine) (s s' n : positive)
    (x x' : task_dynamic_state.t) (l : list positive) :
  s <> s' ->
  states m !! s = Some x ->
  states m !! s' = Some x' ->
  task_dynamic_state.m_successor_list_head x' = COMPLETED_FLAG ->
  is_list (nodes m) (task_dynamic_state.m_successor_list_head x) (n :: l) ->
  (length l < fuel)%nat ->
  exists m' xz,
    task_dynamic_state_transfer_successors_to fuel s (Some s') m = Done tt m' /\
    states m' !! s'
      = Some (with_head (NodePtr n)
                (with_references (wrap64 (task_dynamic_state.m_num_references x' + 1)) x')) /\
    is_alive (NodePtr n) = true /\
    nodes m' !! List.last l n = Some xz /\
    successor_list_node.m_next_successor xz = COMPLETED_FLAG /\
    lseg (nodes m') (NodePtr n) COMPLETED_FLAG (n :: l) /\
    forall l', ~ is_list (nodes m') (NodePtr n) l'.
Proof.
  intros Hne Hs Hs' Hsealed Hl Hfuel.
  set (x1 := with_references (wrap64 (task_dynamic_state.m_num_references x' + 1)) x').
  set (m3 := log (ExchangeHead s COMPLETED_FLAG (task_dynamic_state.m_successor_list_head x))
    (set_states (insert s (with_head COMPLETED_FLAG (with_new_state (Some s') x)))
      (log (StoreNewState s s')
        (set_states (insert s (with_new_state (Some s') x))
          (log (StateReserve s') (set_states (insert s' x1) m)))))).
  assert (Hrun : task_dynamic_state_transfer_successors_to fuel s (Some s') m
                 = add_successor_list fuel s'
                     (task_dynamic_state.m_successor_list_head x) m3).
  { unfold task_dynamic_state_transfer_successors_to, task_dynamic_state_reserve,
      fetch_successor_list, TRANSFER_FLAG.
    munfold. msimp. rewrite Hs'. msimp. rewrite Hs. msimp. reflexivity. }
  assert (Hs3 : states m3 !! s' = Some x1) by (unfold m3; msimp; reflexivity).
  pose proof (is_list_cons_inv _ _ _ _ Hl) as Hhead. rewrite Hhead in *.
  destruct (lseg_lookup _ _ _ _ (List.last l n) Hl (last_elem_of l n)) as [xz Hz].
  assert (Hseg : lseg (<[List.last l n := successor_list_node.mk COMPLETED_FLAG
                           (successor_list_node.m_continuation_vertex xz)]> (nodes m))
                   (NodePtr n) COMPLETED_FLAG (n :: l)).
  { assert (Hsplit : n :: l = removelast (n :: l) ++ [List.last l n]).
    { rewrite <- (last_cons_default l n n). apply app_removelast_last. discriminate. }
    rewrite Hsplit. apply is_list_redirect; [rewrite <- Hsplit; exact Hl | exact Hz]. }
  exists (spliced s' x1 (NodePtr n) (List.last l n) xz m3).
  exists (successor_list_node.mk COMPLETED_FLAG (successor_list_node.m_continuation_vertex xz)).
  split.
  { rewrite Hrun. apply add_successor_list_run; [exact Hs3 | exact Hl | exact Hz | exact Hfuel]. }
  unfold spliced, m3, x1. msimp. rewrite Hsealed.
  split; [reflexivity |]. split; [reflexivity |].
  split; [reflexivity |]. split; [reflexivity |].
  split; [exact Hseg |]. apply (lseg_completed_not_list _ _ _ Hseg).
Qed.

Lemma transfer_into_sealed_state_witness :
  exists m',
    task_dynamic_state_transfer_successors_to 1 1 (Some 2%positive) transfer_states
      = Done tt m' /\
    nodes m' !! 1%positive
      = Some (successor_list_node.mk COMPLETED_FLAG (Some 1%positive)).
Proof.
  destruct (transfer_into_sealed_state 1 transfer_states 1 2 1
    (task_dynamic_state.mk (Some 1%positive) (NodePtr 1) None None 1)
    (task_dynamic_state.mk (Some 2%positive) CompletedPtr None (Some 3%positive) 1) [])
    as (m' & xz & Hrun & _ & _ & Hz & _).
  - discriminate.
  - reflexivity.
  - reflexivity.
  - reflexivity.
  - eapply lseg_cons; [reflexivity | constructor].
  - simpl. lia.
  - assert (Hc : exists mc,
      task_dynamic_state_transfer_successors_to 1 1 (Some 2%positive) transfer_states
        = Done tt mc /\
      nodes mc !! 1%positive
        = Some (successor_list_node.mk COMPLETED_FLAG (Some 1%positive)))
      by (eexists; split; vm_compute; reflexivity).
    destruct Hc as (mc & Hc & Hn). rewrite Hc in Hrun. injection Hrun as <-.
    exists mc. split; [exact Hc | exact Hn].
Defined.

(** * A node that arrives after completion *)

(** [add_successor_node] on a state that is sealed and does not forward
    drops the node: [check_transfer_or_completion] releases the reference
    that the node holds on its vertex and finalizes the node; the node is on
    no list, no state changes, no task is handed out or spawned.  On a live
    state the check answers false and changes nothing. *)
Theorem add_successor_node_dropped (fuel : nat) (m : machine) (s n v : positive)
    (x : task_dynamic_state.t) (xn : successor_list_node.t) (xv : continuation_vertex.t) :
  states m !! s = Some x ->
  task_dynamic_state.m_new_dynamic_state x = None ->
  nodes m !! n = Some xn ->
  successor_list_node.m_continuation_vertex xn = Some v ->
  vertices m !! v = Some xv ->
  2 <= continuation_vertex.m_ref_count xv < 2 ^ 64 ->
  (task_dynamic_state.m_successor_list_head x = COMPLETED_FLAG ->
   add_successor_node (S fuel) s (Some n) m
     = Done tt (log (NodeFinalize n)
         (set_nodes (delete n)
            (log (VertexRelease v)
               (set_vertices (insert v (continuation_vertex.mk
                                          (continuation_vertex.m_ref_count xv - 1)
                                          (continuation_vertex.m_task xv))) m))))) /\
  (task_dynamic_state.m_successor_list_head x <> COMPLETED_FLAG ->
   check_transfer_or_completion (add_successor_node fuel) s
     (task_dynamic_state.m_successor_list_head x) (Some n) m = Done false m).
Proof.
  intros Hs Hf Hn Hxn Hv Hc. split.
  - intros Hsealed. cbn [add_successor_node].
    unfold check_transfer_or_completion, load_head, load_new_dynamic_state,
      successor_list_node_get_continuation_vertex, continuation_vertex_release,
      successor_list_node_finalize.
    munfold. msimp. rewrite Hs, Hsealed. unfold is_alive. msimp. rewrite Hs, Hf.
    mproj. rewrite Hn, Hxn. mproj. rewrite Hv. rewrite wrap64_small by lia.
    assert ((continuation_vertex.m_ref_count xv - 1 =? 0) = false) as ->
      by (apply Z.eqb_neq; lia).
    mproj. rewrite Hn. destruct (use_assert m); reflexivity.
  - intros Halive. unfold check_transfer_or_completion.
    rewrite (is_alive_not_completed _ Halive). reflexivity.
Qed.

Lemma add_successor_node_dropped_witness :
  exists m',
    add_successor_node 1 2 (Some 1%positive)
      (set_states (insert 2%positive
         (task_dynamic_state.mk (Some 2%positive) CompletedPtr None None 1)) transfer_states)
      = Done tt m' /\
    nodes m' = ∅.
Proof.
  destruct (add_successor_node_dropped 0
    (set_states (insert 2%positive
       (task_dynamic_state.mk (Some 2%positive) CompletedPtr None None 1)) transfer_states)
    2 1 1
    (task_dynamic_state.mk (Some 2%positive) CompletedPtr None None 1)
    (successor_list_node.mk NullPtr (Some 1%positive))
    (continuation_vertex.mk 2 (Some 5%positive))) as [H _];
    [reflexivity | reflexivity | reflexivity | reflexivity | reflexivity | simpl; lia |].
  eexists. split; [apply H; reflexivity | vm_compute; reflexivity].
Defined.

(** * Programming errors that the assertions catch *)

(** In a build with assertions, a null state given to
    [internal_set_task_order], a null vertex given to [add_successor], a null
    node given to [add_successor_node] and a [release_continuation] on a state
    without vertex stop at the assertion, before anything is read through
    the null pointer and before any object changes.  Without assertions
    [release_continuation] goes through the null vertex. *)
Theorem null_arguments_assert (fuel : nat) (m : machine) (s : positive) (p : ptr)
    (x : task_dynamic_state.t) :
  use_assert m = true ->
  internal_set_task_order fuel None p m = Abort AssertionFailure m /\
  internal_set_task_order fuel p None m = Abort AssertionFailure m /\
  add_successor (S fuel) s None m = Abort AssertionFailure m /\
  add_successor_node (S fuel) s None m = Abort AssertionFailure m /\
  (states m !! s = Some x ->
   task_dynamic_state.m_continuation_vertex x = None ->
   task_dynamic_state_release_continuation s m = Abort AssertionFailure m /\
   task_dynamic_state_release_continuation s
     (Machine (nodes m) (vertices m) (states m) (tasks m) (task_handles m)
        (completion_handles m) false (trace m))
     = Abort NullDereference
         (Machine (nodes m) (vertices m) (states m) (tasks m) (task_handles m)
            (completion_handles m) false (trace m))).
Proof.
  intros Ha.
  assert (Hno : ~ (@None positive <> None)) by (intros H; apply H; reflexivity).
  split; [| split; [| split; [| split]]].
  - unfold internal_set_task_order, tbb_assert, bind. rewrite Ha, (bool_decide_eq_false_2 _ Hno). reflexivity.
  - unfold internal_set_task_order, tbb_assert, bind. rewrite Ha, (bool_decide_eq_false_2 _ Hno), andb_false_r.
    reflexivity.
  - cbn [add_successor]. unfold tbb_assert, bind. rewrite Ha, (bool_decide_eq_false_2 _ Hno). reflexivity.
  - cbn [add_successor_node]. unfold tbb_assert, bind. rewrite Ha, (bool_decide_eq_false_2 _ Hno). reflexivity.
  - intros Hs Hx. unfold task_dynamic_state_release_continuation. munfold. mproj.
    rewrite Hs. cbv zeta. rewrite Hx, Ha, (bool_decide_eq_false_2 _ Hno). split; reflexivity.
Qed.

Lemma null_arguments_assert_witness :
  internal_set_task_order 3 None (Some 2%positive) two_tasks
    = Abort AssertionFailure two_tasks /\
  task_dynamic_state_release_continuation 1 two_tasks = Abort AssertionFailure two_tasks.
Proof.
  destruct (null_arguments_assert 3 two_tasks 1 (Some 2%positive)
              (task_dynamic_state.mk (Some 1%positive) NullPtr None None 1))
    as (H1 & _ & _ & _ & H5); [reflexivity |].
  split; [exact H1 |]. apply H5; reflexivity.
Defined.
